(** * slow_conv3d: the CPU volumetric convolution of ATen

    A shallow embedding of [aten/src/ATen/native/ConvolutionMM3d.cpp]:
    the shape validation, the weight reshaper, the per-item forward and
    backward kernels and the entry points that drive them over the batch.

    Conventions of the embedding.
    - [int64_t] values are integers of [Z]; every arithmetic operation of the
      source is written with its 64-bit two's-complement wrap-around
      ([add64], [sub64], [mul64], [div64]).
    - A tensor is its size vector and its elements in row-major order; every
      tensor is in canonical dense layout, so [contiguous()] is the identity.
      An optional tensor ([Tensor()] when undefined) is an [option].
    - The element type is a parameter [R] with its zero, one, sum and
      product; no law is assumed on them unless a theorem says so.
    - A raised [c10::Error] is a value [Err]; the destination buffers are
      threaded through a state-and-error monad whose failure keeps the
      buffers as they were when the error was raised.
    - [at::parallel_for] runs its body for the batch indices in increasing
      order. *)

From Stdlib Require Import ZArith List Bool Lia.
Import ListNotations.
Open Scope Z_scope.

(** ** 64-bit signed arithmetic *)

Definition int64_min : Z := - 2 ^ 63.
Definition int64_max : Z := 2 ^ 63 - 1.

Definition wrap64 (z : Z) : Z := (z + 2 ^ 63) mod 2 ^ 64 - 2 ^ 63.

Definition add64 (a b : Z) : Z := wrap64 (a + b).
Definition sub64 (a b : Z) : Z := wrap64 (a - b).
Definition mul64 (a b : Z) : Z := wrap64 (a * b).
(** C++ [/] on integers truncates toward zero.  A zero divisor is undefined
    in C++; [Z.quot] gives 0 there.  The only divisor the source does not
    check first is [kernel_height * kernel_width], zero only after a
    wrap-around. *)
Definition div64 (a b : Z) : Z := wrap64 (Z.quot a b).

Declare Scope int64_scope.
Delimit Scope int64_scope with i64.
Infix "[+]" := add64 (at level 50, left associativity) : int64_scope.
Infix "[-]" := sub64 (at level 50, left associativity) : int64_scope.
Infix "[*]" := mul64 (at level 40, left associativity) : int64_scope.
Infix "[/]" := div64 (at level 40, left associativity) : int64_scope.
Local Open Scope int64_scope.

Definition in_int64 (z : Z) : Prop := int64_min <= z <= int64_max.

(** Modelled from the spec: [div_rtn] of [ATen/div_rtn.h], a header outside
    ConvolutionMM3d.cpp; the spec describes it as the floor of the
    quotient. *)
Definition div_rtn (x y : Z) : Z := wrap64 (x / y).

(** ** Errors *)

Inductive message : Type :=
| kernel_size_not_positive
| stride_not_positive
| weight_not_nonempty_2D_or_5D
| weight_undefined
| input_not_nonempty_5D
| kernel_larger_than_padded_input
| output_size_too_small
| bias_empty
| dim_or_size_unexpected
| index_out_of_range
| shape_invalid
| size_mismatch.

Inductive error : Type :=
| InvalidArgument (m : message).

Inductive result (A : Type) : Type :=
| Ok (a : A)
| Err (e : error).
Arguments Ok {A} a.
Arguments Err {A} e.

Definition bind_result {A B} (r : result A) (k : A -> result B) : result B :=
  match r with
  | Ok a => k a
  | Err e => Err e
  end.

Declare Scope result_scope.
Delimit Scope result_scope with res.
Notation "x <- e ;; k" := (bind_result e (fun x => k))
  (at level 61, e at next level, right associativity) : result_scope.
Notation "e ;; k" := (bind_result e (fun _ => k))
  (at level 61, right associativity) : result_scope.

Definition TORCH_CHECK (cond : bool) (m : message) : result unit :=
  if cond then Ok tt else Err (InvalidArgument m).

(** ** State and errors

    A computation over buffers [S]: it returns a value or an error, together
    with the buffers as they are at that moment. *)

Definition M (S A : Type) : Type := S -> result A * S.

Definition ret {S A} (a : A) : M S A := fun s => (Ok a, s).

Definition bind {S A B} (m : M S A) (k : A -> M S B) : M S B :=
  fun s =>
    match m s with
    | (Ok a, s') => k a s'
    | (Err e, s') => (Err e, s')
    end.

Definition lift {S A} (r : result A) : M S A := fun s => (r, s).
Definition get {S} : M S S := fun s => (Ok s, s).
Definition modify {S} (f : S -> S) : M S unit := fun s => (Ok tt, f s).

(** Run [m] on views [v] of the buffers; what it wrote through the views is
    stored back, also when it raises. *)
Definition on_views {S V A} (v : V) (m : M V A) (store : V -> S -> S)
  : M S A :=
  fun s => let (r, v') := m v in (r, store v' s).

Declare Scope state_scope.
Delimit Scope state_scope with st.
Notation "x <- e ;; k" := (bind e (fun x => k))
  (at level 61, e at next level, right associativity) : state_scope.
Notation "e ;; k" := (bind e (fun _ => k))
  (at level 61, right associativity) : state_scope.

(** Index ranges of the loops: [zseq start len] is start, ..., start+len-1. *)
Fixpoint zseq (start : Z) (len : nat) : list Z :=
  match len with
  | O => []
  | S n => start :: zseq (start + 1) n
  end.

Definition range (n : Z) : list Z := zseq 0 (Z.to_nat n).

Fixpoint for_each {S} (ts : list Z) (body : Z -> M S unit) : M S unit :=
  match ts with
  | [] => ret tt
  | t :: ts' => bind (body t) (fun _ => for_each ts' body)
  end.

(** [for (int64_t t = start; t < end; t++)] *)
Definition for_range {S} (start end_ : Z) (body : Z -> M S unit) : M S unit :=
  for_each (zseq start (Z.to_nat (end_ - start))) body.

(** [at::parallel_for(begin, end, grain, f)]: the range is handed to [f] as
    one chunk; nothing runs on an empty range. *)
Definition parallel_for {S} (begin end_ grain_size : Z)
    (f : Z -> Z -> M S unit) : M S unit :=
  if begin <? end_ then f begin end_ else ret tt.

Definition CONV3D_GRAIN_SALT : Z := 20.

(** ** Element type

    The kernels are generic in the element type ([scalar_t]); its zero, one,
    sum and product are an interface, [uninitialized] is what freshly
    allocated storage holds. *)

Class Scalar (R : Type) : Type := {
  rzero : R;
  rone : R;
  radd : R -> R -> R;
  rmul : R -> R -> R;
  uninitialized : R
}.

#[export] Instance Z_Scalar : Scalar Z := {
  rzero := 0;
  rone := 1;
  radd := Z.add;
  rmul := Z.mul;
  uninitialized := 0
}.

(** ** Tensors *)

Record Tensor (R : Type) : Type := mkTensor { sizes : list Z; data : list R }.
Arguments mkTensor {R} sizes data.
Arguments sizes {R} t.
Arguments data {R} t.

(** The destination and scratch buffers of the forward entry point. *)
Module Fwd.
Record buffers (R : Type) : Type := mk {
  output : Tensor R;
  finput : Tensor R;
  fgrad_input : Tensor R
}.
Arguments mk {R} output finput fgrad_input.
Arguments output {R} b.
Arguments finput {R} b.
Arguments fgrad_input {R} b.
End Fwd.

(** The destination and scratch buffers of the backward entry point. *)
Module Bwd.
Record buffers (R : Type) : Type := mk {
  grad_input : option (Tensor R);
  grad_weight : option (Tensor R);
  grad_bias : option (Tensor R);
  fgrad_input : Tensor R
}.
Arguments mk {R} grad_input grad_weight grad_bias fgrad_input.
Arguments grad_input {R} b.
Arguments grad_weight {R} b.
Arguments grad_bias {R} b.
Arguments fgrad_input {R} b.
End Bwd.

Section Conv3d.

Context {R : Type} {ops : Scalar R}.

(** Modelled from the spec: [t.dim()], the rank. *)
Definition dim (t : Tensor R) : Z := Z.of_nat (length (sizes t)).

(** Modelled from the spec: [t.size(d)] for an index [d] the source has
    guarded. *)
Definition size (t : Tensor R) (d : Z) : Z := nth (Z.to_nat d) (sizes t) 0.

Definition prod_sizes (s : list Z) : Z := fold_right Z.mul 1 s.

(** Modelled from the spec: [t.numel()], the number of elements. *)
Definition numel (t : Tensor R) : Z := prod_sizes (sizes t).

(** Modelled from the spec: [t.defined()]. *)
Definition defined (t : option (Tensor R)) : bool :=
  match t with Some _ => true | None => false end.

(** Sizes a tensor can have: non-negative and representable, as is the
    number of elements. *)
Definition wf_sizes (t : Tensor R) : Prop :=
  Forall (fun s => 0 <= s <= int64_max) (sizes t) /\ numel t <= int64_max.

(** Modelled from the spec: [check_dim_size] of [ATen/TensorUtils.h], a header
    outside ConvolutionMM3d.cpp; it requires the rank and one size of a
    tensor. *)
Definition check_dim_size (tensor : Tensor R) (dim_ dim_size size_ : Z)
  : result unit :=
  TORCH_CHECK ((dim tensor =? dim_) && (size tensor dim_size =? size_))
              dim_or_size_unexpected.

(** ** Shape validation *)

Definition slow_conv3d_shape_check
    (input : Tensor R) (grad_output weight bias : option (Tensor R))
    (kernel_depth kernel_height kernel_width : Z)
    (stride_depth stride_height stride_width : Z)
    (pad_depth pad_height pad_width : Z)
    (weight_optional : bool) : result unit :=
  (TORCH_CHECK
     ((kernel_width >? 0) && (kernel_height >? 0) && (kernel_depth >? 0))
     kernel_size_not_positive ;;
   TORCH_CHECK
     ((stride_width >? 0) && (stride_height >? 0) && (stride_depth >? 0))
     stride_not_positive ;;
   match weight with
   | Some w =>
       TORCH_CHECK ((numel w >? 0) && ((dim w =? 2) || (dim w =? 5)))
                   weight_not_nonempty_2D_or_5D ;;
       match bias with
       | Some b => check_dim_size b 1 0 (size w 0)
       | None => Ok tt
       end
   | None => TORCH_CHECK weight_optional weight_undefined
   end ;;
   let ndim := dim input in
   let dim_batch := 0 in
   let dim_planes := 1 in
   let dim_depth := 2 in
   let dim_height := 3 in
   let dim_width := 4 in
   (* Allow for empty batch size but not other dimensions *)
   let valid_empty :=
     (ndim =? 5) && (size input dim_batch =? 0) &&
     negb (size input dim_planes =? 0) && negb (size input dim_depth =? 0) &&
     negb (size input dim_height =? 0) && negb (size input dim_width =? 0) in
   TORCH_CHECK (((numel input >? 0) || valid_empty) && (ndim =? 5))
               input_not_nonempty_5D ;;
   let input_depth := size input dim_depth in
   let input_height := size input dim_height in
   let input_width := size input dim_width in
   let exact_input_depth := input_depth [+] 2 [*] pad_depth in
   let exact_input_height := input_height [+] 2 [*] pad_height in
   let exact_input_width := input_width [+] 2 [*] pad_width in
   TORCH_CHECK
     ((exact_input_depth >=? kernel_depth) &&
      (exact_input_height >=? kernel_height) &&
      (exact_input_width >=? kernel_width))
     kernel_larger_than_padded_input ;;
   let output_depth :=
     div_rtn (exact_input_depth [-] kernel_depth) stride_depth [+] 1 in
   let output_height :=
     div_rtn (exact_input_height [-] kernel_height) stride_height [+] 1 in
   let output_width :=
     div_rtn (exact_input_width [-] kernel_width) stride_width [+] 1 in
   TORCH_CHECK
     ((output_depth >=? 1) && (output_width >=? 1) && (output_height >=? 1))
     output_size_too_small ;;
   match weight with
   | Some w =>
       let n_input_plane := size w 1 in
       let n_input_plane :=
         if dim w =? 2
         then n_input_plane [/] (kernel_height [*] kernel_width)
         else n_input_plane in
       check_dim_size input ndim dim_planes n_input_plane
   | None => Ok tt
   end ;;
   match grad_output with
   | Some go =>
       match weight with
       | Some w =>
           let n_output_plane := size w 0 in
           check_dim_size go ndim dim_planes n_output_plane
       | None =>
           match bias with
           | Some b =>
               TORCH_CHECK (numel b >? 0) bias_empty ;;
               let n_output_plane := if dim b =? 0 then 1 else size b 0 in
               check_dim_size go ndim dim_planes n_output_plane
           | None => Ok tt
           end
       end ;;
       check_dim_size go ndim dim_depth output_depth ;;
       check_dim_size go ndim dim_height output_height ;;
       check_dim_size go ndim dim_width output_width
   | None => Ok tt
   end)%res.


(** ** The dense-array primitives

    The generic array abstraction ([ATen/ATen.h]) is not among the sources;
    each of its operations used by the kernels is modelled from its contract
    in section 6 of the specification. *)

(** Modelled from the spec: [t.resize_(sizes)]; the storage keeps its leading
    elements and grows with uninitialized ones. *)
Definition resize_ (t : Tensor R) (new_sizes : list Z) : Tensor R :=
  let n := Z.to_nat (prod_sizes new_sizes) in
  mkTensor new_sizes (firstn n (data t ++ repeat uninitialized n)).

(** Modelled from the spec: [t.resize_as_(other)]. *)
Definition resize_as_ (t other : Tensor R) : Tensor R :=
  resize_ t (sizes other).

(** Modelled from the spec: [t.fill_(v)], the element broadcast-fill. *)
Definition fill_ (t : Tensor R) (v : R) : Tensor R :=
  mkTensor (sizes t) (repeat v (Z.to_nat (numel t))).

(** Modelled from the spec: [t.zero_()], the zero-fill. *)
Definition zero_ (t : Tensor R) : Tensor R := fill_ t rzero.

(** Number of elements of one item along the leading dimension. *)
Definition block_len (t : Tensor R) : nat :=
  Z.to_nat (prod_sizes (tl (sizes t))).

(** The [i]-th item along the leading dimension. *)
Definition block (t : Tensor R) (i : Z) : Tensor R :=
  mkTensor (tl (sizes t))
    (firstn (block_len t) (skipn (Z.to_nat i * block_len t) (data t))).

(** Modelled from the spec: [t[i]], the slice by leading index, a view of the
    [i]-th item; an index outside the leading dimension raises. *)
Definition select (t : Tensor R) (i : Z) : result (Tensor R) :=
  if (1 <=? dim t) && (0 <=? i) && (i <? size t 0)
  then Ok (block t i)
  else Err (InvalidArgument index_out_of_range).

(** Modelled from the spec: what a write through the view [t[i]] leaves in
    [t]. *)
Definition put_select (t : Tensor R) (i : Z) (v : Tensor R) : Tensor R :=
  mkTensor (sizes t)
    (firstn (Z.to_nat i * block_len t) (data t) ++ data v ++
     skipn ((Z.to_nat i + 1) * block_len t) (data t)).

(** Modelled from the spec: [t.item()] of a one-element tensor. *)
Definition item (t : Tensor R) : R := nth 0 (data t) rzero.

(** Modelled from the spec: [t.size(d)] where the source does not guard the
    index, which raises outside the rank. *)
Definition size_checked (t : Tensor R) (d : Z) : result Z :=
  if (0 <=? d) && (d <? dim t) then Ok (size t d)
  else Err (InvalidArgument index_out_of_range).

(** Modelled from the spec: [t.reshape(sizes)] of a dense tensor, the same
    elements under new sizes; it raises when the element counts differ. *)
Definition reshape (t : Tensor R) (new_sizes : list Z) : result (Tensor R) :=
  if prod_sizes new_sizes =? numel t
  then Ok (mkTensor new_sizes (data t))
  else Err (InvalidArgument shape_invalid).

(** Modelled from the spec: [t.view(sizes)] of a dense tensor. *)
Definition view (t : Tensor R) (new_sizes : list Z) : result (Tensor R) :=
  reshape t new_sizes.

(** Element [(i, j)] of a matrix. *)
Definition get2 (t : Tensor R) (i j : Z) : R :=
  nth (Z.to_nat (i * size t 1 + j)) (data t) rzero.

(** Modelled from the spec: [t.transpose(0, 1)] of a matrix; tensors of
    another rank are refused here, where the source would refuse them in
    the product that follows. *)
Definition transpose_0_1 (t : Tensor R) : result (Tensor R) :=
  if dim t =? 2
  then Ok (mkTensor [size t 1; size t 0]
             (flat_map (fun j => map (fun i => get2 t i j) (range (size t 0)))
                       (range (size t 1))))
  else Err (InvalidArgument index_out_of_range).

(** Modelled from the spec: element [(i, j)] of the matrix product
    [m1 * m2], summed over the inner index in increasing order. *)
Definition mm_entry (m1 m2 : Tensor R) (i j : Z) : R :=
  fold_left radd
    (map (fun k => rmul (get2 m1 i k) (get2 m2 k j)) (range (size m1 1)))
    rzero.

(** Modelled from the spec: two matrices whose product is defined. *)
Definition matrices_agree (m1 m2 : Tensor R) : bool :=
  (dim m1 =? 2) && (dim m2 =? 2) && (size m1 1 =? size m2 0).

(** Modelled from the spec: [at::mm_out(out, m1, m2)], the dense matrix
    multiply; [out] becomes [m1 * m2], and matrices that do not agree
    raise. *)
Definition mm_out (out m1 m2 : Tensor R) : result (Tensor R) :=
  if matrices_agree m1 m2
  then Ok (mkTensor [size m1 0; size m2 1]
             (flat_map (fun i => map (fun j => mm_entry m1 m2 i j)
                                     (range (size m2 1)))
                       (range (size m1 0))))
  else Err (InvalidArgument size_mismatch).

(** Modelled from the spec: [self.addmm_(m1, m2, beta, alpha)], the
    accumulate-multiply; [self] becomes [beta * self + alpha * (m1 * m2)],
    a zero [beta] multiplying like any other, and sizes that do not agree
    raise. *)
Definition addmm_ (self m1 m2 : Tensor R) (beta alpha : R)
  : result (Tensor R) :=
  if matrices_agree m1 m2 && (dim self =? 2) &&
     (size self 0 =? size m1 0) && (size self 1 =? size m2 1)
  then Ok (mkTensor (sizes self)
             (flat_map
                (fun i =>
                   map (fun j => radd (rmul beta (get2 self i j))
                                      (rmul alpha (mm_entry m1 m2 i j)))
                       (range (size self 1)))
                (range (size self 0))))
  else Err (InvalidArgument size_mismatch).

(** Modelled from the spec: a method called on a tensor that may be
    undefined raises when it is. *)
Definition deref (t : option (Tensor R)) : result (Tensor R) :=
  match t with
  | Some x => Ok x
  | None => Err (InvalidArgument weight_undefined)
  end.

(** ** The unfold and fold primitives *)

(** Modelled from the spec: the Unfold primitive [Unfold3dCopyCPU] of
    [ATen/native/Unfold3d.h], outside ConvolutionMM3d.cpp.  Row
    [((c*kd + kz)*kh + ky)*kw + kx] of the result holds, at column
    [(oz*oh + oy)*ow + ox], the element of channel [c] at
    [(oz*sd - pd + kz, oy*sh - ph + ky, ox*sw - pw + kx)], or zero in the
    padding. *)
Definition Unfold3dCopyCPU (src : Tensor R)
    (C X_D X_H X_W Y_D Y_H Y_W : Z)
    (kernel_d kernel_h kernel_w stride_d stride_h stride_w : Z)
    (pad_d pad_h pad_w : Z) (dst : Tensor R) : Tensor R :=
  mkTensor (sizes dst)
    (flat_map (fun c =>
     flat_map (fun kz =>
     flat_map (fun ky =>
     flat_map (fun kx =>
       flat_map (fun oz =>
       flat_map (fun oy =>
       map (fun ox =>
         let iz := oz * stride_d - pad_d + kz in
         let iy := oy * stride_h - pad_h + ky in
         let ix := ox * stride_w - pad_w + kx in
         if (0 <=? iz) && (iz <? X_D) && (0 <=? iy) && (iy <? X_H) &&
            (0 <=? ix) && (ix <? X_W)
         then nth (Z.to_nat (((c * X_D + iz) * X_H + iy) * X_W + ix))
                  (data src) rzero
         else rzero)
       (range Y_W)) (range Y_H)) (range Y_D))
     (range kernel_w)) (range kernel_h)) (range kernel_d)) (range C)).

(** [l[n] = f (l[n])] *)
Fixpoint update_nth (l : list R) (n : nat) (f : R -> R) : list R :=
  match l, n with
  | [], _ => []
  | x :: l', O => f x :: l'
  | x :: l', S n' => x :: update_nth l' n' f
  end.

(** Modelled from the spec: the Fold primitive [unfolded3d_acc_kernel_cpu],
    defined outside ConvolutionMM3d.cpp.  Every entry of the column matrix is
    added to the element of the volume it was unfolded from; entries that
    come from the padding are dropped. *)
Definition unfolded3d_acc_kernel_cpu (finput input : Tensor R)
    (kT kH kW dT dH dW pT pH pW : Z)
    (n_input_plane input_depth input_height input_width : Z)
    (output_depth output_height output_width : Z) : Tensor R :=
  let columns := output_depth * output_height * output_width in
  let contributions :=
    flat_map (fun c =>
    flat_map (fun kz =>
    flat_map (fun ky =>
    flat_map (fun kx =>
      flat_map (fun oz =>
      flat_map (fun oy =>
      flat_map (fun ox =>
        let iz := oz * dT - pT + kz in
        let iy := oy * dH - pH + ky in
        let ix := ox * dW - pW + kx in
        if (0 <=? iz) && (iz <? input_depth) &&
           (0 <=? iy) && (iy <? input_height) &&
           (0 <=? ix) && (ix <? input_width)
        then [((((c * input_depth + iz) * input_height + iy) * input_width
                + ix),
               ((((c * kT + kz) * kH + ky) * kW + kx) * columns
                + ((oz * output_height + oy) * output_width + ox)))]
        else [])
      (range output_width)) (range output_height)) (range output_depth))
    (range kW)) (range kH)) (range kT)) (range n_input_plane) in
  mkTensor (sizes input)
    (fold_left
       (fun acc '(to, from) =>
          update_nth acc (Z.to_nat to)
            (fun x => radd x (nth (Z.to_nat from) (data finput) rzero)))
       contributions (data input)).

(** ** Weight reshaper *)

Definition view_weight_2d (weight_ : Tensor R) : result (Tensor R) :=
  let weight := weight_ in
  if dim weight =? 5 then
    let s1 := size weight 0 in
    let s2 := size weight 1 [*] size weight 2 [*] size weight 3
              [*] size weight 4 in
    view weight [s1; s2]
  else Ok weight.

(** ** Forward kernel of one batch item

    The buffers are the two views [(output, finput)] of the item.
    [output2d] is a view of [output]: it sees what the fill wrote through
    [output[i]], and the product written into it lands in [output]. *)

Definition slow_conv3d_update_output_frame
    (input : Tensor R) (weight : Tensor R) (bias : option (Tensor R))
    (kernel_depth kernel_height kernel_width : Z)
    (stride_depth stride_height stride_width : Z)
    (pad_depth pad_height pad_width : Z)
    (n_input_plane input_depth input_height input_width : Z)
    (n_output_plane output_depth output_height output_width : Z)
  : M (Tensor R * Tensor R) unit :=
  (modify (fun '(output, finput) =>
     (output,
      Unfold3dCopyCPU input n_input_plane input_depth input_height
        input_width output_depth output_height output_width
        kernel_depth kernel_height kernel_width
        stride_depth stride_height stride_width
        pad_depth pad_height pad_width finput)) ;;
   s <- get ;;
   output2d <- lift (reshape (fst s)
                       [n_output_plane;
                        output_depth [*] output_height [*] output_width]) ;;
   match bias with
   | Some b =>
       for_range 0 n_output_plane (fun i =>
         s <- get ;;
         output_i <- lift (select (fst s) i) ;;
         bias_i <- lift (select b i) ;;
         modify (fun '(output, finput) =>
           (put_select output i (fill_ output_i (item bias_i)), finput))) ;;
       s <- get ;;
       r <- lift (addmm_ (mkTensor (sizes output2d) (data (fst s)))
                         weight (snd s) rone rone) ;;
       modify (fun '(output, finput) =>
         (mkTensor (sizes output) (data r), finput))
   | None =>
       s <- get ;;
       r <- lift (mm_out output2d weight (snd s)) ;;
       modify (fun '(output, finput) =>
         (mkTensor (sizes output) (data r), finput))
   end)%st.

(** ** Input-gradient kernel of one batch item

    The buffers are the two views [(grad_input, fgrad_input)] of the item. *)

Definition slow_conv3d_backward_update_grad_input_frame
    (grad_output weight : Tensor R)
    (kernel_depth kernel_height kernel_width : Z)
    (stride_depth stride_height stride_width : Z)
    (pad_depth pad_height pad_width : Z)
  : M (Tensor R * Tensor R) unit :=
  (grad_output_2d <- lift (reshape grad_output
                             [size grad_output 0;
                              size grad_output 1 [*] size grad_output 2
                              [*] size grad_output 3]) ;;
   s <- get ;;
   r <- lift (addmm_ (snd s) weight grad_output_2d rzero rone) ;;
   modify (fun '(grad_input, fgrad_input) => (grad_input, r)) ;;
   modify (fun '(grad_input, fgrad_input) => (zero_ grad_input, fgrad_input)) ;;
   modify (fun '(grad_input, fgrad_input) =>
     (unfolded3d_acc_kernel_cpu fgrad_input grad_input
        kernel_depth kernel_height kernel_width
        stride_depth stride_height stride_width
        pad_depth pad_height pad_width
        (size grad_input 0) (size grad_input 1)
        (size grad_input 2) (size grad_input 3)
        (size grad_output 1) (size grad_output 2) (size grad_output 3),
      fgrad_input)))%st.

(** ** Input-gradient pass

    The buffers are [(grad_input, fgrad_input)]. *)

Definition slow_conv3d_backward_out_cpu_template
    (grad_output input : Tensor R) (weight : option (Tensor R))
    (finput : Tensor R) (kernel_size stride padding : list Z)
  : M (Tensor R * Tensor R) unit :=
  let kernel_depth := nth 0 kernel_size 0 in
  let kernel_height := nth 1 kernel_size 0 in
  let kernel_width := nth 2 kernel_size 0 in
  let pad_depth := nth 0 padding 0 in
  let pad_height := nth 1 padding 0 in
  let pad_width := nth 2 padding 0 in
  let stride_depth := nth 0 stride 0 in
  let stride_height := nth 1 stride 0 in
  let stride_width := nth 2 stride 0 in
  (lift (slow_conv3d_shape_check input (Some grad_output) weight None
           kernel_depth kernel_height kernel_width
           stride_depth stride_height stride_width
           pad_depth pad_height pad_width false) ;;
   weight_ <- lift (deref weight) ;;
   weight2d <- lift (view_weight_2d weight_) ;;
   let grad_output_contiguous := grad_output in
   modify (fun '(grad_input, fgrad_input) =>
     (resize_as_ grad_input input, fgrad_input)) ;;
   (* TORCH_CHECK(grad_input.is_contiguous()) holds in the dense layout *)
   modify (fun '(grad_input, fgrad_input) =>
     (grad_input, resize_as_ fgrad_input finput)) ;;
   (* TORCH_CHECK(fgrad_input.is_contiguous()) holds in the dense layout *)
   modify (fun '(grad_input, fgrad_input) =>
     (grad_input, zero_ fgrad_input)) ;;
   tweight2d <- lift (transpose_0_1 weight2d) ;;
   let batch_size := size input 0 in
   parallel_for 0 batch_size CONV3D_GRAIN_SALT (fun start end_ =>
     for_range start end_ (fun t =>
       s <- get ;;
       grad_input_t <- lift (select (fst s) t) ;;
       grad_output_t <- lift (select grad_output_contiguous t) ;;
       fgrad_input_t <- lift (select (snd s) t) ;;
       on_views (grad_input_t, fgrad_input_t)
         (slow_conv3d_backward_update_grad_input_frame
            grad_output_t tweight2d
            kernel_depth kernel_height kernel_width
            stride_depth stride_height stride_width
            pad_depth pad_height pad_width)
         (fun '(grad_input_t, fgrad_input_t) '(grad_input, fgrad_input) =>
            (put_select grad_input t grad_input_t,
             put_select fgrad_input t fgrad_input_t)))))%st.

(** ** Parameter-gradient kernel of one batch item

    The buffers are [(grad_weight, grad_bias)], shared by all batch items. *)

Definition slow_conv3d_backward_parameters_frame
    (grad_output : Tensor R) (finput : option (Tensor R))
  : M (option (Tensor R) * option (Tensor R)) unit :=
  (grad_output_2d <- lift (view grad_output
                             [size grad_output 0;
                              size grad_output 1 [*] size grad_output 2
                              [*] size grad_output 3]) ;;
   s <- get ;;
   match fst s with
   | Some grad_weight =>
       finput_ <- lift (deref finput) ;;
       tfinput <- lift (transpose_0_1 finput_) ;;
       r <- lift (addmm_ grad_weight grad_output_2d tfinput rone rone) ;;
       modify (fun '(_, grad_bias) => (Some r, grad_bias))
   | None => ret tt
   end ;;
   s <- get ;;
   match snd s with
   | Some grad_bias0 =>
       (* grad_bias.accessor<scalar_t, 1>() requires a vector *)
       lift (TORCH_CHECK (dim grad_bias0 =? 1) dim_or_size_unexpected) ;;
       let sz := size grad_output_2d 1 in
       for_range 0 (size grad_bias0 0) (fun i =>
         let sum :=
           fold_left radd
             (map (fun k => get2 grad_output_2d i k) (range sz)) rzero in
         modify (fun '(grad_weight, grad_bias) =>
           (grad_weight,
            match grad_bias with
            | Some gb =>
                Some (mkTensor (sizes gb)
                        (update_nth (data gb) (Z.to_nat i)
                           (fun x => radd x sum)))
            | None => None
            end)))
   | None => ret tt
   end)%st.

(** ** Parameter-gradient pass

    The buffers are [(grad_weight, grad_bias)]. *)

Definition slow_conv3d_backward_parameters_out_cpu_template
    (input grad_output finput : Tensor R)
    (kernel_size stride padding : list Z)
  : M (option (Tensor R) * option (Tensor R)) unit :=
  let kernel_depth := nth 0 kernel_size 0 in
  let kernel_height := nth 1 kernel_size 0 in
  let kernel_width := nth 2 kernel_size 0 in
  let pad_depth := nth 0 padding 0 in
  let pad_height := nth 1 padding 0 in
  let pad_width := nth 2 padding 0 in
  let stride_depth := nth 0 stride 0 in
  let stride_height := nth 1 stride 0 in
  let stride_width := nth 2 stride 0 in
  (s <- get ;;
   lift (slow_conv3d_shape_check input (Some grad_output) (fst s) (snd s)
           kernel_depth kernel_height kernel_width
           stride_depth stride_height stride_width
           pad_depth pad_height pad_width true) ;;
   (* checkContiguous holds for grad_weight and grad_bias in the dense
      layout.  grad_weight_2d is a view of grad_weight: only its sizes are
      kept here, its elements are the ones of grad_weight *)
   grad_weight_2d <- match fst s with
                     | Some grad_weight =>
                         w2d <- lift (view_weight_2d grad_weight) ;;
                         ret (Some (sizes w2d))
                     | None => ret None
                     end ;;
   let grad_output_contiguous := grad_output in
   let batch_size := size input 0 in
   parallel_for 0 batch_size CONV3D_GRAIN_SALT (fun start end_ =>
     for_range start end_ (fun t =>
       grad_output_t <- lift (select grad_output_contiguous t) ;;
       finput_t <- match grad_weight_2d with
                   | Some _ => f <- lift (select finput t) ;; ret (Some f)
                   | None => ret None
                   end ;;
       s <- get ;;
       let grad_weight_2d_now :=
         match grad_weight_2d, fst s with
         | Some sizes2d, Some grad_weight =>
             Some (mkTensor sizes2d (data grad_weight))
         | _, _ => None
         end in
       on_views (grad_weight_2d_now, snd s)
         (slow_conv3d_backward_parameters_frame grad_output_t finput_t)
         (fun '(grad_weight_2d', grad_bias') '(grad_weight, grad_bias) =>
            (match grad_weight_2d', grad_weight with
             | Some w2d, Some gw => Some (mkTensor (sizes gw) (data w2d))
             | _, _ => grad_weight
             end,
             grad_bias')))))%st.

(** ** Entry points *)

Definition slow_conv3d_forward_out_cpu
    (self : Tensor R) (weight : option (Tensor R)) (kernel_size : list Z)
    (bias : option (Tensor R)) (stride padding : list Z)
  : M (Fwd.buffers R) unit :=
  let kernel_depth := nth 0 kernel_size 0 in
  let kernel_height := nth 1 kernel_size 0 in
  let kernel_width := nth 2 kernel_size 0 in
  let pad_depth := nth 0 padding 0 in
  let pad_height := nth 1 padding 0 in
  let pad_width := nth 2 padding 0 in
  let stride_depth := nth 0 stride 0 in
  let stride_height := nth 1 stride 0 in
  let stride_width := nth 2 stride 0 in
  (lift (slow_conv3d_shape_check self None weight bias
           kernel_depth kernel_height kernel_width
           stride_depth stride_height stride_width
           pad_depth pad_height pad_width false) ;;
   let input := self in
   weight_ <- lift (deref weight) ;;
   weight_2d <- lift (view_weight_2d weight_) ;;
   let dim_planes := 1 in
   let dim_depth := 2 in
   let dim_height := 3 in
   let dim_width := 4 in
   let n_input_plane := size input dim_planes in
   let input_depth := size input dim_depth in
   let input_height := size input dim_height in
   let input_width := size input dim_width in
   let n_output_plane := size weight_2d 0 in
   let output_depth :=
     (input_depth [+] 2 [*] pad_depth [-] kernel_depth) [/] stride_depth
     [+] 1 in
   let output_height :=
     (input_height [+] 2 [*] pad_height [-] kernel_height) [/] stride_height
     [+] 1 in
   let output_width :=
     (input_width [+] 2 [*] pad_width [-] kernel_width) [/] stride_width
     [+] 1 in
   let batch_size := size input 0 in
   modify (fun b =>
     Fwd.mk (Fwd.output b)
       (resize_ (Fwd.finput b)
          [batch_size;
           n_input_plane [*] kernel_depth [*] kernel_height [*] kernel_width;
           output_depth [*] output_height [*] output_width])
       (Fwd.fgrad_input b)) ;;
   modify (fun b =>
     Fwd.mk
       (resize_ (Fwd.output b)
          [batch_size; n_output_plane; output_depth; output_height;
           output_width])
       (Fwd.finput b) (Fwd.fgrad_input b)) ;;
   parallel_for 0 batch_size CONV3D_GRAIN_SALT (fun start end_ =>
     for_range start end_ (fun t =>
       input_t <- lift (select input t) ;;
       b <- get ;;
       output_t <- lift (select (Fwd.output b) t) ;;
       finput_t <- lift (select (Fwd.finput b) t) ;;
       on_views (output_t, finput_t)
         (slow_conv3d_update_output_frame input_t weight_2d bias
            kernel_depth kernel_height kernel_width
            stride_depth stride_height stride_width
            pad_depth pad_height pad_width
            n_input_plane input_depth input_height input_width
            n_output_plane output_depth output_height output_width)
         (fun '(output_t, finput_t) b =>
            Fwd.mk (put_select (Fwd.output b) t output_t)
                   (put_select (Fwd.finput b) t finput_t)
                   (Fwd.fgrad_input b)))))%st.

(** [at::empty({0}, options)] *)
Definition empty0 : Tensor R := mkTensor [0] [].

(** The three tensors returned by [slow_conv3d_forward_cpu], which allocates
    the buffers itself. *)
Definition slow_conv3d_forward_cpu
    (self : Tensor R) (weight : option (Tensor R)) (kernel_size : list Z)
    (bias : option (Tensor R)) (stride padding : list Z)
  : result unit * Fwd.buffers R :=
  slow_conv3d_forward_out_cpu self weight kernel_size bias stride padding
    (Fwd.mk empty0 empty0 empty0).

Definition slow_conv3d_backward_out_cpu
    (grad_output self : Tensor R) (weight : option (Tensor R))
    (kernel_size stride padding : list Z) (finput : Tensor R)
  : M (Bwd.buffers R) unit :=
  (b <- get ;;
   match Bwd.grad_input b with
   | Some grad_input =>
       on_views (grad_input, Bwd.fgrad_input b)
         (slow_conv3d_backward_out_cpu_template grad_output self weight
            finput kernel_size stride padding)
         (fun '(grad_input', fgrad_input') b =>
            Bwd.mk (Some grad_input') (Bwd.grad_weight b) (Bwd.grad_bias b)
                   fgrad_input')
   | None => ret tt
   end ;;
   b <- get ;;
   match Bwd.grad_weight b with
   | Some grad_weight =>
       weight_ <- lift (deref weight) ;;
       modify (fun b =>
         Bwd.mk (Bwd.grad_input b)
                (Some (zero_ (resize_ grad_weight (sizes weight_))))
                (Bwd.grad_bias b) (Bwd.fgrad_input b))
   | None => ret tt
   end ;;
   b <- get ;;
   match Bwd.grad_bias b with
   | Some grad_bias =>
       n <- lift (size_checked grad_output 1) ;;
       modify (fun b =>
         Bwd.mk (Bwd.grad_input b) (Bwd.grad_weight b)
                (Some (zero_ (resize_ grad_bias [n])))
                (Bwd.fgrad_input b))
   | None => ret tt
   end ;;
   b <- get ;;
   if defined (Bwd.grad_weight b) || defined (Bwd.grad_bias b)
   then on_views (Bwd.grad_weight b, Bwd.grad_bias b)
          (slow_conv3d_backward_parameters_out_cpu_template self grad_output
             finput kernel_size stride padding)
          (fun '(grad_weight', grad_bias') b =>
             Bwd.mk (Bwd.grad_input b) grad_weight' grad_bias'
                    (Bwd.fgrad_input b))
   else ret tt)%st.

(** [slow_conv3d_backward_cpu]: an empty tensor is allocated for each
    gradient the mask requests, the others stay undefined. *)
Definition slow_conv3d_backward_cpu
    (grad_output self : Tensor R) (weight : option (Tensor R))
    (kernel_size stride padding : list Z) (finput fgrad_input : Tensor R)
    (output_mask : bool * bool * bool)
  : result unit * Bwd.buffers R :=
  let '(mask0, mask1, mask2) := output_mask in
  let grad_input := if mask0 then Some empty0 else None in
  let grad_weight := if mask1 then Some empty0 else None in
  let grad_bias := if mask2 then Some empty0 else None in
  slow_conv3d_backward_out_cpu grad_output self weight kernel_size stride
    padding finput (Bwd.mk grad_input grad_weight grad_bias fgrad_input).

(** [slow_conv3d_out]: Forward into the caller's [output] with scratch
    buffers of its own; the operator [at::slow_conv3d_forward_out] it calls
    is the kernel of this file.  The result is the outcome and [output] as
    the call leaves it. *)
Definition slow_conv3d_out
    (output self : Tensor R) (weight : option (Tensor R))
    (kernel_size : list Z) (bias : option (Tensor R))
    (stride padding : list Z) : result unit * Tensor R :=
  let finput := empty0 in
  let fgrad_input := empty0 in
  let (r, b) :=
    slow_conv3d_forward_out_cpu self weight kernel_size bias stride padding
      (Fwd.mk output finput fgrad_input) in
  (r, Fwd.output b).

(** [slow_conv3d]: the output of [slow_conv3d_forward_cpu]. *)
Definition slow_conv3d
    (self : Tensor R) (weight : option (Tensor R)) (kernel_size : list Z)
    (bias : option (Tensor R)) (stride padding : list Z)
  : result (Tensor R) :=
  match slow_conv3d_forward_cpu self weight kernel_size bias stride padding
  with
  | (Ok _, b) => Ok (Fwd.output b)
  | (Err e, _) => Err e
  end.

(** ** Definitions of the specification

    These follow the words of the specification; the theorems below compare
    them with the code. *)

(** An input the validation is specified to accept: rank 5 and either no
    zero-sized dimension, or a zero batch dimension with the four others
    nonzero. *)
Definition input_shape_accepted (input : Tensor R) : bool :=
  let nonzero := fun s => negb (s =? 0) in
  (dim input =? 5) &&
  (forallb nonzero (sizes input) ||
   ((size input 0 =? 0) && forallb nonzero (tl (sizes input)))).

(** The specified output extent of one axis:
    floor((input + 2*pad - kernel) / stride) + 1. *)
Definition conv_output_size (input_size pad kernel stride : Z) : Z :=
  (input_size + 2 * pad - kernel) / stride + 1.

(** What the validation requires of weight and bias before it looks at the
    input. *)
Definition weight_checks_pass (weight bias : option (Tensor R))
    (weight_optional : bool) : Prop :=
  match weight with
  | Some w =>
      numel w > 0 /\ (dim w = 2 \/ dim w = 5) /\
      match bias with
      | Some b => dim b = 1 /\ size b 0 = size w 0
      | None => True
      end
  | None => weight_optional = true
  end.

(** A tensor with another leading size. *)
Definition with_leading_size (x : Tensor R) (n : Z) : Tensor R :=
  mkTensor (n :: tl (sizes x)) (data x).

(** Row [i] of the matrix [a] times row [j] of the matrix [b]: the sum over
    [k] of [a[i][k] * b[j][k]], in increasing [k]. *)
Definition rows_dot (a b : Tensor R) (i j : Z) : R :=
  fold_left radd
    (map (fun k => rmul (get2 a i k) (get2 b j k)) (range (size a 1)))
    rzero.

(** The sum of row [i] of the matrix [a], in increasing column order. *)
Definition row_sum (a : Tensor R) (i : Z) : R :=
  fold_left radd (map (fun k => get2 a i k) (range (size a 1))) rzero.

(** The output extent of one axis as Forward computes it. *)
Definition computed_output_size (input_size pad kernel stride : Z) : Z :=
  (input_size [+] 2 [*] pad [-] kernel) [/] stride [+] 1.

(** The value the forward kernel broadcasts over channel [i]. *)
Definition bias_at (b : Tensor R) (i : Z) : R := item (block b i).

(** The output of one batch item in terms of the weight matrix, the bias and
    the column matrix: bias plus product, or the product alone. *)
Definition frame_output_data (weight : Tensor R) (bias : option (Tensor R))
    (columns : Tensor R) (n_output_plane n_columns : Z) : list R :=
  flat_map
    (fun i =>
       map (fun j =>
              match bias with
              | Some b => radd (rmul rone (bias_at b i))
                               (rmul rone (mm_entry weight columns i j))
              | None => mm_entry weight columns i j
              end)
           (range n_columns))
    (range n_output_plane).

(** The dot product of the kernel with the window of a one-channel volume
    whose first corner is (z, y, x). *)
Definition window_dot (input weight : list R)
    (H W kd kh kw : Z) (z y x : Z) : R :=
  fold_left radd
    (flat_map (fun kz =>
     flat_map (fun ky =>
     map (fun kx =>
       rmul (nth (Z.to_nat ((kz * kh + ky) * kw + kx)) weight rzero)
            (nth (Z.to_nat (((z + kz) * H + (y + ky)) * W + (x + kx)))
                 input rzero))
     (range kw)) (range kh)) (range kd))
    rzero.

(** The body of Forward's loop over the batch, at batch index [t]. *)
Definition forward_batch_body (input weight_2d : Tensor R)
    (bias : option (Tensor R))
    (kernel_depth kernel_height kernel_width : Z)
    (stride_depth stride_height stride_width : Z)
    (pad_depth pad_height pad_width : Z)
    (n_input_plane input_depth input_height input_width : Z)
    (n_output_plane output_depth output_height output_width : Z)
    (t : Z) : M (Fwd.buffers R) unit :=
  (input_t <- lift (select input t) ;;
   b <- get ;;
   output_t <- lift (select (Fwd.output b) t) ;;
   finput_t <- lift (select (Fwd.finput b) t) ;;
   on_views (output_t, finput_t)
     (slow_conv3d_update_output_frame input_t weight_2d bias
        kernel_depth kernel_height kernel_width
        stride_depth stride_height stride_width
        pad_depth pad_height pad_width
        n_input_plane input_depth input_height input_width
        n_output_plane output_depth output_height output_width)
     (fun '(output_t, finput_t) b =>
        Fwd.mk (put_select (Fwd.output b) t output_t)
               (put_select (Fwd.finput b) t finput_t)
               (Fwd.fgrad_input b)))%st.

(** The body of the input-gradient pass's loop over the batch, at batch
    index [t]; the buffers are [(grad_input, fgrad_input)]. *)
Definition grad_input_batch_body (grad_output tweight2d : Tensor R)
    (kernel_depth kernel_height kernel_width : Z)
    (stride_depth stride_height stride_width : Z)
    (pad_depth pad_height pad_width : Z)
    (t : Z) : M (Tensor R * Tensor R) unit :=
  (s <- get ;;
   grad_input_t <- lift (select (fst s) t) ;;
   grad_output_t <- lift (select grad_output t) ;;
   fgrad_input_t <- lift (select (snd s) t) ;;
   on_views (grad_input_t, fgrad_input_t)
     (slow_conv3d_backward_update_grad_input_frame
        grad_output_t tweight2d
        kernel_depth kernel_height kernel_width
        stride_depth stride_height stride_width
        pad_depth pad_height pad_width)
     (fun '(grad_input_t, fgrad_input_t) '(grad_input, fgrad_input) =>
        (put_select grad_input t grad_input_t,
         put_select fgrad_input t fgrad_input_t)))%st.



(** The gradient columns of one batch item: transposed weight times output
    gradient, accumulated into a zeroed scratch of sizes [sizes_f]. *)
Definition grad_columns (tweight2d grad_output_t : Tensor R)
    (sizes_f : list Z) : Tensor R :=
  let grad_output_2d :=
    mkTensor [size grad_output_t 0;
              size grad_output_t 1 [*] size grad_output_t 2
              [*] size grad_output_t 3]
             (data grad_output_t) in
  mkTensor sizes_f
    (flat_map
       (fun i =>
          map (fun j => radd (rmul rzero rzero)
                             (rmul rone (mm_entry tweight2d grad_output_2d
                                           i j)))
              (range (nth 1 sizes_f 0)))
       (range (nth 0 sizes_f 0))).

(** The input gradient of one batch item: the gradient columns folded into
    a zeroed volume of sizes [sizes_g]. *)
Definition grad_input_item (tweight2d grad_output_t : Tensor R)
    (sizes_g sizes_f : list Z) (kd kh kw sd sh sw pd ph pw : Z) : Tensor R :=
  unfolded3d_acc_kernel_cpu
    (grad_columns tweight2d grad_output_t sizes_f)
    (zero_ (mkTensor sizes_g []))
    kd kh kw sd sh sw pd ph pw
    (nth 0 sizes_g 0) (nth 1 sizes_g 0) (nth 2 sizes_g 0) (nth 3 sizes_g 0)
    (size grad_output_t 1) (size grad_output_t 2) (size grad_output_t 3).

(** The padded extent of one axis is computed without overflow. *)
Definition padded_extent_fits (input_size pad : Z) : Prop :=
  in_int64 (2 * pad) /\ in_int64 (input_size + 2 * pad).

(** The sub-batch made of item [t] alone. *)
Definition batch_item (x : Tensor R) (t : Z) : Tensor R :=
  mkTensor (1 :: tl (sizes x)) (data (block x t)).

(** The column matrix of batch item [t], with the specified output extents. *)
Definition forward_columns (self : Tensor R)
    (kd kh kw sd sh sw pd ph pw : Z) (t : Z) : Tensor R :=
  let C := size self 1 in
  let D := size self 2 in
  let H := size self 3 in
  let W := size self 4 in
  let od := conv_output_size D pd kd sd in
  let oh := conv_output_size H ph kh sh in
  let ow := conv_output_size W pw kw sw in
  Unfold3dCopyCPU (block self t) C D H W od oh ow kd kh kw sd sh sw pd ph pw
    (mkTensor [C * kd * kh * kw; od * oh * ow] []).

(** The output Forward is specified to produce: item by item, bias plus
    weight matrix times columns. *)
Definition forward_output_spec (self weight_2d : Tensor R)
    (bias : option (Tensor R)) (kd kh kw sd sh sw pd ph pw : Z) : Tensor R :=
  let od := conv_output_size (size self 2) pd kd sd in
  let oh := conv_output_size (size self 3) ph kh sh in
  let ow := conv_output_size (size self 4) pw kw sw in
  mkTensor [size self 0; size weight_2d 0; od; oh; ow]
    (flat_map
       (fun t =>
          frame_output_data weight_2d bias
            (forward_columns self kd kh kw sd sh sw pd ph pw t)
            (size weight_2d 0) (od * oh * ow))
       (range (size self 0))).

(** The column buffer Forward is specified to produce. *)
Definition forward_finput_spec (self : Tensor R)
    (kd kh kw sd sh sw pd ph pw : Z) : Tensor R :=
  let od := conv_output_size (size self 2) pd kd sd in
  let oh := conv_output_size (size self 3) ph kh sh in
  let ow := conv_output_size (size self 4) pw kw sw in
  mkTensor [size self 0; size self 1 * kd * kh * kw; od * oh * ow]
    (flat_map
       (fun t => data (forward_columns self kd kh kw sd sh sw pd ph pw t))
       (range (size self 0))).

(** Kernel and stride are 64-bit values and the padded extents are computed
    without overflow. *)
Definition extents_fit (self : Tensor R)
    (kd kh kw sd sh sw pd ph pw : Z) : Prop :=
  in_int64 kd /\ in_int64 kh /\ in_int64 kw /\
  in_int64 sd /\ in_int64 sh /\ in_int64 sw /\
  padded_extent_fits (size self 2) pd /\
  padded_extent_fits (size self 3) ph /\
  padded_extent_fits (size self 4) pw.

(** The size computations of Forward stay within 64 bits. *)
Definition forward_fits (self : Tensor R)
    (kd kh kw sd sh sw pd ph pw : Z) : Prop :=
  extents_fit self kd kh kw sd sh sw pd ph pw /\
  in_int64 (size self 1 * kd * kh * kw) /\
  in_int64 (conv_output_size (size self 2) pd kd sd *
            conv_output_size (size self 3) ph kh sh *
            conv_output_size (size self 4) pw kw sw).

(** The output extent of one axis as the validation computes it. *)
Definition validated_output_size (input_size pad kernel stride : Z) : Z :=
  div_rtn (input_size [+] 2 [*] pad [-] kernel) stride [+] 1.

End Conv3d.

(** * Tensors of integers used in the instances *)

Module Examples.

(** An input of [n] items with [c] channels of 4x4x4 voxels. *)
Definition volume (n c : Z) : Tensor Z :=
  mkTensor [n; c; 4; 4; 4] (range (n * c * 64)).

(** A 2x2x2 kernel from one channel to one channel. *)
Definition kernel : Tensor Z :=
  mkTensor [1; 1; 2; 2; 2] [1; 2; 3; 4; 5; 6; 7; 8].

(** An output gradient and a column buffer for two items. *)
Definition grad : Tensor Z := mkTensor [2; 1; 3; 3; 3] (range 54).
Definition columns : Tensor Z := mkTensor [2; 8; 27] (range 432).

(** The buffers [slow_conv3d_forward_cpu] allocates. *)
Definition fresh : Fwd.buffers Z := Fwd.mk empty0 empty0 empty0.

End Examples.

(** * Properties *)

Section Properties.

Context {R : Type} {ops : Scalar R}.

(** ** Arithmetic *)

Lemma wrap64_id z : in_int64 z -> wrap64 z = z.
Proof.
  unfold in_int64, int64_min, int64_max, wrap64. intros Hz.
  rewrite Z.mod_small; lia.
Qed.

Lemma wrap64_range z : in_int64 (wrap64 z).
Proof.
  unfold in_int64, int64_min, int64_max, wrap64.
  pose proof (Z.mod_pos_bound (z + 2 ^ 63) (2 ^ 64)). lia.
Qed.

Lemma prod_sizes_pos (l : list Z) :
  Forall (fun s => 0 <= s <= int64_max) l ->
  (prod_sizes l >? 0) = forallb (fun s => negb (s =? 0)) l.
Proof.
  induction 1 as [|x l Hx Hl IH]; simpl; [reflexivity|].
  rewrite <- IH.
  destruct (Z.eqb_spec x 0) as [->|Hne]; simpl.
  - reflexivity.
  - destruct (Z.gtb_spec (prod_sizes l) 0); destruct (Z.gtb_spec (x * prod_sizes l) 0);
      try reflexivity; nia.
Qed.

Lemma prod_sizes_nonneg (l : list Z) :
  Forall (fun s => 0 <= s <= int64_max) l -> 0 <= prod_sizes l.
Proof.
  induction 1 as [|x l Hx Hl IH]; simpl; nia.
Qed.

(** ** Results *)

Lemma result_unit_cases (r : result unit) :
  r = Ok tt \/ exists m, r = Err (InvalidArgument m).
Proof.
  destruct r as [[]|[m]]; [left; reflexivity | right; exists m; reflexivity].
Qed.

Lemma check_then_ok (c : bool) (m : message) (k : result unit) :
  (TORCH_CHECK c m ;; k)%res = Ok tt <-> c = true /\ k = Ok tt.
Proof.
  destruct c; simpl; intuition discriminate.
Qed.

Lemma then_ok (r k : result unit) :
  (r ;; k)%res = Ok tt <-> r = Ok tt /\ k = Ok tt.
Proof.
  destruct r as [[]|e]; simpl; intuition discriminate.
Qed.

Lemma TORCH_CHECK_ok (c : bool) (m : message) :
  TORCH_CHECK c m = Ok tt <-> c = true.
Proof. destruct c; simpl; split; intros; try reflexivity; discriminate. Qed.

Lemma check_dim_size_ok (t : Tensor R) (d i n : Z) :
  check_dim_size t d i n = Ok tt <-> dim t = d /\ size t i = n.
Proof.
  unfold check_dim_size. rewrite TORCH_CHECK_ok, andb_true_iff, !Z.eqb_eq.
  reflexivity.
Qed.

(** ** Index ranges *)

Lemma length_zseq s n : length (zseq s n) = n.
Proof. revert s; induction n; intros; simpl; [|rewrite IHn]; reflexivity. Qed.

Lemma in_zseq n : forall s x, In x (zseq s n) <-> s <= x < s + Z.of_nat n.
Proof.
  induction n as [|n IH]; intros s x; simpl.
  - lia.
  - rewrite IH. lia.
Qed.

Lemma nth_zseq n : forall s i, (i < n)%nat -> nth i (zseq s n) 0 = s + Z.of_nat i.
Proof.
  induction n as [|n IH]; intros s [|i] Hi; simpl; try lia.
  rewrite IH by lia. lia.
Qed.

Lemma length_range n : length (range n) = Z.to_nat n.
Proof. apply length_zseq. Qed.

Lemma in_range n x : In x (range n) <-> 0 <= x < n.
Proof. unfold range. rewrite in_zseq. lia. Qed.

Lemma nth_range n i : (i < Z.to_nat n)%nat -> nth i (range n) 0 = Z.of_nat i.
Proof. intros Hi. unfold range. rewrite nth_zseq by exact Hi. lia. Qed.

(** ** Lists made of blocks of one length *)

Lemma length_flat_map_blocks {A B} (f : A -> list B) (m : nat) (l : list A) :
  (forall a, In a l -> length (f a) = m) ->
  length (flat_map f l) = (length l * m)%nat.
Proof.
  induction l as [|a l IH]; intros Hf; simpl; [reflexivity|].
  rewrite length_app, Hf by (simpl; auto).
  rewrite IH by (intros; apply Hf; simpl; auto). reflexivity.
Qed.

Lemma flat_map_agree {A B} (f g : A -> list B) (l : list A) :
  (forall a, In a l -> f a = g a) -> flat_map f l = flat_map g l.
Proof.
  induction l as [|a l IH]; intros Hfg; simpl; [reflexivity|].
  rewrite Hfg by (simpl; auto).
  rewrite IH by (intros; apply Hfg; simpl; auto). reflexivity.
Qed.

Lemma nth_flat_map_blocks {A B} (f : A -> list B) (m : nat) (a0 : A) (d : B) :
  forall (l : list A) (i j : nat),
  (forall a, In a l -> length (f a) = m) ->
  (i < length l)%nat -> (j < m)%nat ->
  nth (i * m + j) (flat_map f l) d = nth j (f (nth i l a0)) d.
Proof.
  induction l as [|a l IH]; intros i j Hf Hi Hj; simpl in *; [lia|].
  destruct i as [|i]; simpl.
  - rewrite app_nth1 by (rewrite Hf; auto). reflexivity.
  - rewrite app_nth2 by (rewrite Hf; auto; lia).
    rewrite Hf by auto.
    replace (m + i * m + j - m)%nat with (i * m + j)%nat by lia.
    apply IH; auto; lia.
Qed.

Lemma take_block_app (pre rest : list R) (i m : nat) :
  length pre = (i * m)%nat ->
  firstn m (skipn (i * m) (pre ++ rest)) = firstn m rest.
Proof.
  intros H. rewrite <- H, skipn_app, Nat.sub_diag, skipn_all. reflexivity.
Qed.

Lemma put_block_app (pre rest v : list R) (i m : nat) :
  length pre = (i * m)%nat ->
  firstn (i * m) (pre ++ rest) ++ v ++ skipn ((i + 1) * m) (pre ++ rest)
  = pre ++ v ++ skipn m rest.
Proof.
  intros H.
  rewrite <- H, firstn_app, Nat.sub_diag, firstn_all. simpl. rewrite app_nil_r.
  replace ((i + 1) * m)%nat with (length pre + m)%nat by lia.
  rewrite skipn_app.
  rewrite skipn_all2 by lia.
  replace (length pre + m - length pre)%nat with m by lia. reflexivity.
Qed.

(** ** Running computations *)

Lemma bind_ok {S A B} (m : M S A) (k : A -> M S B) s b s' :
  bind m k s = (Ok b, s') ->
  exists a s1, m s = (Ok a, s1) /\ k a s1 = (Ok b, s').
Proof.
  unfold bind. destruct (m s) as [[a|e] s1]; intros H.
  - exists a, s1. split; [reflexivity|exact H].
  - discriminate.
Qed.

Lemma bind_modify {S B} (f : S -> S) (k : unit -> M S B) (s : S) :
  bind (modify f) k s = k tt (f s).
Proof. reflexivity. Qed.

Lemma bind_get {S B} (k : S -> M S B) (s : S) : bind get k s = k s s.
Proof. reflexivity. Qed.

Lemma bind_lift {S A B} (r : result A) (k : A -> M S B) (s : S) :
  bind (lift r) k s
  = match r with Ok a => k a s | Err e => (Err e, s) end.
Proof. unfold bind, lift. destruct r; reflexivity. Qed.


Lemma bind_ret {S A B} (a : A) (k : A -> M S B) (s : S) :
  bind (ret a) k s = k a s.
Proof. reflexivity. Qed.

Lemma for_each_cons {S} (t : Z) (l : list Z) (body : Z -> M S unit) (s : S) :
  for_each (t :: l) body s
  = match body t s with
    | (Ok _, s') => for_each l body s'
    | (Err e, s') => (Err e, s')
    end.
Proof. reflexivity. Qed.

Lemma bind_for_each {S B} (l : list Z) (body : Z -> M S unit)
    (k : unit -> M S B) (s : S) :
  bind (for_each l body) k s
  = match for_each l body s with
    | (Ok a, s') => k a s'
    | (Err e, s') => (Err e, s')
    end.
Proof. reflexivity. Qed.

Lemma lift_ok {S A} (r : result A) (s : S) a s' :
  lift r s = (Ok a, s') -> r = Ok a /\ s' = s.
Proof. unfold lift. intros H. inversion H. split; reflexivity. Qed.

Lemma parallel_for_range {S} (n g : Z) (body : Z -> M S unit) :
  parallel_for 0 n g (fun start end_ => for_range start end_ body)
  = for_each (range n) body.
Proof.
  unfold parallel_for, for_range, range. rewrite Z.sub_0_r.
  destruct (Z.ltb_spec 0 n) as [H|H]; [reflexivity|].
  replace (Z.to_nat n) with O by lia. reflexivity.
Qed.

(** ** Shape validation *)

Ltac shape_check_steps :=
  unfold slow_conv3d_shape_check; cbv zeta;
  rewrite ?then_ok, ?check_then_ok, ?TORCH_CHECK_ok, ?check_dim_size_ok.

Lemma sizes_rank5 (t : Tensor R) :
  dim t = 5 -> exists n c d h w, sizes t = [n; c; d; h; w].
Proof.
  unfold dim. destruct t as [sz dt]; simpl.
  destruct sz as [|n [|c [|d [|h [|w [|x sz]]]]]]; simpl; try lia.
  intros _. now exists n, c, d, h, w.
Qed.

Lemma sizes_rank5_nth (t : Tensor R) (n c d h w : Z) :
  sizes t = [n; c; d; h; w] ->
  size t 0 = n /\ size t 1 = c /\ size t 2 = d /\ size t 3 = h /\
  size t 4 = w.
Proof. intros Hs. unfold size. rewrite Hs. repeat split. Qed.

(** What the validation requires of the input alone. *)
Lemma input_check_accepted (input : Tensor R) :
  wf_sizes input ->
  ((numel input >? 0) ||
   ((dim input =? 5) && (size input 0 =? 0) &&
    negb (size input 1 =? 0) && negb (size input 2 =? 0) &&
    negb (size input 3 =? 0) && negb (size input 4 =? 0))) &&
  (dim input =? 5) = input_shape_accepted input.
Proof.
  intros [Hwf _]. unfold input_shape_accepted, numel.
  rewrite (prod_sizes_pos _ Hwf).
  destruct (Z.eqb_spec (dim input) 5) as [H5|H5]; simpl;
    [|now rewrite andb_false_r].
  destruct (sizes_rank5 _ H5) as (n & c & d & h & w & Hs).
  unfold size. rewrite Hs. simpl.
  rewrite !andb_true_r, <- !andb_assoc. reflexivity.
Qed.

Lemma shape_check_input (input : Tensor R) go w b kd kh kw sd sh sw pd ph pw wo :
  wf_sizes input ->
  slow_conv3d_shape_check input go w b kd kh kw sd sh sw pd ph pw wo = Ok tt ->
  input_shape_accepted input = true.
Proof.
  intros Hwf. shape_check_steps.
  intros (_ & _ & _ & Hin & _). now rewrite input_check_accepted in Hin.
Qed.

(** C8. The validation accepts an input exactly when it is rank 5 and either
    has no zero-sized dimension or has a zero batch dimension and four
    nonzero other dimensions: such an input passes for suitable other
    arguments, and any other input fails with InvalidArgument whatever the
    other arguments are. *)
Theorem shape_check_accepts_input_iff (input : Tensor R) :
  wf_sizes input ->
  (input_shape_accepted input = true <->
   exists go w b kd kh kw sd sh sw pd ph pw wo,
     slow_conv3d_shape_check input go w b kd kh kw sd sh sw pd ph pw wo
     = Ok tt) /\
  (input_shape_accepted input = false ->
   forall go w b kd kh kw sd sh sw pd ph pw wo,
   exists m,
     slow_conv3d_shape_check input go w b kd kh kw sd sh sw pd ph pw wo
     = Err (InvalidArgument m)).
Proof.
  intros Hwf. split; [split|].
  - intros Hacc.
    exists None, None, None, 1, 1, 1, 1, 1, 1, 0, 0, 0, true.
    shape_check_steps. rewrite (input_check_accepted _ Hwf).
    unfold input_shape_accepted in Hacc.
    apply andb_true_iff in Hacc as [H5 Hnz]. apply Z.eqb_eq in H5.
    destruct (sizes_rank5 _ H5) as (n & c & d & h & w & Hs).
    unfold input_shape_accepted. rewrite H5, Hnz.
    destruct (sizes_rank5_nth _ _ _ _ _ _ Hs) as (_ & _ & E2 & E3 & E4).
    assert (Hd : 1 <= d <= int64_max /\ 1 <= h <= int64_max /\
                 1 <= w <= int64_max).
    { destruct Hwf as [Hwf _]. rewrite Hs in Hwf, Hnz.
      unfold size in Hnz. rewrite Hs in Hnz. cbn [tl forallb nth Z.to_nat] in Hnz.
      inversion Hwf as [|? ? _ Hwf1]; subst.
      inversion Hwf1 as [|? ? _ Hwf2]; subst.
      inversion Hwf2 as [|? ? Hd Hwf3]; subst.
      inversion Hwf3 as [|? ? Hh Hwf4]; subst.
      inversion Hwf4 as [|? ? Hw _]; subst.
      apply orb_true_iff in Hnz as [Hnz|Hnz].
      - rewrite !andb_true_iff, !negb_true_iff, !Z.eqb_neq in Hnz. lia.
      - rewrite !andb_true_iff, !negb_true_iff, !Z.eqb_neq in Hnz. lia. }
    rewrite E2, E3, E4.
    unfold int64_max in Hd.
    assert (Hext : forall x, 1 <= x <= 2 ^ 63 - 1 ->
              x [+] 2 [*] 0 = x /\
              div_rtn (x [+] 2 [*] 0 [-] 1) 1 [+] 1 = x).
    { intros x Hx. unfold add64, sub64, mul64, div_rtn.
      change (wrap64 (2 * 0)) with 0. rewrite Z.add_0_r.
      rewrite (wrap64_id x) by (unfold in_int64, int64_min, int64_max; lia).
      rewrite (wrap64_id (x - 1))
        by (unfold in_int64, int64_min, int64_max; lia).
      rewrite Z.div_1_r.
      rewrite (wrap64_id (x - 1))
        by (unfold in_int64, int64_min, int64_max; lia).
      replace (x - 1 + 1) with x by lia.
      rewrite wrap64_id by (unfold in_int64, int64_min, int64_max; lia).
      split; reflexivity. }
    destruct (Hext d) as [-> ->]; [lia|].
    destruct (Hext h) as [-> ->]; [lia|].
    destruct (Hext w) as [-> ->]; [lia|].
    repeat split; try reflexivity;
      rewrite ?andb_true_iff, ?Z.geb_le; lia.
  - intros (go & w & b & kd & kh & kw & sd & sh & sw & pd & ph & pw & wo & H).
    eapply shape_check_input; eassumption.
  - intros Hrej go w b kd kh kw sd sh sw pd ph pw wo.
    destruct (result_unit_cases
      (slow_conv3d_shape_check input go w b kd kh kw sd sh sw pd ph pw wo))
      as [Hok|Herr]; [|exact Herr].
    apply shape_check_input in Hok; [congruence|exact Hwf].
Qed.

(** C1. For a rank-2 weight the validation divides the weight's second
    dimension by kernel_height * kernel_width only, not by the kernel volume:
    with a 2x2x2 kernel, a weight of sizes (1, 8) and a one-channel 4x4x4
    input the call is rejected, a two-channel input passes the validation,
    and Forward then fails in the matrix product. *)
Theorem shape_check_rank2_weight_divides_by_kernel_plane :
  let weight := mkTensor [1; 8] (repeat rone 8) in
  slow_conv3d_shape_check (mkTensor [1; 1; 4; 4; 4] (repeat rone 64))
    None (Some weight) None 2 2 2 1 1 1 0 0 0 false
  = Err (InvalidArgument dim_or_size_unexpected) /\
  slow_conv3d_shape_check (mkTensor [1; 2; 4; 4; 4] (repeat rone 128))
    None (Some weight) None 2 2 2 1 1 1 0 0 0 false
  = Ok tt /\
  fst (slow_conv3d_forward_cpu (mkTensor [1; 2; 4; 4; 4] (repeat rone 128))
         (Some weight) [2; 2; 2] None [1; 1; 1] [0; 0; 0])
  = Err (InvalidArgument size_mismatch).
Proof.
  cbv zeta. repeat split; vm_compute; reflexivity.
Qed.

(** The channel count the validation requires of the input. *)
Lemma shape_check_input_planes (input w : Tensor R) go b
    kd kh kw sd sh sw pd ph pw wo :
  slow_conv3d_shape_check input go (Some w) b kd kh kw sd sh sw pd ph pw wo
  = Ok tt ->
  size input 1 = if dim w =? 2 then size w 1 [/] (kh [*] kw) else size w 1.
Proof.
  shape_check_steps. intros (_ & _ & _ & _ & _ & _ & (_ & H) & _). exact H.
Qed.

(** C9. With an undefined weight, a defined bias and a defined grad_output:
    a zero-dimensional bias is accepted and stands for exactly one output
    channel (the validation passes exactly when it passes without
    grad_output and bias and grad_output is rank 5 with one channel and the
    computed spatial extents), and a bias without elements fails with
    InvalidArgument. *)
Theorem shape_check_scalar_bias (input go b : Tensor R)
    kd kh kw sd sh sw pd ph pw :
  (sizes b = [] ->
   (slow_conv3d_shape_check input (Some go) None (Some b)
      kd kh kw sd sh sw pd ph pw true = Ok tt <->
    slow_conv3d_shape_check input None None None
      kd kh kw sd sh sw pd ph pw true = Ok tt /\
    dim go = 5 /\ size go 1 = 1 /\
    size go 2 = validated_output_size (size input 2) pd kd sd /\
    size go 3 = validated_output_size (size input 3) ph kh sh /\
    size go 4 = validated_output_size (size input 4) pw kw sw)) /\
  (numel b = 0 ->
   exists m,
     slow_conv3d_shape_check input (Some go) None (Some b)
       kd kh kw sd sh sw pd ph pw true = Err (InvalidArgument m)).
Proof.
  split.
  - intros Hb. unfold validated_output_size. shape_check_steps.
    assert (Hnum0 : (numel b >? 0) = true) by (unfold numel; now rewrite Hb).
    assert (Hdim0 : (dim b =? 0) = true) by (unfold dim; now rewrite Hb).
    rewrite Hnum0, Hdim0. cbv iota. clear Hnum0 Hdim0.
    rewrite !andb_true_iff, !Z.eqb_eq.
    split.
    + intros (Hk & Hs & _ & Hin & Hex & Hout & _ & (_ & Hd & Hc) & (_ & Hz)
              & (_ & Hy) & (_ & Hx)).
      assert (H5 : dim input = 5) by tauto.
      unfold dim in *.
      repeat split; try assumption; try tauto; try reflexivity; lia.
    + intros ((Hk & Hs & _ & Hin & Hex & Hout & _) & Hd & Hc & Hz & Hy & Hx).
      assert (H5 : dim input = 5) by tauto.
      unfold dim in *.
      repeat split; try assumption; try tauto; try reflexivity; lia.
  - intros Hb.
    destruct (result_unit_cases
      (slow_conv3d_shape_check input (Some go) None (Some b)
         kd kh kw sd sh sw pd ph pw true)) as [Hok|Herr]; [|exact Herr].
    revert Hok. shape_check_steps. rewrite Hb.
    intros (_ & _ & _ & _ & _ & _ & _ & (H & _) & _). discriminate.
Qed.

Lemma select_ok (t v : Tensor R) (i : Z) :
  select t i = Ok v -> v = block t i /\ 1 <= dim t /\ 0 <= i < size t 0.
Proof.
  unfold select.
  destruct (Z.leb_spec 1 (dim t)); destruct (Z.leb_spec 0 i);
    destruct (Z.ltb_spec i (size t 0)); simpl; intros Hv; inversion Hv.
  repeat split; assumption.
Qed.

Lemma block_len_put_select (t v : Tensor R) i :
  block_len (put_select t i v) = block_len t.
Proof. reflexivity. Qed.

(** ** The bias fill of the forward kernel *)

Lemma fill_loop_ok (b : Tensor R) :
  forall (n : nat) (k : Z) (o f o' f' : Tensor R) (pre rest : list R),
  0 <= k ->
  data o = pre ++ rest ->
  length pre = (Z.to_nat k * block_len o)%nat ->
  (n * block_len o <= length rest)%nat ->
  for_each (zseq k n)
    (fun i =>
       (s <- get ;;
        output_i <- lift (select (fst s) i) ;;
        bias_i <- lift (select b i) ;;
        modify (fun '(output, finput) =>
          (put_select output i (fill_ output_i (item bias_i)), finput)))%st)
    (o, f) = (Ok tt, (o', f')) ->
  f' = f /\ sizes o' = sizes o /\
  data o' = pre ++ flat_map (fun i => repeat (bias_at b i) (block_len o))
                            (zseq k n)
            ++ skipn (n * block_len o) rest.
Proof.
  induction n as [|n IH]; intros k o f o' f' pre rest Hk Hdata Hpre Hrest Hrun.
  - simpl in Hrun. inversion Hrun; subst. simpl. auto.
  - simpl in Hrun. apply bind_ok in Hrun as (u & [o1 f1] & Hbody & Hrun).
    unfold bind, get, lift, modify in Hbody. simpl in Hbody.
    destruct (select o k) as [oi|] eqn:Hoi; [|discriminate].
    destruct (select b k) as [bi|] eqn:Hbi; [|discriminate].
    apply select_ok in Hoi as (-> & _). apply select_ok in Hbi as (-> & _).
    inversion Hbody; subst o1 f1; clear Hbody.
    apply (IH (k + 1) _ _ _ _ (pre ++ repeat (bias_at b k) (block_len o))
              (skipn (block_len o) rest)) in Hrun.
    + destruct Hrun as (Hf & Hs & Hd). rewrite block_len_put_select in Hd.
      split; [exact Hf|]. split; [exact Hs|].
      rewrite Hd. simpl. rewrite <- !app_assoc, skipn_skipn.
      replace (n * block_len o + block_len o)%nat
        with (block_len o + n * block_len o)%nat by lia.
      reflexivity.
    + lia.
    + simpl. rewrite Hdata, (put_block_app _ _ _ _ _ Hpre).
      rewrite <- app_assoc. reflexivity.
    + rewrite block_len_put_select, length_app, repeat_length, Hpre.
      replace (Z.to_nat (k + 1)) with (Z.to_nat k + 1)%nat by lia. lia.
    + rewrite block_len_put_select, length_skipn. simpl in Hrest. lia.
Qed.

Lemma to_nat_mul (a b : Z) :
  0 <= a -> 0 <= b -> Z.to_nat (a * b) = (Z.to_nat a * Z.to_nat b)%nat.
Proof. intros. apply Z2Nat.inj_mul; assumption. Qed.

Lemma reshape_ok (t t' : Tensor R) (s : list Z) :
  reshape t s = Ok t' -> t' = mkTensor s (data t) /\ prod_sizes s = numel t.
Proof.
  unfold reshape. destruct (Z.eqb_spec (prod_sizes s) (numel t));
    intros H; inversion H. split; [reflexivity|assumption].
Qed.

(** Element [(i, j)] of a matrix whose rows are constant. *)
Lemma get2_rows_constant (g : Z -> R) (O L i j : Z) :
  0 <= i < O -> 0 <= j < L ->
  get2 (mkTensor [O; L]
          (flat_map (fun i => repeat (g i) (Z.to_nat L)) (range O))) i j
  = g i.
Proof.
  intros Hi Hj. unfold get2, size. simpl.
  replace (Z.to_nat (i * L + j))
    with (Z.to_nat i * Z.to_nat L + Z.to_nat j)%nat by nia.
  rewrite (nth_flat_map_blocks _ (Z.to_nat L) 0).
  - rewrite nth_range by lia. rewrite nth_repeat_lt by lia.
    f_equal. lia.
  - intros; apply repeat_length.
  - rewrite length_range. lia.
  - lia.
Qed.

(** ** The forward kernel of one batch item, when it succeeds *)

Lemma update_output_frame_ok (input weight : Tensor R) (bias : option (Tensor R))
    kd kh kw sd sh sw pd ph pw C D H W O od oh ow (o f o' f' : Tensor R) :
  sizes o = [O; od; oh; ow] ->
  0 <= O -> 0 <= od -> 0 <= oh -> 0 <= ow ->
  length (data o) = Z.to_nat (O * (od * oh * ow)) ->
  size weight 0 = O ->
  size f 1 = od [*] oh [*] ow ->
  slow_conv3d_update_output_frame input weight bias kd kh kw sd sh sw
    pd ph pw C D H W O od oh ow (o, f) = (Ok tt, (o', f')) ->
  f' = Unfold3dCopyCPU input C D H W od oh ow kd kh kw sd sh sw pd ph pw f /\
  o' = mkTensor (sizes o)
         (frame_output_data weight bias f' O (od * oh * ow)).
Proof.
  intros Hso HO Hod Hoh How Hlen Hw0 Hf1 Hrun.
  unfold slow_conv3d_update_output_frame in Hrun.
  apply bind_ok in Hrun as ([] & [o1 f1] & Hunf & Hrun).
  unfold modify in Hunf. inversion Hunf; subst o1 f1; clear Hunf.
  apply bind_ok in Hrun as (s & s1 & Hget & Hrun).
  unfold get in Hget. inversion Hget; subst s s1; clear Hget.
  apply bind_ok in Hrun as (o2d & s1 & Hresh & Hrun).
  apply lift_ok in Hresh as (Hresh & ->).
  apply reshape_ok in Hresh as (-> & Hprod). simpl in Hprod.
  unfold numel in Hprod. rewrite Hso in Hprod. simpl in Hprod.
  set (F := Unfold3dCopyCPU input C D H W od oh ow kd kh kw sd sh sw
              pd ph pw f) in *.
  set (Lw := od [*] oh [*] ow) in *.
  assert (HL : O = 0 \/ Lw = od * oh * ow) by nia.
  assert (Hrange :
    forall g : Z -> Z -> R,
      flat_map (fun i => map (g i) (range Lw)) (range O)
      = flat_map (fun i => map (g i) (range (od * oh * ow))) (range O)).
  { intros g. destruct HL as [->| ->]; reflexivity. }
  destruct bias as [b|].
  - apply bind_ok in Hrun as ([] & [o1 f1] & Hfill & Hrun).
    unfold for_range in Hfill. rewrite Z.sub_0_r in Hfill.
    apply (fill_loop_ok b _ _ _ _ _ _ [] (data o)) in Hfill;
      [| lia | reflexivity | simpl; lia | ].
    2:{ unfold block_len. rewrite Hso. simpl.
        rewrite Hlen, Z.mul_1_r, Z.mul_assoc.
        rewrite to_nat_mul by nia. lia. }
    destruct Hfill as (-> & Hs1 & Hd1).
    assert (Hm : block_len o = Z.to_nat (od * oh * ow)).
    { unfold block_len. rewrite Hso. simpl. f_equal. lia. }
    rewrite skipn_all2 in Hd1.
    2:{ rewrite Hm, Hlen, to_nat_mul by nia. lia. }
    simpl in Hd1. rewrite app_nil_r in Hd1.
    apply bind_ok in Hrun as (s & s1 & Hget & Hrun).
    unfold get in Hget. inversion Hget; subst s s1; clear Hget.
    apply bind_ok in Hrun as (r & s1 & Hadd & Hrun).
    apply lift_ok in Hadd as (Hadd & ->).
    unfold modify in Hrun. inversion Hrun; subst o' f'; clear Hrun.
    split; [reflexivity|]. rewrite Hs1. f_equal.
    unfold addmm_ in Hadd. simpl in Hadd.
    match type of Hadd with (if ?c then _ else _) = _ => destruct c end;
      [|discriminate].
    inversion Hadd; subst r; clear Hadd. simpl.
    unfold size at 1 2. simpl. fold Lw.
    rewrite Hrange. unfold frame_output_data.
    apply flat_map_agree. intros i Hi. apply in_range in Hi.
    apply map_ext_in. intros j Hj. apply in_range in Hj.
    f_equal. f_equal.
    destruct HL as [->| HLw]; [lia|].
    rewrite Hd1, Hm, HLw. fold (range O).
    apply (get2_rows_constant (bias_at b)); lia.
  - apply bind_ok in Hrun as (s & s1 & Hget & Hrun).
    unfold get in Hget. inversion Hget; subst s s1; clear Hget.
    apply bind_ok in Hrun as (r & s1 & Hmm & Hrun).
    apply lift_ok in Hmm as (Hmm & ->).
    unfold modify in Hrun. inversion Hrun; subst o' f'; clear Hrun.
    split; [reflexivity|]. f_equal.
    unfold mm_out in Hmm. simpl in Hmm.
    destruct (matrices_agree weight F); [|discriminate].
    inversion Hmm; subst r; clear Hmm. simpl.
    rewrite Hw0.
    replace (size F 1) with Lw by (symmetry; exact Hf1).
    rewrite Hrange. reflexivity.
Qed.

(** Whether an operation of the array abstraction succeeds depends on sizes only. *)

Lemma select_same_sizes (t1 t2 : Tensor R) (i : Z) :
  sizes t1 = sizes t2 ->
  (select t1 i = Ok (block t1 i) /\ select t2 i = Ok (block t2 i)) \/
  (exists e, select t1 i = Err e /\ select t2 i = Err e).
Proof.
  intros Hs. unfold select, dim, size. rewrite Hs.
  destruct ((1 <=? Z.of_nat (length (sizes t2))) && (0 <=? i) &&
            (i <? nth (Z.to_nat 0) (sizes t2) 0)).
  - left. split; reflexivity.
  - right. eexists. split; reflexivity.
Qed.

Lemma fill_loop_same_sizes (b : Tensor R) (l : list Z) :
  forall (o1 f1 o2 f2 : Tensor R),
  sizes o1 = sizes o2 ->
  let body := fun i =>
       (s <- get ;;
        output_i <- lift (select (fst s) i) ;;
        bias_i <- lift (select b i) ;;
        modify (fun '(output, finput) =>
          (put_select output i (fill_ output_i (item bias_i)), finput)))%st in
  fst (for_each l body (o1, f1)) = fst (for_each l body (o2, f2)) /\
  sizes (fst (snd (for_each l body (o1, f1)))) = sizes o1 /\
  sizes (fst (snd (for_each l body (o2, f2)))) = sizes o2 /\
  snd (snd (for_each l body (o1, f1))) = f1 /\
  snd (snd (for_each l body (o2, f2))) = f2.
Proof.
  induction l as [|t l IH]; intros o1 f1 o2 f2 Hs body.
  - simpl. auto.
  - rewrite !for_each_cons.
    assert (Hbody : forall o f,
      body t (o, f)
      = match select o t with
        | Ok oi =>
            match select b t with
            | Ok bi => (Ok tt, (put_select o t (fill_ oi (item bi)), f))
            | Err e => (Err e, (o, f))
            end
        | Err e => (Err e, (o, f))
        end).
    { intros o f. unfold body, bind, get, lift, modify. simpl.
      destruct (select o t); [destruct (select b t)|]; reflexivity. }
    rewrite !Hbody.
    destruct (select_same_sizes o1 o2 t Hs) as [[-> ->]|(e & -> & ->)].
    + destruct (select b t) as [bi|e].
      * specialize (IH (put_select o1 t (fill_ (block o1 t) (item bi))) f1
                       (put_select o2 t (fill_ (block o2 t) (item bi))) f2 Hs).
        exact IH.
      * simpl. auto.
    + simpl. auto.
Qed.

(** Whether the forward kernel of one item succeeds depends on the sizes of
    its views only, not on the item nor on what the views hold. *)
Lemma update_output_frame_same_sizes (input1 input2 weight : Tensor R)
    (bias : option (Tensor R))
    kd kh kw sd sh sw pd ph pw C D H W O od oh ow (o1 f1 o2 f2 : Tensor R) :
  sizes o1 = sizes o2 -> sizes f1 = sizes f2 ->
  fst (slow_conv3d_update_output_frame input1 weight bias kd kh kw sd sh sw
         pd ph pw C D H W O od oh ow (o1, f1))
  = fst (slow_conv3d_update_output_frame input2 weight bias kd kh kw sd sh sw
           pd ph pw C D H W O od oh ow (o2, f2)).
Proof.
  intros Ho Hf. unfold slow_conv3d_update_output_frame.
  rewrite !bind_modify, !bind_get, !bind_lift. cbn [fst snd].
  unfold reshape, numel. rewrite Ho.
  destruct (prod_sizes [O; od [*] oh [*] ow] =? prod_sizes (sizes o2));
    [|reflexivity].
  destruct bias as [b|].
  - unfold for_range.
    pose proof (fill_loop_same_sizes b (zseq 0 (Z.to_nat (O - 0)))
      o1 (Unfold3dCopyCPU input1 C D H W od oh ow kd kh kw sd sh sw
            pd ph pw f1)
      o2 (Unfold3dCopyCPU input2 C D H W od oh ow kd kh kw sd sh sw
            pd ph pw f2) Ho) as Hloop.
    cbv zeta in Hloop. destruct Hloop as (Hst & Hs1 & Hs2 & Hf1 & Hf2).
    rewrite !bind_for_each.
    match goal with
    | |- fst (match ?a with _ => _ end) = fst (match ?b with _ => _ end) =>
        destruct a as [[[]|e1] [o1' f1']]; destruct b as [[[]|e2] [o2' f2']]
    end; simpl in Hst, Hs1, Hs2, Hf1, Hf2; try discriminate;
      [|simpl; congruence].
    rewrite !bind_get, !bind_lift. cbn [fst snd sizes data]. subst f1' f2'.
    unfold addmm_, matrices_agree, dim, size, Unfold3dCopyCPU. cbn [sizes].
    rewrite Hf.
    match goal with
    | |- fst (match (if ?c then _ else _) with _ => _ end) = _ =>
        destruct c
    end; reflexivity.
  - rewrite !bind_get, !bind_lift. cbn [fst snd].
    unfold mm_out, matrices_agree, dim, size, Unfold3dCopyCPU. cbn [sizes].
    rewrite Hf.
    match goal with
    | |- fst (match (if ?c then _ else _) with _ => _ end) = _ =>
        destruct c
    end; reflexivity.
Qed.

(** ** Output extents *)

Lemma output_size_agree (n pad k s : Z) :
  0 <= n <= int64_max -> in_int64 k -> in_int64 s ->
  padded_extent_fits n pad ->
  k > 0 -> s > 0 -> (n [+] 2 [*] pad >=? k) = true ->
  computed_output_size n pad k s = conv_output_size n pad k s /\
  validated_output_size n pad k s = conv_output_size n pad k s /\
  1 <= conv_output_size n pad k s <= int64_max.
Proof.
  intros Hn Hk Hs [Hp1 Hp2] Hkpos Hspos Hge.
  unfold computed_output_size, validated_output_size, conv_output_size,
    add64, sub64, mul64, div64, div_rtn in *.
  rewrite (wrap64_id (2 * pad)) in * by exact Hp1.
  rewrite (wrap64_id (n + 2 * pad)) in * by exact Hp2.
  apply Z.geb_le in Hge.
  unfold in_int64, int64_min, int64_max in *.
  assert (Hx : 0 <= n + 2 * pad - k <= 2 ^ 63 - 1 - 1) by lia.
  rewrite (wrap64_id (n + 2 * pad - k))
    by (unfold in_int64, int64_min, int64_max; lia).
  rewrite Z.quot_div_nonneg by lia.
  assert (Hq : 0 <= (n + 2 * pad - k) / s <= n + 2 * pad - k).
  { split; [apply Z.div_pos; lia|].
    apply Z.div_le_upper_bound; [lia|]. nia. }
  rewrite (wrap64_id ((n + 2 * pad - k) / s))
    by (unfold in_int64, int64_min, int64_max; lia).
  rewrite wrap64_id by (unfold in_int64, int64_min, int64_max; lia).
  repeat split; lia.
Qed.

(** ** Lengths *)

Lemma length_resize (l : list R) (x : R) (n : nat) :
  length (firstn n (l ++ repeat x n)) = n.
Proof.
  rewrite length_firstn, length_app, repeat_length. lia.
Qed.

Lemma length_frame_output_data (w : Tensor R) bias (cols : Tensor R) (O L : Z) :
  length (frame_output_data w bias cols O L)
  = (Z.to_nat O * Z.to_nat L)%nat.
Proof.
  unfold frame_output_data.
  rewrite (length_flat_map_blocks _ (Z.to_nat L)).
  - rewrite length_range. reflexivity.
  - intros i _. rewrite length_map, length_range. reflexivity.
Qed.

Lemma length_Unfold3dCopyCPU (src dst : Tensor R)
    C D H W od oh ow kd kh kw sd sh sw pd ph pw :
  length (data (Unfold3dCopyCPU src C D H W od oh ow kd kh kw sd sh sw
                  pd ph pw dst))
  = (Z.to_nat C * (Z.to_nat kd * (Z.to_nat kh * (Z.to_nat kw *
      (Z.to_nat od * (Z.to_nat oh * Z.to_nat ow))))))%nat.
Proof.
  unfold Unfold3dCopyCPU. cbn [data].
  repeat (erewrite length_flat_map_blocks;
          [rewrite length_range; f_equal | intros ? _]).
  rewrite length_map, length_range. reflexivity.
Qed.

Section ForwardLoop.

Variables (input w2d : Tensor R) (bias : option (Tensor R)).
Variables (kd kh kw sd sh sw pd ph pw C D H W O od oh ow N K L : Z).

Hypothesis HO : 0 <= O.
Hypothesis Hod : 0 <= od.
Hypothesis Hoh : 0 <= oh.
Hypothesis How : 0 <= ow.
Hypothesis HC : 0 <= C.
Hypothesis Hkd : 0 <= kd.
Hypothesis Hkh : 0 <= kh.
Hypothesis Hkw : 0 <= kw.
Hypothesis Hw2d : size w2d 0 = O.
Hypothesis HLw : L = od [*] oh [*] ow.
Hypothesis HL : L = od * oh * ow.
Hypothesis HK : K = C * kd * kh * kw.

Let forward_body : Z -> M (Fwd.buffers R) unit :=
  forward_batch_body input w2d bias kd kh kw sd sh sw pd ph pw
    C D H W O od oh ow.

Let cols (t : Z) : Tensor R :=
  Unfold3dCopyCPU (block input t) C D H W od oh ow kd kh kw sd sh sw
    pd ph pw (mkTensor [K; L] []).

Lemma forward_body_run (t : Z) (b : Fwd.buffers R) :
  forward_body t b
  = match select input t with
    | Err e => (Err e, b)
    | Ok input_t =>
        match select (Fwd.output b) t with
        | Err e => (Err e, b)
        | Ok output_t =>
            match select (Fwd.finput b) t with
            | Err e => (Err e, b)
            | Ok finput_t =>
                let (r, v) :=
                  slow_conv3d_update_output_frame input_t w2d bias
                    kd kh kw sd sh sw pd ph pw C D H W O od oh ow
                    (output_t, finput_t) in
                (r, Fwd.mk (put_select (Fwd.output b) t (fst v))
                           (put_select (Fwd.finput b) t (snd v))
                           (Fwd.fgrad_input b))
            end
        end
    end.
Proof.
  unfold forward_body, forward_batch_body. rewrite bind_lift.
  destruct (select input t) as [input_t|e]; [|reflexivity].
  rewrite bind_get, bind_lift.
  destruct (select (Fwd.output b) t) as [output_t|e]; [|reflexivity].
  rewrite bind_lift.
  destruct (select (Fwd.finput b) t) as [finput_t|e]; [|reflexivity].
  unfold on_views.
  destruct (slow_conv3d_update_output_frame input_t w2d bias
              kd kh kw sd sh sw pd ph pw C D H W O od oh ow
              (output_t, finput_t)) as [r [o' f']].
  reflexivity.
Qed.

Lemma forward_loop_ok :
  forall (n : nat) (k : Z) (b b' : Fwd.buffers R)
         (pre_o rest_o pre_f rest_f : list R),
  0 <= k ->
  sizes (Fwd.output b) = [N; O; od; oh; ow] ->
  sizes (Fwd.finput b) = [N; K; L] ->
  data (Fwd.output b) = pre_o ++ rest_o ->
  length pre_o = (Z.to_nat k * Z.to_nat (O * (od * oh * ow)))%nat ->
  length rest_o = (n * Z.to_nat (O * (od * oh * ow)))%nat ->
  data (Fwd.finput b) = pre_f ++ rest_f ->
  length pre_f = (Z.to_nat k * Z.to_nat (K * L))%nat ->
  length rest_f = (n * Z.to_nat (K * L))%nat ->
  for_each (zseq k n) forward_body b = (Ok tt, b') ->
  sizes (Fwd.output b') = [N; O; od; oh; ow] /\
  sizes (Fwd.finput b') = [N; K; L] /\
  Fwd.fgrad_input b' = Fwd.fgrad_input b /\
  data (Fwd.output b')
  = pre_o ++ flat_map (fun t => frame_output_data w2d bias (cols t) O
                                  (od * oh * ow)) (zseq k n) /\
  data (Fwd.finput b')
  = pre_f ++ flat_map (fun t => data (cols t)) (zseq k n).
Proof.
  induction n as [|n IH];
    intros k b b' pre_o rest_o pre_f rest_f Hk Hso Hsf Hdo Hpo Hro Hdf Hpf Hrf
           Hrun.
  - simpl in Hrun. inversion Hrun; subst b'.
    destruct rest_o; [|discriminate]. destruct rest_f; [|discriminate].
    simpl. rewrite Hdo, Hdf. auto.
  - cbn [zseq] in Hrun. rewrite for_each_cons, forward_body_run in Hrun.
    destruct (select input k) as [input_t|] eqn:Hin; [|discriminate].
    destruct (select (Fwd.output b) k) as [output_t|] eqn:Hout;
      [|discriminate].
    destruct (select (Fwd.finput b) k) as [finput_t|] eqn:Hfin;
      [|discriminate].
    apply select_ok in Hin as (-> & _).
    apply select_ok in Hout as (-> & _).
    apply select_ok in Hfin as (-> & _).
    destruct (slow_conv3d_update_output_frame (block input k) w2d bias
                kd kh kw sd sh sw pd ph pw C D H W O od oh ow
                (block (Fwd.output b) k, block (Fwd.finput b) k))
      as [[[]|e] [o' f']] eqn:Hframe; [|discriminate].
    cbn [fst snd] in Hrun.
    assert (Hblo : block_len (Fwd.output b) = Z.to_nat (O * (od * oh * ow))).
    { unfold block_len. rewrite Hso. simpl. f_equal. lia. }
    assert (Hblf : block_len (Fwd.finput b) = Z.to_nat (K * L)).
    { unfold block_len. rewrite Hsf. simpl. f_equal. lia. }
    apply update_output_frame_ok in Hframe; try assumption.
    + destruct Hframe as (Hf' & Ho').
      assert (Hcols : f' = cols k).
      { rewrite Hf'. unfold cols, Unfold3dCopyCPU, block. cbn [sizes data].
        rewrite Hsf. reflexivity. }
      rewrite Hcols in Ho'. clear Hf'. subst f' o'.
      apply (IH (k + 1) _ _
               (pre_o ++ frame_output_data w2d bias (cols k) O (od * oh * ow))
               (skipn (Z.to_nat (O * (od * oh * ow))) rest_o)
               (pre_f ++ data (cols k))
               (skipn (Z.to_nat (K * L)) rest_f)) in Hrun.
      * destruct Hrun as (H1 & H2 & H3 & H4 & H5).
        repeat split; try assumption.
        -- rewrite H4. cbn [zseq flat_map]. rewrite <- app_assoc. reflexivity.
        -- rewrite H5. cbn [zseq flat_map]. rewrite <- app_assoc. reflexivity.
      * lia.
      * exact Hso.
      * exact Hsf.
      * cbn [Fwd.output put_select data]. rewrite Hblo, Hdo.
        rewrite (put_block_app _ _ _ _ _ Hpo), <- app_assoc. reflexivity.
      * rewrite length_app, length_frame_output_data, Hpo.
        rewrite to_nat_mul by nia.
        replace (Z.to_nat (k + 1)) with (Z.to_nat k + 1)%nat by lia. lia.
      * rewrite length_skipn, Hro. simpl. lia.
      * cbn [Fwd.finput put_select data]. rewrite Hblf, Hdf.
        rewrite (put_block_app _ _ _ _ _ Hpf), <- app_assoc. reflexivity.
      * rewrite length_app, Hpf. unfold cols.
        rewrite length_Unfold3dCopyCPU.
        replace (Z.to_nat (k + 1)) with (Z.to_nat k + 1)%nat by lia.
        rewrite HK, HL, !to_nat_mul by nia. lia.
      * rewrite length_skipn, Hrf. simpl. lia.
    + unfold block. cbn [sizes]. rewrite Hso. reflexivity.
    + unfold block. cbn [data]. rewrite Hblo, Hdo.
      rewrite (take_block_app _ _ _ _ Hpo), length_firstn, Hro. simpl.
      rewrite Z.mul_assoc. lia.
    + unfold block, size. cbn [sizes]. rewrite Hsf. simpl. exact HLw.
Qed.

End ForwardLoop.

(** ** Forward *)

(** Forward is the validation, the weight reshaper, the two resizes and the
    loop over the batch. *)
Lemma forward_out_run (self : Tensor R) (weight bias : option (Tensor R))
    (kd kh kw sd sh sw pd ph pw : Z) (b : Fwd.buffers R) :
  slow_conv3d_forward_out_cpu self weight [kd; kh; kw] bias [sd; sh; sw]
    [pd; ph; pw] b
  = match slow_conv3d_shape_check self None weight bias kd kh kw sd sh sw
            pd ph pw false with
    | Err e => (Err e, b)
    | Ok _ =>
        match deref weight with
        | Err e => (Err e, b)
        | Ok weight_ =>
            match view_weight_2d weight_ with
            | Err e => (Err e, b)
            | Ok weight_2d =>
                let od := computed_output_size (size self 2) pd kd sd in
                let oh := computed_output_size (size self 3) ph kh sh in
                let ow := computed_output_size (size self 4) pw kw sw in
                for_each (range (size self 0))
                  (forward_batch_body self weight_2d bias
                     kd kh kw sd sh sw pd ph pw
                     (size self 1) (size self 2) (size self 3) (size self 4)
                     (size weight_2d 0) od oh ow)
                  (Fwd.mk
                     (resize_ (Fwd.output b)
                        [size self 0; size weight_2d 0; od; oh; ow])
                     (resize_ (Fwd.finput b)
                        [size self 0;
                         size self 1 [*] kd [*] kh [*] kw;
                         od [*] oh [*] ow])
                     (Fwd.fgrad_input b))
            end
        end
    end.
Proof.
  unfold slow_conv3d_forward_out_cpu. cbn [nth]. cbv zeta.
  rewrite bind_lift.
  destruct (slow_conv3d_shape_check self None weight bias kd kh kw sd sh sw
              pd ph pw false) as [[]|e]; [|reflexivity].
  rewrite bind_lift. destruct (deref weight) as [weight_|e]; [|reflexivity].
  rewrite bind_lift.
  destruct (view_weight_2d weight_) as [weight_2d|e]; [|reflexivity].
  do 2 rewrite bind_modify. rewrite parallel_for_range.
  unfold forward_batch_body, computed_output_size.
  cbn [Fwd.output Fwd.finput Fwd.fgrad_input]. reflexivity.
Qed.

Lemma wf_sizes_nth (t : Tensor R) (d : Z) :
  wf_sizes t -> 0 <= size t d <= int64_max.
Proof.
  intros [Hwf _]. unfold size.
  destruct (nth_in_or_default (Z.to_nat d) (sizes t) 0) as [Hin| ->].
  - rewrite Forall_forall in Hwf. apply Hwf. exact Hin.
  - unfold int64_max. lia.
Qed.

Lemma view_weight_2d_size0 (w w2d : Tensor R) :
  view_weight_2d w = Ok w2d -> size w2d 0 = size w 0.
Proof.
  unfold view_weight_2d, view. destruct (dim w =? 5).
  - intros H. apply reshape_ok in H as [-> _]. reflexivity.
  - intros H. inversion H. reflexivity.
Qed.

Lemma mul64_exact (a b : Z) : in_int64 (a * b) -> a [*] b = a * b.
Proof. apply wrap64_id. Qed.

Lemma in_int64_prod3 (a b c : Z) :
  1 <= a -> 1 <= b -> 1 <= c -> in_int64 (a * b * c) ->
  a [*] b [*] c = a * b * c.
Proof.
  unfold in_int64, int64_min, int64_max. intros Ha Hb Hc Habc.
  rewrite (mul64_exact a b)
    by (unfold in_int64, int64_min, int64_max; nia).
  apply mul64_exact. exact Habc.
Qed.

Lemma in_int64_prod4 (a b c d : Z) :
  1 <= a -> 1 <= b -> 1 <= c -> 1 <= d -> in_int64 (a * b * c * d) ->
  a [*] b [*] c [*] d = a * b * c * d.
Proof.
  unfold in_int64, int64_min, int64_max. intros Ha Hb Hc Hd Habcd.
  rewrite (in_int64_prod3 a b c); try assumption.
  - apply mul64_exact. exact Habcd.
  - unfold in_int64, int64_min, int64_max. nia.
Qed.

(** What a passed validation says about the geometry of Forward. *)
Lemma shape_check_geometry (self w : Tensor R) go bias
    (kd kh kw sd sh sw pd ph pw : Z) wo :
  wf_sizes self -> wf_sizes w ->
  slow_conv3d_shape_check self go (Some w) bias kd kh kw sd sh sw
    pd ph pw wo = Ok tt ->
  (kd > 0 /\ kh > 0 /\ kw > 0) /\ (sd > 0 /\ sh > 0 /\ sw > 0) /\
  dim self = 5 /\
  (1 <= size self 1 /\ 1 <= size self 2 /\ 1 <= size self 3 /\
   1 <= size self 4) /\
  ((size self 2 [+] 2 [*] pd >=? kd) = true /\
   (size self 3 [+] 2 [*] ph >=? kh) = true /\
   (size self 4 [+] 2 [*] pw >=? kw) = true) /\
  1 <= size w 0.
Proof.
  intros Hself Hw. shape_check_steps.
  intros (Hk & Hs & (Hwt & _) & Hin & Hex & _).
  rewrite !andb_true_iff, !Z.gtb_lt in Hk, Hs.
  rewrite (input_check_accepted _ Hself) in Hin.
  unfold input_shape_accepted in Hin.
  apply andb_true_iff in Hin as [H5 Hnz]. apply Z.eqb_eq in H5.
  rewrite !andb_true_iff in Hex.
  apply andb_true_iff in Hwt as [Hnum Hdim].
  assert (Hw0 : 1 <= size w 0).
  { pose proof (wf_sizes_nth w 0 Hw) as H0.
    destruct Hw as [Hw _]. unfold numel in Hnum.
    rewrite (prod_sizes_pos _ Hw) in Hnum.
    apply orb_true_iff in Hdim. rewrite !Z.eqb_eq in Hdim.
    unfold size, dim in *.
    destruct (sizes w) as [|x l]; simpl in *; [lia|].
    apply andb_true_iff in Hnum as [Hx _].
    apply negb_true_iff, Z.eqb_neq in Hx. lia. }
  repeat split; try tauto; try lia.
  all: destruct (sizes_rank5 _ H5) as (n & c & d & h & x & Hsz);
    pose proof (wf_sizes_nth self 1 Hself);
    pose proof (wf_sizes_nth self 2 Hself);
    pose proof (wf_sizes_nth self 3 Hself);
    pose proof (wf_sizes_nth self 4 Hself);
    unfold size in *; rewrite Hsz in *; simpl in *;
    rewrite ?andb_true_r in Hnz;
    apply orb_true_iff in Hnz as [Hnz|Hnz];
    rewrite !andb_true_iff, !negb_true_iff, !Z.eqb_neq in Hnz; lia.
Qed.

(** Forward, when it succeeds, computes the specified output and column
    buffer and leaves fgrad_input alone. *)
Lemma forward_out_ok_spec (self w : Tensor R) (bias : option (Tensor R))
    (kd kh kw sd sh sw pd ph pw : Z) (b b' : Fwd.buffers R) :
  wf_sizes self -> wf_sizes w ->
  forward_fits self kd kh kw sd sh sw pd ph pw ->
  slow_conv3d_forward_out_cpu self (Some w) [kd; kh; kw] bias [sd; sh; sw]
    [pd; ph; pw] b = (Ok tt, b') ->
  exists w2d,
    view_weight_2d w = Ok w2d /\
    slow_conv3d_shape_check self None (Some w) bias kd kh kw sd sh sw
      pd ph pw false = Ok tt /\
    Fwd.output b' = forward_output_spec self w2d bias kd kh kw sd sh sw
                      pd ph pw /\
    Fwd.finput b' = forward_finput_spec self kd kh kw sd sh sw pd ph pw /\
    Fwd.fgrad_input b' = Fwd.fgrad_input b.
Proof.
  intros Hself Hw Hfits Hrun. rewrite forward_out_run in Hrun.
  destruct (slow_conv3d_shape_check self None (Some w) bias kd kh kw
              sd sh sw pd ph pw false) as [[]|e] eqn:Hcheck; [|discriminate].
  cbn [deref] in Hrun.
  destruct (view_weight_2d w) as [w2d|e] eqn:Hview; [|discriminate].
  exists w2d. split; [reflexivity|]. split; [reflexivity|].
  destruct (shape_check_geometry _ _ _ _ _ _ _ _ _ _ _ _ _ _ Hself Hw Hcheck)
    as ((Hkd & Hkh & Hkw) & (Hsd & Hsh & Hsw) & H5 & (HC & HD & HH & HW)
        & (Hxd & Hxh & Hxw) & HO).
  destruct Hfits as ((Fkd & Fkh & Fkw & Fsd & Fsh & Fsw & Fpd & Fph & Fpw)
                     & FK & FL).
  destruct (output_size_agree (size self 2) pd kd sd) as (Hod & _ & Hod1);
    try assumption; [apply wf_sizes_nth; assumption|].
  destruct (output_size_agree (size self 3) ph kh sh) as (Hoh & _ & Hoh1);
    try assumption; [apply wf_sizes_nth; assumption|].
  destruct (output_size_agree (size self 4) pw kw sw) as (How & _ & How1);
    try assumption; [apply wf_sizes_nth; assumption|].
  cbv zeta in Hrun. rewrite Hod, Hoh, How in Hrun.
  set (od := conv_output_size (size self 2) pd kd sd) in *.
  set (oh := conv_output_size (size self 3) ph kh sh) in *.
  set (ow := conv_output_size (size self 4) pw kw sw) in *.
  rewrite (in_int64_prod4 (size self 1) kd kh kw) in Hrun
    by (try assumption; lia).
  pose proof (in_int64_prod3 od oh ow (proj1 Hod1) (proj1 Hoh1) (proj1 How1)
                FL) as HL.
  rewrite HL in Hrun.
  pose proof (wf_sizes_nth self 0 Hself) as HN.
  pose proof (view_weight_2d_size0 _ _ Hview) as Hw2d.
  unfold range in Hrun.
  eapply (forward_loop_ok self w2d bias kd kh kw sd sh sw pd ph pw
            (size self 1) (size self 2) (size self 3) (size self 4)
            (size w2d 0) od oh ow (size self 0)
            (size self 1 * kd * kh * kw) (od * oh * ow))
    with (pre_o := []) (pre_f := []) in Hrun;
    try reflexivity; try lia; try (symmetry; exact HL).
  - destruct Hrun as (Hso & Hsf & Hfg & Hdo & Hdf).
    simpl in Hdo, Hdf. cbn [Fwd.fgrad_input] in Hfg.
    repeat split; [| |exact Hfg].
    + destruct (Fwd.output b') as [so do]. simpl in *.
      unfold forward_output_spec. subst so do. reflexivity.
    + destruct (Fwd.finput b') as [sf df]. simpl in *.
      unfold forward_finput_spec. subst sf df. reflexivity.
  - cbn [Fwd.output resize_ data]. rewrite length_resize.
    cbn [prod_sizes fold_right]. rewrite Z.mul_1_r.
    rewrite (to_nat_mul (size self 0)) by nia. f_equal. f_equal. lia.
  - cbn [Fwd.finput resize_ data]. rewrite length_resize.
    cbn [prod_sizes fold_right]. rewrite Z.mul_1_r.
    rewrite (to_nat_mul (size self 0)) by nia. reflexivity.
Qed.

(** Whatever Forward's loop does, it keeps the sizes of output and finput
    and never touches fgrad_input. *)
Lemma forward_loop_frame (input w2d : Tensor R) bias
    kd kh kw sd sh sw pd ph pw C D H W O od oh ow (l : list Z) :
  forall b : Fwd.buffers R,
  let run := for_each l
               (forward_batch_body input w2d bias kd kh kw sd sh sw
                  pd ph pw C D H W O od oh ow) b in
  sizes (Fwd.output (snd run)) = sizes (Fwd.output b) /\
  sizes (Fwd.finput (snd run)) = sizes (Fwd.finput b) /\
  Fwd.fgrad_input (snd run) = Fwd.fgrad_input b.
Proof.
  induction l as [|t l IH]; intros b; cbv zeta.
  - simpl. auto.
  - rewrite for_each_cons.
    pose proof (forward_body_run input w2d bias kd kh kw sd sh sw pd ph pw
                  C D H W O od oh ow t b) as Hbody.
    cbv zeta in Hbody. rewrite Hbody. clear Hbody.
    destruct (select input t) as [input_t|e]; [|simpl; auto].
    destruct (select (Fwd.output b) t) as [output_t|e]; [|simpl; auto].
    destruct (select (Fwd.finput b) t) as [finput_t|e]; [|simpl; auto].
    destruct (slow_conv3d_update_output_frame input_t w2d bias kd kh kw
                sd sh sw pd ph pw C D H W O od oh ow (output_t, finput_t))
      as [[[]|e] [o' f']].
    + specialize (IH (Fwd.mk (put_select (Fwd.output b) t (fst (o', f')))
                             (put_select (Fwd.finput b) t (snd (o', f')))
                             (Fwd.fgrad_input b))).
      cbv zeta in IH. exact IH.
    + simpl. auto.
Qed.

(** C3. Under the validation the output extents are the specified ones:
    a successful Forward gives the output the spatial sizes
    floor((input + 2*pad - kernel) / stride) + 1, and when one of these
    three numbers is below 1 Forward fails with InvalidArgument and leaves
    the buffers as they were. *)
Theorem forward_output_extents (self : Tensor R)
    (weight bias : option (Tensor R)) (kd kh kw sd sh sw pd ph pw : Z)
    (b : Fwd.buffers R) :
  wf_sizes self -> (forall w, weight = Some w -> wf_sizes w) ->
  extents_fit self kd kh kw sd sh sw pd ph pw ->
  let od := conv_output_size (size self 2) pd kd sd in
  let oh := conv_output_size (size self 3) ph kh sh in
  let ow := conv_output_size (size self 4) pw kw sw in
  let run := slow_conv3d_forward_out_cpu self weight [kd; kh; kw] bias
               [sd; sh; sw] [pd; ph; pw] b in
  (fst run = Ok tt ->
   (exists n c, sizes (Fwd.output (snd run)) = [n; c; od; oh; ow]) /\
   1 <= od /\ 1 <= oh /\ 1 <= ow) /\
  (od < 1 \/ oh < 1 \/ ow < 1 ->
   exists m, run = (Err (InvalidArgument m), b)).
Proof.
  intros Hself Hweight Hfit od oh ow run.
  assert (Hok : fst run = Ok tt ->
            (exists n c, sizes (Fwd.output (snd run)) = [n; c; od; oh; ow]) /\
            1 <= od /\ 1 <= oh /\ 1 <= ow).
  { subst run. rewrite forward_out_run.
    destruct (slow_conv3d_shape_check self None weight bias kd kh kw
                sd sh sw pd ph pw false) as [[]|e] eqn:Hcheck;
      [|discriminate].
    destruct weight as [w|]; [|discriminate]. cbn [deref].
    destruct (view_weight_2d w) as [w2d|e]; [|discriminate].
    destruct (shape_check_geometry _ _ _ _ _ _ _ _ _ _ _ _ _ _ Hself
                (Hweight w eq_refl) Hcheck)
      as ((Hkd & Hkh & Hkw) & (Hsd & Hsh & Hsw) & H5 & (HC & HD & HH & HW)
          & (Hxd & Hxh & Hxw) & HO).
    destruct Hfit as (Fkd & Fkh & Fkw & Fsd & Fsh & Fsw & Fpd & Fph & Fpw).
    destruct (output_size_agree (size self 2) pd kd sd) as (Hod & _ & Hod1);
      try assumption; [apply wf_sizes_nth; assumption|].
    destruct (output_size_agree (size self 3) ph kh sh) as (Hoh & _ & Hoh1);
      try assumption; [apply wf_sizes_nth; assumption|].
    destruct (output_size_agree (size self 4) pw kw sw) as (How & _ & How1);
      try assumption; [apply wf_sizes_nth; assumption|].
    cbv zeta. rewrite Hod, Hoh, How. fold od oh ow. intros _.
    split; [|lia].
    match goal with
    | |- context [for_each ?l (forward_batch_body ?a1 ?a2 ?a3 ?a4 ?a5 ?a6
                    ?a7 ?a8 ?a9 ?a10 ?a11 ?a12 ?a13 ?a14 ?a15 ?a16 ?a17
                    ?a18 ?a19 ?a20) ?s] =>
        destruct (forward_loop_frame a1 a2 a3 a4 a5 a6 a7 a8 a9 a10 a11 a12
                    a13 a14 a15 a16 a17 a18 a19 a20 l s) as (Hs & _ & _)
    end.
    rewrite Hs. cbn [Fwd.output resize_ sizes]. eauto. }
  split; [exact Hok|].
  intros Hsmall. subst run. rewrite forward_out_run in *.
  destruct (slow_conv3d_shape_check self None weight bias kd kh kw
              sd sh sw pd ph pw false) as [[]|[m]] eqn:Hcheck.
  - exfalso.
    destruct weight as [w|].
    + destruct (shape_check_geometry _ _ _ _ _ _ _ _ _ _ _ _ _ _ Hself
                  (Hweight w eq_refl) Hcheck)
        as ((Hkd & Hkh & Hkw) & (Hsd & Hsh & Hsw) & H5 & (HC & HD & HH & HW)
            & (Hxd & Hxh & Hxw) & HO).
      destruct Hfit as (Fkd & Fkh & Fkw & Fsd & Fsh & Fsw & Fpd & Fph & Fpw).
      destruct (output_size_agree (size self 2) pd kd sd) as (_ & _ & Hod1);
        try assumption; [apply wf_sizes_nth; assumption|].
      destruct (output_size_agree (size self 3) ph kh sh) as (_ & _ & Hoh1);
        try assumption; [apply wf_sizes_nth; assumption|].
      destruct (output_size_agree (size self 4) pw kw sw) as (_ & _ & How1);
        try assumption; [apply wf_sizes_nth; assumption|].
      subst od oh ow. lia.
    + revert Hcheck. shape_check_steps. intros (_ & _ & H & _).
      discriminate.
  - exists m. reflexivity.
Qed.

Lemma view_weight_2d_ok (w : Tensor R) :
  wf_sizes w -> numel w > 0 -> dim w = 2 \/ dim w = 5 ->
  exists w2d, view_weight_2d w = Ok w2d.
Proof.
  intros [Hwf Hmax] Hnum Hdim. unfold view_weight_2d.
  destruct (Z.eqb_spec (dim w) 5) as [H5|H5]; [|eauto].
  destruct (sizes_rank5 _ H5) as (a & b & c & d & e & Hs).
  destruct (sizes_rank5_nth _ _ _ _ _ _ Hs) as (-> & -> & -> & -> & ->).
  unfold view, reshape, numel in *. rewrite Hs in *.
  assert (Hpos : (prod_sizes [a; b; c; d; e] >? 0) = true)
    by (apply Z.gtb_lt; lia).
  rewrite (prod_sizes_pos _ Hwf) in Hpos. cbn [forallb] in Hpos.
  rewrite !andb_true_iff, !negb_true_iff, !Z.eqb_neq in Hpos.
  inversion Hwf as [|? ? Ha Hwf1]; subst.
  inversion Hwf1 as [|? ? Hb Hwf2]; subst.
  inversion Hwf2 as [|? ? Hc Hwf3]; subst.
  inversion Hwf3 as [|? ? Hd Hwf4]; subst.
  inversion Hwf4 as [|? ? He _]; subst.
  cbn [prod_sizes fold_right] in *. unfold int64_max in *.
  rewrite (in_int64_prod4 b c d e)
    by (try lia; unfold in_int64, int64_min, int64_max; nia).
  destruct (Z.eqb_spec (a * (b * c * d * e * 1)) (a * (b * (c * (d * (e * 1))))))
    as [_|Hne]; [eauto|]. exfalso. apply Hne. ring.
Qed.

(** C4 (as the code has it). Forward never touches fgrad_input: it is
    returned exactly as it was passed, whether the call succeeds or fails.  A
    successful call resizes output and finput and writes every element of
    both: they hold the specified output and columns, whatever they held
    before. *)
Theorem forward_writes_output_and_finput_only (self : Tensor R)
    (weight bias : option (Tensor R)) (kd kh kw sd sh sw pd ph pw : Z)
    (b : Fwd.buffers R) :
  let run := slow_conv3d_forward_out_cpu self weight [kd; kh; kw] bias
               [sd; sh; sw] [pd; ph; pw] b in
  Fwd.fgrad_input (snd run) = Fwd.fgrad_input b /\
  (wf_sizes self -> (forall w, weight = Some w -> wf_sizes w) ->
   forward_fits self kd kh kw sd sh sw pd ph pw ->
   fst run = Ok tt ->
   exists w w2d,
     weight = Some w /\ view_weight_2d w = Ok w2d /\
     Fwd.output (snd run)
     = forward_output_spec self w2d bias kd kh kw sd sh sw pd ph pw /\
     Fwd.finput (snd run)
     = forward_finput_spec self kd kh kw sd sh sw pd ph pw).
Proof.
  intros run. split.
  - subst run. rewrite forward_out_run.
    destruct (slow_conv3d_shape_check self None weight bias kd kh kw
                sd sh sw pd ph pw false) as [[]|e]; [|reflexivity].
    destruct (deref weight) as [w|e]; [|reflexivity].
    destruct (view_weight_2d w) as [w2d|e]; [|reflexivity].
    cbv zeta.
    match goal with
    | |- context [for_each ?l (forward_batch_body ?a1 ?a2 ?a3 ?a4 ?a5 ?a6
                    ?a7 ?a8 ?a9 ?a10 ?a11 ?a12 ?a13 ?a14 ?a15 ?a16 ?a17
                    ?a18 ?a19 ?a20) ?s] =>
        destruct (forward_loop_frame a1 a2 a3 a4 a5 a6 a7 a8 a9 a10 a11 a12
                    a13 a14 a15 a16 a17 a18 a19 a20 l s) as (_ & _ & Hfg)
    end.
    rewrite Hfg. reflexivity.
  - intros Hself Hweight Hfits Hok.
    destruct run as [r b'] eqn:Hrun. simpl in Hok. subst r.
    destruct weight as [w|].
    + destruct (forward_out_ok_spec self w bias kd kh kw sd sh sw pd ph pw
                  b b' Hself (Hweight w eq_refl) Hfits Hrun)
        as (w2d & Hview & _ & Ho & Hf & _).
      exists w, w2d. simpl. auto.
    + exfalso. subst run. rewrite forward_out_run in Hrun.
      destruct (slow_conv3d_shape_check self None None bias kd kh kw
                  sd sh sw pd ph pw false) as [[]|e]; discriminate.
Qed.

(** C10. A valid call of Forward on an empty batch succeeds: output becomes
    an empty tensor of sizes (0, out_channels, od, oh, ow), finput one of
    sizes (0, in_channels*kd*kh*kw, od*oh*ow), fgrad_input is unchanged and
    no batch item is processed. *)
Theorem forward_empty_batch (self w : Tensor R) (bias : option (Tensor R))
    (kd kh kw sd sh sw pd ph pw : Z) (b : Fwd.buffers R) :
  wf_sizes self -> wf_sizes w ->
  forward_fits self kd kh kw sd sh sw pd ph pw ->
  size self 0 = 0 ->
  slow_conv3d_shape_check self None (Some w) bias kd kh kw sd sh sw
    pd ph pw false = Ok tt ->
  let od := conv_output_size (size self 2) pd kd sd in
  let oh := conv_output_size (size self 3) ph kh sh in
  let ow := conv_output_size (size self 4) pw kw sw in
  range (size self 0) = [] /\
  slow_conv3d_forward_out_cpu self (Some w) [kd; kh; kw] bias [sd; sh; sw]
    [pd; ph; pw] b
  = (Ok tt,
     Fwd.mk (mkTensor [0; size w 0; od; oh; ow] [])
            (mkTensor [0; size self 1 * kd * kh * kw; od * oh * ow] [])
            (Fwd.fgrad_input b)).
Proof.
  intros Hself Hw Hfits HN Hcheck od oh ow.
  split; [rewrite HN; reflexivity|].
  rewrite forward_out_run, Hcheck. cbn [deref].
  destruct (shape_check_geometry _ _ _ _ _ _ _ _ _ _ _ _ _ _ Hself Hw Hcheck)
    as ((Hkd & Hkh & Hkw) & (Hsd & Hsh & Hsw) & H5 & (HC & HD & HH & HW)
        & (Hxd & Hxh & Hxw) & HO).
  assert (Hwt : numel w > 0 /\ (dim w = 2 \/ dim w = 5)).
  { revert Hcheck. shape_check_steps. intros (_ & _ & (Hwt & _) & _).
    apply andb_true_iff in Hwt as [Hn Hd].
    apply orb_true_iff in Hd. rewrite !Z.eqb_eq in Hd.
    apply Z.gtb_lt in Hn. split; [lia|exact Hd]. }
  destruct (view_weight_2d_ok w Hw (proj1 Hwt) (proj2 Hwt)) as (w2d & Hview).
  rewrite Hview. rewrite (view_weight_2d_size0 _ _ Hview).
  destruct Hfits as ((Fkd & Fkh & Fkw & Fsd & Fsh & Fsw & Fpd & Fph & Fpw)
                     & FK & FL).
  destruct (output_size_agree (size self 2) pd kd sd) as (Hod & _ & Hod1);
    try assumption; [apply wf_sizes_nth; assumption|].
  destruct (output_size_agree (size self 3) ph kh sh) as (Hoh & _ & Hoh1);
    try assumption; [apply wf_sizes_nth; assumption|].
  destruct (output_size_agree (size self 4) pw kw sw) as (How & _ & How1);
    try assumption; [apply wf_sizes_nth; assumption|].
  cbv zeta. rewrite Hod, Hoh, How. fold od oh ow.
  rewrite (in_int64_prod4 (size self 1) kd kh kw) by (try assumption; lia).
  rewrite (in_int64_prod3 od oh ow (proj1 Hod1) (proj1 Hoh1) (proj1 How1) FL).
  rewrite HN. reflexivity.
Qed.

(** ** The result of the forward kernel, element by element *)

Lemma bias_at_vector (b : Tensor R) (i : Z) :
  dim b = 1 -> 0 <= i -> bias_at b i = nth (Z.to_nat i) (data b) rzero.
Proof.
  intros Hd Hi. unfold bias_at, item, block, block_len, dim in *.
  destruct (sizes b) as [|n [|x l]]; simpl in Hd; try lia.
  cbn [tl prod_sizes fold_right data].
  change (Z.to_nat 1) with 1%nat.
  rewrite nth_firstn, nth_skipn. cbn [Nat.ltb Nat.leb].
  f_equal. lia.
Qed.

Lemma nth_frame_output_data (weight : Tensor R) bias (columns : Tensor R)
    (O L i j : Z) :
  0 <= i < O -> 0 <= j < L ->
  nth (Z.to_nat (i * L + j)) (frame_output_data weight bias columns O L) rzero
  = match bias with
    | Some b => radd (rmul rone (bias_at b i))
                     (rmul rone (mm_entry weight columns i j))
    | None => mm_entry weight columns i j
    end.
Proof.
  intros Hi Hj. unfold frame_output_data.
  replace (Z.to_nat (i * L + j))
    with (Z.to_nat i * Z.to_nat L + Z.to_nat j)%nat by nia.
  rewrite (nth_flat_map_blocks _ (Z.to_nat L) 0).
  - rewrite nth_range by lia.
    erewrite nth_indep by (rewrite length_map, length_range; lia).
    rewrite (map_nth (fun j => _) (range L) 0).
    rewrite nth_range by lia. rewrite !Z2Nat.id by lia. reflexivity.
  - intros a _. rewrite length_map, length_range. reflexivity.
  - rewrite length_range. lia.
  - lia.
Qed.

(** C5. In the forward kernel of one batch item, the column buffer becomes
    the unfolded input and every element (i, j) of the output slice becomes
    bias[i] plus the (i, j) entry of weight times columns when a bias is
    given, and that entry alone when there is none; what the output slice
    held before does not matter. *)
Theorem update_output_frame_result (input weight : Tensor R)
    (bias : option (Tensor R))
    (kd kh kw sd sh sw pd ph pw C D H W O od oh ow : Z)
    (o f o' f' : Tensor R) :
  (forall x, rmul rone x = x) ->
  sizes o = [O; od; oh; ow] ->
  0 <= O -> 0 <= od -> 0 <= oh -> 0 <= ow ->
  length (data o) = Z.to_nat (O * (od * oh * ow)) ->
  size weight 0 = O ->
  size f 1 = od [*] oh [*] ow ->
  (forall b, bias = Some b -> dim b = 1) ->
  slow_conv3d_update_output_frame input weight bias kd kh kw sd sh sw
    pd ph pw C D H W O od oh ow (o, f) = (Ok tt, (o', f')) ->
  f' = Unfold3dCopyCPU input C D H W od oh ow kd kh kw sd sh sw pd ph pw f /\
  sizes o' = sizes o /\
  forall i j, 0 <= i < O -> 0 <= j < od * oh * ow ->
    nth (Z.to_nat (i * (od * oh * ow) + j)) (data o') rzero
    = match bias with
      | Some b => radd (nth (Z.to_nat i) (data b) rzero)
                       (mm_entry weight f' i j)
      | None => mm_entry weight f' i j
      end.
Proof.
  intros Hone Hso HO Hod Hoh How Hlen Hw0 Hf1 Hbias Hrun.
  apply update_output_frame_ok in Hrun; try assumption.
  destruct Hrun as (Hf' & Ho'). split; [exact Hf'|].
  rewrite Ho'. cbn [sizes data]. split; [reflexivity|].
  intros i j Hi Hj. rewrite nth_frame_output_data by assumption.
  destruct bias as [b|]; [|reflexivity].
  rewrite !Hone, bias_at_vector by (auto; lia). reflexivity.
Qed.

(** ** The input-gradient kernel of one batch item *)

Lemma get2_zero (t : Tensor R) (i j : Z) :
  Forall (eq rzero) (data t) -> get2 t i j = rzero.
Proof.
  intros Hz. unfold get2.
  destruct (nth_in_or_default (Z.to_nat (i * size t 1 + j)) (data t) rzero)
    as [Hin|Hd]; [|exact Hd].
  rewrite Forall_forall in Hz. symmetry. apply Hz. exact Hin.
Qed.

Lemma length_update_nth (l : list R) (n : nat) (f : R -> R) :
  length (update_nth l n f) = length l.
Proof.
  revert n. induction l as [|x l IH]; intros [|n]; simpl; auto.
Qed.

Lemma length_unfolded3d_acc_kernel_cpu (finput input : Tensor R)
    kT kH kW dT dH dW pT pH pW C D H W od oh ow :
  length (data (unfolded3d_acc_kernel_cpu finput input kT kH kW dT dH dW
                  pT pH pW C D H W od oh ow))
  = length (data input).
Proof.
  unfold unfolded3d_acc_kernel_cpu. cbn [data].
  match goal with
  | |- length (fold_left ?f ?l ?a) = _ =>
      generalize l; intros contributions; generalize a
  end.
  induction contributions as [|[to from] cs IH]; intros acc; simpl.
  - reflexivity.
  - rewrite IH. apply length_update_nth.
Qed.

(** The input-gradient kernel, when it succeeds on a zeroed scratch, gives
    the gradient columns and their fold; what the views held does not
    matter. *)
Lemma grad_input_frame_ok (go_t tweight : Tensor R)
    (kd kh kw sd sh sw pd ph pw : Z) (gi fgi gi' fgi' : Tensor R) :
  Forall (eq rzero) (data fgi) ->
  slow_conv3d_backward_update_grad_input_frame go_t tweight
    kd kh kw sd sh sw pd ph pw (gi, fgi) = (Ok tt, (gi', fgi')) ->
  fgi' = grad_columns tweight go_t (sizes fgi) /\
  gi' = grad_input_item tweight go_t (sizes gi) (sizes fgi)
          kd kh kw sd sh sw pd ph pw.
Proof.
  intros Hzero Hrun.
  unfold slow_conv3d_backward_update_grad_input_frame in Hrun.
  rewrite bind_lift in Hrun.
  destruct (reshape go_t _) as [go2d|e] eqn:Hresh; [|discriminate].
  apply reshape_ok in Hresh as (-> & _).
  rewrite bind_get, bind_lift in Hrun. cbn [fst snd] in Hrun.
  destruct (addmm_ fgi tweight _ rzero rone) as [r|e] eqn:Hadd;
    [|discriminate].
  do 2 rewrite bind_modify in Hrun. unfold modify in Hrun.
  unfold addmm_ in Hadd.
  match type of Hadd with (if ?c then _ else _) = _ => destruct c end;
    [|discriminate].
  inversion Hadd; subst r; clear Hadd.
  inversion Hrun; subst gi' fgi'; clear Hrun.
  assert (Hcols :
    grad_columns tweight go_t (sizes fgi)
    = mkTensor (sizes fgi)
        (flat_map
           (fun i =>
              map (fun j =>
                     radd (rmul rzero (get2 fgi i j))
                          (rmul rone
                             (mm_entry tweight
                                (mkTensor
                                   [size go_t 0;
                                    size go_t 1 [*] size go_t 2
                                    [*] size go_t 3] (data go_t)) i j)))
                  (range (size fgi 1)))
           (range (size fgi 0)))).
  { unfold grad_columns. f_equal.
    apply flat_map_agree. intros i _. apply map_ext. intros j.
    rewrite (get2_zero fgi i j Hzero). reflexivity. }
  split; [symmetry; exact Hcols|].
  unfold grad_input_item. rewrite Hcols. reflexivity.
Qed.

(** Whether the input-gradient kernel succeeds depends on sizes only. *)
Lemma grad_input_frame_same_sizes (go1 go2 tweight : Tensor R)
    (kd kh kw sd sh sw pd ph pw : Z) (gi1 fgi1 gi2 fgi2 : Tensor R) :
  sizes go1 = sizes go2 -> sizes fgi1 = sizes fgi2 ->
  fst (slow_conv3d_backward_update_grad_input_frame go1 tweight
         kd kh kw sd sh sw pd ph pw (gi1, fgi1))
  = fst (slow_conv3d_backward_update_grad_input_frame go2 tweight
           kd kh kw sd sh sw pd ph pw (gi2, fgi2)).
Proof.
  intros Hgo Hf. unfold slow_conv3d_backward_update_grad_input_frame.
  rewrite !bind_lift. unfold reshape, numel, size. rewrite Hgo.
  match goal with
  | |- fst (match (if ?c then _ else _) with _ => _ end) = _ => destruct c
  end; [|reflexivity].
  rewrite !bind_get, !bind_lift. cbn [fst snd].
  unfold addmm_, matrices_agree, dim, size. cbn [sizes]. rewrite Hf.
  match goal with
  | |- fst (match (if ?c then _ else _) with _ => _ end) = _ => destruct c
  end; reflexivity.
Qed.

(** ** The input-gradient pass *)

Lemma grad_input_body_run (grad_output tweight : Tensor R)
    (kd kh kw sd sh sw pd ph pw : Z) (t : Z) (gi fgi : Tensor R) :
  grad_input_batch_body grad_output tweight kd kh kw sd sh sw pd ph pw t
    (gi, fgi)
  = match select gi t with
    | Err e => (Err e, (gi, fgi))
    | Ok gi_t =>
        match select grad_output t with
        | Err e => (Err e, (gi, fgi))
        | Ok go_t =>
            match select fgi t with
            | Err e => (Err e, (gi, fgi))
            | Ok fgi_t =>
                let (r, v) :=
                  slow_conv3d_backward_update_grad_input_frame go_t tweight
                    kd kh kw sd sh sw pd ph pw (gi_t, fgi_t) in
                (r, (put_select gi t (fst v), put_select fgi t (snd v)))
            end
        end
    end.
Proof.
  unfold grad_input_batch_body. rewrite bind_get, bind_lift. cbn [fst snd].
  destruct (select gi t) as [gi_t|e]; [|reflexivity].
  rewrite bind_lift.
  destruct (select grad_output t) as [go_t|e]; [|reflexivity].
  rewrite bind_lift.
  destruct (select fgi t) as [fgi_t|e]; [|reflexivity].
  unfold on_views.
  destruct (slow_conv3d_backward_update_grad_input_frame go_t tweight
              kd kh kw sd sh sw pd ph pw (gi_t, fgi_t)) as [r [g' f']].
  reflexivity.
Qed.

Lemma Forall_skipn_zero (l : list R) (n : nat) :
  Forall (eq rzero) l -> Forall (eq rzero) (skipn n l).
Proof.
  intros H. rewrite Forall_forall in *. intros x Hx. apply H.
  rewrite <- (firstn_skipn n l). apply in_or_app. right. exact Hx.
Qed.

Lemma Forall_firstn_zero (l : list R) (n : nat) :
  Forall (eq rzero) l -> Forall (eq rzero) (firstn n l).
Proof.
  intros H. rewrite Forall_forall in *. intros x Hx. apply H.
  rewrite <- (firstn_skipn n l). apply in_or_app. left. exact Hx.
Qed.

Lemma length_grad_columns (tweight go_t : Tensor R) (K L : Z) :
  0 <= K -> 0 <= L ->
  length (data (grad_columns tweight go_t [K; L])) = Z.to_nat (K * L).
Proof.
  intros HK HL. unfold grad_columns. cbn [data nth].
  rewrite (length_flat_map_blocks _ (Z.to_nat L)).
  - rewrite length_range, to_nat_mul by lia. reflexivity.
  - intros i _. rewrite length_map, length_range. reflexivity.
Qed.

Lemma length_grad_input_item (tweight go_t : Tensor R) (sg sf : list Z)
    (kd kh kw sd sh sw pd ph pw : Z) :
  length (data (grad_input_item tweight go_t sg sf kd kh kw sd sh sw
                  pd ph pw))
  = Z.to_nat (prod_sizes sg).
Proof.
  unfold grad_input_item. rewrite length_unfolded3d_acc_kernel_cpu.
  unfold zero_, fill_, numel. cbn [data sizes]. apply repeat_length.
Qed.

Section GradInputLoop.

Variables (grad_output tweight : Tensor R).
Variables (kd kh kw sd sh sw pd ph pw : Z).
Variables (N Nf K L : Z) (sg : list Z).

Hypothesis HK : 0 <= K.
Hypothesis HL : 0 <= L.

Lemma grad_input_loop_ok :
  forall (n : nat) (k : Z) (gi fgi gi' fgi' : Tensor R)
         (pre_g rest_g pre_f rest_f : list R),
  0 <= k ->
  sizes gi = N :: sg ->
  sizes fgi = [Nf; K; L] ->
  data gi = pre_g ++ rest_g ->
  length pre_g = (Z.to_nat k * Z.to_nat (prod_sizes sg))%nat ->
  data fgi = pre_f ++ rest_f ->
  length pre_f = (Z.to_nat k * Z.to_nat (K * L))%nat ->
  Forall (eq rzero) rest_f ->
  for_each (zseq k n)
    (grad_input_batch_body grad_output tweight kd kh kw sd sh sw pd ph pw)
    (gi, fgi) = (Ok tt, (gi', fgi')) ->
  sizes gi' = N :: sg /\
  data gi'
  = pre_g ++
    flat_map (fun t => data (grad_input_item tweight (block grad_output t)
                               sg [K; L] kd kh kw sd sh sw pd ph pw))
             (zseq k n)
    ++ skipn (n * Z.to_nat (prod_sizes sg)) rest_g.
Proof.
  induction n as [|n IH];
    intros k gi fgi gi' fgi' pre_g rest_g pre_f rest_f Hk Hsg Hsf Hdg Hpg
           Hdf Hpf Hzero Hrun.
  - simpl in Hrun. inversion Hrun; subst gi' fgi'.
    simpl. rewrite Hdg. auto.
  - cbn [zseq] in Hrun. rewrite for_each_cons, grad_input_body_run in Hrun.
    destruct (select gi k) as [gi_t|] eqn:Hgi; [|discriminate].
    destruct (select grad_output k) as [go_t|] eqn:Hgo; [|discriminate].
    destruct (select fgi k) as [fgi_t|] eqn:Hfgi; [|discriminate].
    apply select_ok in Hgi as (-> & _).
    apply select_ok in Hgo as (-> & _).
    apply select_ok in Hfgi as (-> & _).
    destruct (slow_conv3d_backward_update_grad_input_frame
                (block grad_output k) tweight kd kh kw sd sh sw pd ph pw
                (block gi k, block fgi k))
      as [[[]|e] [g' f']] eqn:Hframe; [|discriminate].
    cbn [fst snd] in Hrun.
    assert (Hblg : block_len gi = Z.to_nat (prod_sizes sg)).
    { unfold block_len. rewrite Hsg. reflexivity. }
    assert (Hblf : block_len fgi = Z.to_nat (K * L)).
    { unfold block_len. rewrite Hsf. simpl. f_equal. lia. }
    apply grad_input_frame_ok in Hframe.
    + destruct Hframe as (Hf' & Hg').
      unfold block in Hf', Hg'. cbn [sizes] in Hf', Hg'.
      rewrite Hsg, Hsf in *. cbn [tl] in Hf', Hg'. subst f' g'.
      apply (IH (k + 1) _ _ _ _
               (pre_g ++ data (grad_input_item tweight (block grad_output k)
                                 sg [K; L] kd kh kw sd sh sw pd ph pw))
               (skipn (Z.to_nat (prod_sizes sg)) rest_g)
               (pre_f ++ data (grad_columns tweight (block grad_output k)
                                 [K; L]))
               (skipn (Z.to_nat (K * L)) rest_f)) in Hrun.
      * destruct Hrun as (H1 & H2). split; [exact H1|].
        rewrite H2. cbn [zseq flat_map]. rewrite <- !app_assoc, skipn_skipn.
        replace (n * Z.to_nat (prod_sizes sg) + Z.to_nat (prod_sizes sg))%nat
          with (S n * Z.to_nat (prod_sizes sg))%nat by lia.
        reflexivity.
      * lia.
      * cbn [put_select sizes]. exact Hsg.
      * cbn [put_select sizes]. exact Hsf.
      * cbn [put_select data]. rewrite Hblg, Hdg.
        rewrite (put_block_app _ _ _ _ _ Hpg), <- app_assoc. reflexivity.
      * rewrite length_app, length_grad_input_item, Hpg.
        replace (Z.to_nat (k + 1)) with (Z.to_nat k + 1)%nat by lia. lia.
      * cbn [put_select data]. rewrite Hblf, Hdf.
        rewrite (put_block_app _ _ _ _ _ Hpf), <- app_assoc. reflexivity.
      * rewrite length_app, length_grad_columns, Hpf by assumption.
        replace (Z.to_nat (k + 1)) with (Z.to_nat k + 1)%nat by lia. lia.
      * apply Forall_skipn_zero. exact Hzero.
    + unfold block. cbn [data]. rewrite Hblf, Hdf.
      rewrite (take_block_app _ _ _ _ Hpf).
      apply Forall_firstn_zero. exact Hzero.
Qed.

End GradInputLoop.

(** ** Sub-batches of one item *)

Lemma size_batch_item (x : Tensor R) (t i : Z) :
  1 <= i -> size (batch_item x t) i = size x i.
Proof.
  intros Hi. unfold size, batch_item. cbn [sizes].
  replace (Z.to_nat i) with (S (Z.to_nat (i - 1))) by lia.
  destruct (sizes x) as [|n l]; [|reflexivity].
  simpl. destruct (Z.to_nat (i - 1)); reflexivity.
Qed.

Lemma size0_batch_item (x : Tensor R) (t : Z) : size (batch_item x t) 0 = 1.
Proof. reflexivity. Qed.

Lemma dim_batch_item (x : Tensor R) (t : Z) :
  1 <= dim x -> dim (batch_item x t) = dim x.
Proof.
  unfold dim, batch_item. cbn [sizes].
  destruct (sizes x) as [|n l]; simpl; lia.
Qed.

Lemma block_len_batch_item (x : Tensor R) (t : Z) :
  block_len (batch_item x t) = block_len x.
Proof. reflexivity. Qed.

Lemma block_batch_item (x : Tensor R) (t : Z) :
  block (batch_item x t) 0 = block x t.
Proof.
  unfold block. rewrite block_len_batch_item.
  unfold batch_item, block. cbn [sizes data tl].
  change (Z.to_nat 0 * block_len x)%nat with 0%nat. cbn [skipn].
  rewrite firstn_firstn, Nat.min_id. reflexivity.
Qed.

Lemma numel_batch_item (x : Tensor R) (t : Z) :
  numel (batch_item x t) = prod_sizes (tl (sizes x)).
Proof.
  unfold numel, batch_item. cbn [sizes prod_sizes fold_right].
  fold (prod_sizes (tl (sizes x))). lia.
Qed.

Lemma numel_split (x : Tensor R) :
  1 <= dim x -> numel x = size x 0 * prod_sizes (tl (sizes x)).
Proof.
  unfold dim, numel, size. destruct (sizes x) as [|n l]; simpl; [lia|].
  reflexivity.
Qed.

Lemma wf_sizes_tl (x : Tensor R) :
  wf_sizes x -> Forall (fun s => 0 <= s <= int64_max) (tl (sizes x)).
Proof.
  intros [H _]. destruct (sizes x) as [|n l]; simpl; [constructor|].
  inversion H; assumption.
Qed.

Lemma wf_sizes_batch_item (x : Tensor R) (t : Z) :
  wf_sizes x -> 1 <= dim x -> 1 <= size x 0 -> wf_sizes (batch_item x t).
Proof.
  intros Hwf Hd Hn. split.
  - unfold batch_item. cbn [sizes]. constructor.
    + unfold int64_max. lia.
    + apply wf_sizes_tl. exact Hwf.
  - rewrite numel_batch_item.
    pose proof (prod_sizes_nonneg _ (wf_sizes_tl _ Hwf)) as Hp.
    destruct Hwf as [_ Hmax]. rewrite (numel_split x Hd) in Hmax. nia.
Qed.

Ltac rewrite_batch_item_sizes x t :=
  rewrite ?(size_batch_item x t 1), ?(size_batch_item x t 2),
    ?(size_batch_item x t 3), ?(size_batch_item x t 4) by lia.

(** The validation passes for an item of a batch it passes for. *)
Lemma shape_check_batch_item (self : Tensor R) (go w b : option (Tensor R))
    (kd kh kw sd sh sw pd ph pw : Z) (wo : bool) (t : Z) :
  wf_sizes self -> 1 <= size self 0 ->
  slow_conv3d_shape_check self go w b kd kh kw sd sh sw pd ph pw wo
  = Ok tt ->
  slow_conv3d_shape_check (batch_item self t)
    (option_map (fun g => batch_item g t) go) w b
    kd kh kw sd sh sw pd ph pw wo = Ok tt.
Proof.
  intros Hwf HN. shape_check_steps.
  intros (Hk & Hs & Hw & Hin & Hex & Hout & Hpl & Hgo).
  assert (H5 : dim self = 5).
  { apply andb_true_iff in Hin as [_ H]. apply Z.eqb_eq. exact H. }
  assert (Hd : dim (batch_item self t) = 5)
    by (rewrite dim_batch_item; lia).
  rewrite_batch_item_sizes self t. rewrite Hd, size0_batch_item.
  rewrite H5 in *.
  repeat split; try assumption.
  - rewrite andb_true_r.
    rewrite andb_true_r in Hin. apply orb_true_iff in Hin as [Hin|Hin].
    + apply orb_true_iff. left. apply Z.gtb_lt. apply Z.gtb_lt in Hin.
      rewrite numel_batch_item. rewrite numel_split in Hin by lia.
      pose proof (prod_sizes_nonneg _ (wf_sizes_tl _ Hwf)). nia.
    + rewrite !andb_true_iff in Hin.
      destruct Hin as (((((_ & H0) & _) & _) & _) & _).
      apply Z.eqb_eq in H0. lia.
  - destruct w as [w|]; [|exact Hpl].
    revert Hpl. unfold check_dim_size. rewrite Hd, H5.
    rewrite_batch_item_sizes self t. intuition auto.
  - destruct go as [g|]; [|exact Hgo]. cbn [option_map].
    revert Hgo. rewrite ?then_ok, ?check_then_ok, ?check_dim_size_ok.
    intros (Hc & Hz & Hy & Hx).
    assert (Hg5 : dim g = 5) by tauto.
    assert (Hgd : dim (batch_item g t) = 5)
      by (rewrite dim_batch_item; lia).
    rewrite_batch_item_sizes g t. rewrite Hgd.
    repeat split; try tauto.
    destruct w as [w|].
    + revert Hc. rewrite !check_dim_size_ok, Hgd.
      rewrite_batch_item_sizes g t. intuition auto.
    + destruct b as [b0|]; [|exact Hc].
      revert Hc. rewrite !check_then_ok, !check_dim_size_ok, Hgd.
      rewrite_batch_item_sizes g t. intuition auto.
Qed.

(** ** Forward on one item of the batch *)

Lemma select_block (x : Tensor R) (i : Z) :
  1 <= dim x /\ 0 <= i < size x 0 -> select x i = Ok (block x i).
Proof.
  intros (Hd & Hi0 & Hi1). unfold select.
  destruct (Z.leb_spec 1 (dim x)); destruct (Z.leb_spec 0 i);
    destruct (Z.ltb_spec i (size x 0)); try lia. reflexivity.
Qed.

Lemma forward_first_frame_ok (input w2d : Tensor R) bias
    (kd kh kw sd sh sw pd ph pw C D H W O od oh ow : Z) (n : nat)
    (b b' : Fwd.buffers R) :
  for_each (zseq 0 (S n))
    (forward_batch_body input w2d bias kd kh kw sd sh sw pd ph pw
       C D H W O od oh ow) b = (Ok tt, b') ->
  fst (slow_conv3d_update_output_frame (block input 0) w2d bias
         kd kh kw sd sh sw pd ph pw C D H W O od oh ow
         (block (Fwd.output b) 0, block (Fwd.finput b) 0)) = Ok tt.
Proof.
  cbn [zseq]. rewrite for_each_cons.
  pose proof (forward_body_run input w2d bias kd kh kw sd sh sw pd ph pw
                C D H W O od oh ow 0 b) as Hbody.
  cbv zeta in Hbody. rewrite Hbody. clear Hbody.
  destruct (select input 0) as [x|] eqn:Hx; [|discriminate].
  destruct (select (Fwd.output b) 0) as [y|] eqn:Hy; [|discriminate].
  destruct (select (Fwd.finput b) 0) as [z|] eqn:Hz; [|discriminate].
  apply select_ok in Hx as (-> & _). apply select_ok in Hy as (-> & _).
  apply select_ok in Hz as (-> & _).
  destruct (slow_conv3d_update_output_frame (block input 0) w2d bias
              kd kh kw sd sh sw pd ph pw C D H W O od oh ow
              (block (Fwd.output b) 0, block (Fwd.finput b) 0))
    as [[[]|e] v]; [reflexivity|discriminate].
Qed.

Lemma forward_fits_batch_item (self : Tensor R)
    (kd kh kw sd sh sw pd ph pw : Z) (t : Z) :
  forward_fits self kd kh kw sd sh sw pd ph pw ->
  forward_fits (batch_item self t) kd kh kw sd sh sw pd ph pw.
Proof.
  unfold forward_fits, extents_fit. rewrite_batch_item_sizes self t. auto.
Qed.

Lemma forward_columns_batch_item (self : Tensor R)
    (kd kh kw sd sh sw pd ph pw : Z) (t : Z) :
  forward_columns (batch_item self t) kd kh kw sd sh sw pd ph pw 0
  = forward_columns self kd kh kw sd sh sw pd ph pw t.
Proof.
  unfold forward_columns. rewrite_batch_item_sizes self t.
  rewrite block_batch_item. reflexivity.
Qed.

(** Forward succeeds on every item of a batch it succeeds on. *)
Lemma forward_batch_item_ok (self w : Tensor R) (bias : option (Tensor R))
    (kd kh kw sd sh sw pd ph pw : Z) (b b' b0 : Fwd.buffers R) (t : Z) :
  wf_sizes self -> 0 <= t < size self 0 ->
  slow_conv3d_forward_out_cpu self (Some w) [kd; kh; kw] bias [sd; sh; sw]
    [pd; ph; pw] b = (Ok tt, b') ->
  fst (slow_conv3d_forward_out_cpu (batch_item self t) (Some w) [kd; kh; kw]
         bias [sd; sh; sw] [pd; ph; pw] b0) = Ok tt.
Proof.
  intros Hself Ht. rewrite !forward_out_run.
  destruct (slow_conv3d_shape_check self None (Some w) bias kd kh kw
              sd sh sw pd ph pw false) as [[]|e] eqn:Hcheck; [|discriminate].
  pose proof (shape_check_batch_item self None (Some w) bias kd kh kw
                sd sh sw pd ph pw false t Hself ltac:(lia) Hcheck) as Hitem.
  cbn [option_map] in Hitem. rewrite Hitem. cbn [deref].
  destruct (view_weight_2d w) as [w2d|e]; [|discriminate].
  cbv zeta. rewrite_batch_item_sizes self t. rewrite size0_batch_item.
  intros Hrun. unfold range in Hrun.
  replace (Z.to_nat (size self 0)) with (S (Z.to_nat (size self 0 - 1)))
    in Hrun by lia.
  apply forward_first_frame_ok in Hrun.
  change (range 1) with [0]. rewrite for_each_cons.
  match goal with
  | |- fst (match forward_batch_body ?a1 ?a2 ?a3 ?a4 ?a5 ?a6 ?a7 ?a8 ?a9
                    ?a10 ?a11 ?a12 ?a13 ?a14 ?a15 ?a16 ?a17 ?a18 ?a19 ?a20
                    ?t0 ?s with _ => _ end) = _ =>
      pose proof (forward_body_run a1 a2 a3 a4 a5 a6 a7 a8 a9 a10 a11 a12
                    a13 a14 a15 a16 a17 a18 a19 a20 t0 s) as Hbody
  end.
  cbv zeta in Hbody. rewrite Hbody. clear Hbody.
  cbn [Fwd.output Fwd.finput].
  rewrite (select_block (batch_item self t) 0)
    by (unfold dim, size, batch_item; cbn [sizes length nth Z.to_nat]; lia).
  rewrite (select_block (resize_ (Fwd.output b0) _) 0)
    by (unfold dim, size, resize_; cbn [sizes length nth Z.to_nat]; lia).
  rewrite (select_block (resize_ (Fwd.finput b0) _) 0)
    by (unfold dim, size, resize_; cbn [sizes length nth Z.to_nat]; lia).
  rewrite block_batch_item.
  match goal with
  | |- context [slow_conv3d_update_output_frame ?i w2d bias kd kh kw
                  sd sh sw pd ph pw ?C ?D ?H ?W ?O ?od ?oh ?ow (?o, ?f)] =>
      assert (Hok : fst (slow_conv3d_update_output_frame i w2d bias kd kh kw
                           sd sh sw pd ph pw C D H W O od oh ow (o, f))
                    = Ok tt);
      [ rewrite <- Hrun; apply update_output_frame_same_sizes; reflexivity
      | destruct (slow_conv3d_update_output_frame i w2d bias kd kh kw
                    sd sh sw pd ph pw C D H W O od oh ow (o, f)) as [r v] ]
  end.
  cbn [fst] in Hok. subst r. reflexivity.
Qed.

(** ** The input-gradient pass as a whole *)

(** The pass is the validation, the weight reshaper, the resizes, the
    transposition and the loop over the batch. *)
Lemma backward_template_run (go input : Tensor R) (weight : option (Tensor R))
    (finput : Tensor R) (kd kh kw sd sh sw pd ph pw : Z)
    (gi fgi : Tensor R) :
  slow_conv3d_backward_out_cpu_template go input weight finput
    [kd; kh; kw] [sd; sh; sw] [pd; ph; pw] (gi, fgi)
  = match slow_conv3d_shape_check input (Some go) weight None
            kd kh kw sd sh sw pd ph pw false with
    | Err e => (Err e, (gi, fgi))
    | Ok _ =>
        match deref weight with
        | Err e => (Err e, (gi, fgi))
        | Ok weight_ =>
            match view_weight_2d weight_ with
            | Err e => (Err e, (gi, fgi))
            | Ok weight2d =>
                let s := (resize_as_ gi input,
                          zero_ (resize_as_ fgi finput)) in
                match transpose_0_1 weight2d with
                | Err e => (Err e, s)
                | Ok tweight2d =>
                    for_each (range (size input 0))
                      (grad_input_batch_body go tweight2d
                         kd kh kw sd sh sw pd ph pw) s
                end
            end
        end
    end.
Proof.
  unfold slow_conv3d_backward_out_cpu_template. cbn [nth]. cbv zeta.
  rewrite bind_lift.
  destruct (slow_conv3d_shape_check input (Some go) weight None
              kd kh kw sd sh sw pd ph pw false) as [[]|e]; [|reflexivity].
  rewrite bind_lift. destruct (deref weight) as [weight_|e]; [|reflexivity].
  rewrite bind_lift.
  destruct (view_weight_2d weight_) as [weight2d|e]; [|reflexivity].
  do 3 rewrite bind_modify. rewrite bind_lift.
  destruct (transpose_0_1 weight2d) as [tweight2d|e]; [|reflexivity].
  rewrite parallel_for_range. unfold grad_input_batch_body. reflexivity.
Qed.

Lemma sizes_rank3 (t : Tensor R) :
  dim t = 3 -> exists n k l, sizes t = [n; k; l].
Proof.
  unfold dim. destruct t as [sz dt]; simpl.
  destruct sz as [|n [|k [|l [|x sz]]]]; simpl; try lia.
  intros _. now exists n, k, l.
Qed.

Lemma Forall_repeat_zero (n : nat) : Forall (eq rzero) (repeat rzero n).
Proof. induction n; simpl; constructor; auto. Qed.

(** The input gradient the pass is specified to produce: item by item, the
    fold of transposed weight times output gradient. *)
Lemma backward_template_ok_spec (go input w finput : Tensor R)
    (kd kh kw sd sh sw pd ph pw : Z) (gi fgi gi' fgi' : Tensor R) :
  wf_sizes input -> wf_sizes finput -> dim finput = 3 ->
  slow_conv3d_backward_out_cpu_template go input (Some w) finput
    [kd; kh; kw] [sd; sh; sw] [pd; ph; pw] (gi, fgi) = (Ok tt, (gi', fgi')) ->
  exists w2d tw,
    view_weight_2d w = Ok w2d /\ transpose_0_1 w2d = Ok tw /\
    slow_conv3d_shape_check input (Some go) (Some w) None
      kd kh kw sd sh sw pd ph pw false = Ok tt /\
    gi' = mkTensor (sizes input)
            (flat_map
               (fun t =>
                  data (grad_input_item tw (block go t) (tl (sizes input))
                          (tl (sizes finput)) kd kh kw sd sh sw pd ph pw))
               (range (size input 0))).
Proof.
  intros Hin Hfin Hf3 Hrun. rewrite backward_template_run in Hrun.
  destruct (slow_conv3d_shape_check input (Some go) (Some w) None
              kd kh kw sd sh sw pd ph pw false) as [[]|e] eqn:Hcheck;
    [|discriminate].
  cbn [deref] in Hrun.
  destruct (view_weight_2d w) as [w2d|e] eqn:Hview; [|discriminate].
  cbv zeta in Hrun.
  destruct (transpose_0_1 w2d) as [tw|e] eqn:Htw; [|discriminate].
  exists w2d, tw. split; [reflexivity|]. split; [exact Htw|].
  split; [reflexivity|].
  assert (H5 : dim input = 5).
  { revert Hcheck. shape_check_steps. intros (_ & _ & _ & H & _).
    apply andb_true_iff in H as [_ H]. apply Z.eqb_eq. exact H. }
  destruct (sizes_rank5 _ H5) as (n & c & d & h & x & Hsi).
  destruct (sizes_rank3 _ Hf3) as (nf & K & L & Hsf).
  assert (HN : 0 <= n <= int64_max).
  { pose proof (wf_sizes_nth input 0 Hin) as H0. unfold size in H0.
    rewrite Hsi in H0. exact H0. }
  assert (HK : 0 <= K <= int64_max).
  { pose proof (wf_sizes_nth finput 1 Hfin) as H0. unfold size in H0.
    rewrite Hsf in H0. exact H0. }
  assert (HL : 0 <= L <= int64_max).
  { pose proof (wf_sizes_nth finput 2 Hfin) as H0. unfold size in H0.
    rewrite Hsf in H0. exact H0. }
  pose proof (prod_sizes_nonneg _ (wf_sizes_tl _ Hin)) as Hp.
  rewrite Hsi in Hp. cbn [tl] in Hp.
  unfold range in Hrun. unfold size in Hrun at 1. rewrite Hsi in Hrun.
  cbn [nth Z.to_nat] in Hrun.
  eapply (grad_input_loop_ok go tw kd kh kw sd sh sw pd ph pw n nf K L
            [c; d; h; x]) with (pre_g := []) (pre_f := []) in Hrun;
    try reflexivity; try lia.
  - destruct Hrun as (Hs & Hd). rewrite skipn_all2 in Hd.
    + destruct gi' as [sg dg]. cbn [sizes data] in Hs, Hd. subst sg dg.
      rewrite Hsi, Hsf. cbn [tl app]. rewrite app_nil_r.
      unfold size, range. rewrite Hsi. reflexivity.
    + cbn [fst resize_as_ resize_ data]. rewrite length_resize, Hsi.
      change (prod_sizes [n; c; d; h; x]) with (n * prod_sizes [c; d; h; x]).
      rewrite to_nat_mul by lia. lia.
  - cbn [fst resize_as_ resize_ sizes]. exact Hsi.
  - cbn [snd zero_ fill_ resize_as_ resize_ sizes]. exact Hsf.
  - cbn [snd zero_ fill_ data]. apply Forall_repeat_zero.
Qed.

Lemma grad_input_first_frame_ok (go tw : Tensor R)
    (kd kh kw sd sh sw pd ph pw : Z) (n : nat)
    (gi fgi : Tensor R) (s' : Tensor R * Tensor R) :
  for_each (zseq 0 (S n))
    (grad_input_batch_body go tw kd kh kw sd sh sw pd ph pw) (gi, fgi)
  = (Ok tt, s') ->
  fst (slow_conv3d_backward_update_grad_input_frame (block go 0) tw
         kd kh kw sd sh sw pd ph pw (block gi 0, block fgi 0)) = Ok tt.
Proof.
  cbn [zseq]. rewrite for_each_cons, grad_input_body_run.
  destruct (select gi 0) as [x|] eqn:Hx; [|discriminate].
  destruct (select go 0) as [y|] eqn:Hy; [|discriminate].
  destruct (select fgi 0) as [z|] eqn:Hz; [|discriminate].
  apply select_ok in Hx as (-> & _). apply select_ok in Hy as (-> & _).
  apply select_ok in Hz as (-> & _).
  destruct (slow_conv3d_backward_update_grad_input_frame (block go 0) tw
              kd kh kw sd sh sw pd ph pw (block gi 0, block fgi 0))
    as [[[]|e] v]; [reflexivity|discriminate].
Qed.

(** The input-gradient pass succeeds on every item of a batch it succeeds
    on. *)
Lemma backward_template_batch_item_ok (go input w finput : Tensor R)
    (kd kh kw sd sh sw pd ph pw : Z) (gi fgi g0 f0 : Tensor R)
    (s' : Tensor R * Tensor R) (t : Z) :
  wf_sizes input -> 0 <= t < size input 0 ->
  slow_conv3d_backward_out_cpu_template go input (Some w) finput
    [kd; kh; kw] [sd; sh; sw] [pd; ph; pw] (gi, fgi) = (Ok tt, s') ->
  fst (slow_conv3d_backward_out_cpu_template (batch_item go t)
         (batch_item input t) (Some w) (batch_item finput t)
         [kd; kh; kw] [sd; sh; sw] [pd; ph; pw] (g0, f0)) = Ok tt.
Proof.
  intros Hin Ht. rewrite !backward_template_run.
  destruct (slow_conv3d_shape_check input (Some go) (Some w) None
              kd kh kw sd sh sw pd ph pw false) as [[]|e] eqn:Hcheck;
    [|discriminate].
  pose proof (shape_check_batch_item input (Some go) (Some w) None kd kh kw
                sd sh sw pd ph pw false t Hin ltac:(lia) Hcheck) as Hitem.
  cbn [option_map] in Hitem. rewrite Hitem. cbn [deref].
  destruct (view_weight_2d w) as [w2d|e]; [|discriminate].
  cbv zeta. destruct (transpose_0_1 w2d) as [tw|e]; [|discriminate].
  rewrite size0_batch_item.
  intros Hrun. unfold range in Hrun.
  replace (Z.to_nat (size input 0)) with (S (Z.to_nat (size input 0 - 1)))
    in Hrun by lia.
  apply grad_input_first_frame_ok in Hrun.
  change (range 1) with [0]. rewrite for_each_cons, grad_input_body_run.
  rewrite (select_block (resize_as_ g0 (batch_item input t)) 0)
    by (unfold dim, size, resize_as_, resize_, batch_item;
        cbn [sizes length nth Z.to_nat]; lia).
  rewrite (select_block (batch_item go t) 0)
    by (unfold dim, size, batch_item; cbn [sizes length nth Z.to_nat]; lia).
  rewrite (select_block (zero_ (resize_as_ f0 (batch_item finput t))) 0)
    by (unfold dim, size, zero_, fill_, resize_as_, resize_, batch_item;
        cbn [sizes length nth Z.to_nat]; lia).
  match goal with
  | |- context [slow_conv3d_backward_update_grad_input_frame ?g tw
                  kd kh kw sd sh sw pd ph pw (?o, ?f)] =>
      assert (Hok : fst (slow_conv3d_backward_update_grad_input_frame g tw
                           kd kh kw sd sh sw pd ph pw (o, f)) = Ok tt);
      [ rewrite <- Hrun; apply grad_input_frame_same_sizes; reflexivity
      | destruct (slow_conv3d_backward_update_grad_input_frame g tw
                    kd kh kw sd sh sw pd ph pw (o, f)) as [r v] ]
  end.
  cbn [fst] in Hok. subst r. reflexivity.
Qed.

(** C7. Batch independence.  When Forward succeeds on a batch it succeeds on
    every one-item sub-batch, and its output and column buffer are the
    concatenation, in batch order, of those of the sub-batches; the same
    holds for the input gradient of the input-gradient pass, run on the
    matching items of grad_output, input and finput. *)
Theorem batch_independence (self w : Tensor R) (bias : option (Tensor R))
    (kd kh kw sd sh sw pd ph pw : Z) :
  (forall (b b' : Fwd.buffers R) (b0 : Z -> Fwd.buffers R),
     wf_sizes self -> wf_sizes w ->
     forward_fits self kd kh kw sd sh sw pd ph pw ->
     slow_conv3d_forward_out_cpu self (Some w) [kd; kh; kw] bias
       [sd; sh; sw] [pd; ph; pw] b = (Ok tt, b') ->
     let item := fun t =>
       slow_conv3d_forward_out_cpu (batch_item self t) (Some w) [kd; kh; kw]
         bias [sd; sh; sw] [pd; ph; pw] (b0 t) in
     (forall t, 0 <= t < size self 0 -> fst (item t) = Ok tt) /\
     data (Fwd.output b')
     = flat_map (fun t => data (Fwd.output (snd (item t))))
                (range (size self 0)) /\
     data (Fwd.finput b')
     = flat_map (fun t => data (Fwd.finput (snd (item t))))
                (range (size self 0))) /\
  (forall (grad_output finput gi fgi gi' fgi' : Tensor R)
          (s0 : Z -> Tensor R * Tensor R),
     wf_sizes self -> wf_sizes finput -> dim finput = 3 ->
     size finput 0 = size self 0 ->
     slow_conv3d_backward_out_cpu_template grad_output self (Some w) finput
       [kd; kh; kw] [sd; sh; sw] [pd; ph; pw] (gi, fgi)
     = (Ok tt, (gi', fgi')) ->
     let item := fun t =>
       slow_conv3d_backward_out_cpu_template (batch_item grad_output t)
         (batch_item self t) (Some w) (batch_item finput t)
         [kd; kh; kw] [sd; sh; sw] [pd; ph; pw] (s0 t) in
     (forall t, 0 <= t < size self 0 -> fst (item t) = Ok tt) /\
     data gi'
     = flat_map (fun t => data (fst (snd (item t))))
                (range (size self 0))).
Proof.
  split.
  - intros b b' b0 Hself Hw Hfits Hrun item.
    assert (Hitem : forall t, 0 <= t < size self 0 -> fst (item t) = Ok tt).
    { intros t Ht. unfold item.
      eapply forward_batch_item_ok; eassumption. }
    split; [exact Hitem|].
    destruct (forward_out_ok_spec _ _ _ _ _ _ _ _ _ _ _ _ _ _ Hself Hw Hfits
                Hrun) as (w2d & Hview & Hcheck & Ho & Hf & _).
    destruct (shape_check_geometry _ _ _ _ _ _ _ _ _ _ _ _ _ _ Hself Hw
                Hcheck) as (_ & _ & H5 & _).
    assert (Hspec : forall t, 0 <= t < size self 0 ->
      Fwd.output (snd (item t))
      = forward_output_spec (batch_item self t) w2d bias kd kh kw sd sh sw
          pd ph pw /\
      Fwd.finput (snd (item t))
      = forward_finput_spec (batch_item self t) kd kh kw sd sh sw pd ph pw).
    { intros t Ht. specialize (Hitem t Ht).
      destruct (item t) as [r bt] eqn:Hrun_t. cbn [fst snd] in *. subst r.
      unfold item in Hrun_t.
      apply forward_out_ok_spec in Hrun_t;
        [ | apply wf_sizes_batch_item; (assumption || lia)
          | exact Hw | apply forward_fits_batch_item; exact Hfits ].
      destruct Hrun_t as (w2d' & Hview' & _ & Ho' & Hf' & _).
      rewrite Hview in Hview'. inversion Hview'; subst w2d'. auto. }
    rewrite Ho, Hf. unfold forward_output_spec, forward_finput_spec.
    cbn [data]. split.
    + apply flat_map_agree. intros t Ht. apply in_range in Ht.
      rewrite (proj1 (Hspec t Ht)). unfold forward_output_spec.
      rewrite_batch_item_sizes self t. rewrite size0_batch_item.
      change (range 1) with [0]. cbn [data flat_map]. rewrite app_nil_r.
      rewrite forward_columns_batch_item. reflexivity.
    + apply flat_map_agree. intros t Ht. apply in_range in Ht.
      rewrite (proj2 (Hspec t Ht)). unfold forward_finput_spec.
      rewrite_batch_item_sizes self t. rewrite size0_batch_item.
      change (range 1) with [0]. cbn [data flat_map]. rewrite app_nil_r.
      rewrite forward_columns_batch_item. reflexivity.
  - intros go finput gi fgi gi' fgi' s0 Hself Hfin Hf3 HNf Hrun item.
    assert (Hitem : forall t, 0 <= t < size self 0 -> fst (item t) = Ok tt).
    { intros t Ht. unfold item. destruct (s0 t) as [g0 f0].
      eapply backward_template_batch_item_ok; eassumption. }
    split; [exact Hitem|].
    destruct (backward_template_ok_spec _ _ _ _ _ _ _ _ _ _ _ _ _ _ _ _ _
                Hself Hfin Hf3 Hrun) as (w2d & tw & Hview & Htw & Hcheck & Hg).
    assert (H5 : dim self = 5).
    { revert Hcheck. shape_check_steps. intros (_ & _ & _ & H & _).
      apply andb_true_iff in H as [_ H]. apply Z.eqb_eq. exact H. }
    rewrite Hg. cbn [data].
    apply flat_map_agree. intros t Ht. apply in_range in Ht.
    specialize (Hitem t Ht).
    destruct (item t) as [r [gt ft]] eqn:Hrun_t. cbn [fst snd] in *. subst r.
    unfold item in Hrun_t. destruct (s0 t) as [g0 f0].
    apply backward_template_ok_spec in Hrun_t;
      [ | apply wf_sizes_batch_item; (assumption || lia)
        | apply wf_sizes_batch_item; (assumption || lia)
        | rewrite dim_batch_item; lia ].
    destruct Hrun_t as (w2d' & tw' & Hview' & Htw' & _ & Hgt).
    rewrite Hview in Hview'. inversion Hview'; subst w2d'.
    rewrite Htw in Htw'. inversion Htw'; subst tw'.
    rewrite Hgt, size0_batch_item. change (range 1) with [0].
    cbn [data flat_map]. rewrite app_nil_r, block_batch_item. reflexivity.
Qed.

(** ** Validation failures and the buffers *)

Lemma backward_parameters_template_rejects (input go finput : Tensor R)
    (kd kh kw sd sh sw pd ph pw : Z) (gw gb : option (Tensor R)) (e : error) :
  slow_conv3d_shape_check input (Some go) gw gb kd kh kw sd sh sw
    pd ph pw true = Err e ->
  slow_conv3d_backward_parameters_out_cpu_template input go finput
    [kd; kh; kw] [sd; sh; sw] [pd; ph; pw] (gw, gb) = (Err e, (gw, gb)).
Proof.
  intros Hcheck. unfold slow_conv3d_backward_parameters_out_cpu_template.
  cbn [nth]. cbv zeta. rewrite bind_get, bind_lift. cbn [fst snd].
  rewrite Hcheck. reflexivity.
Qed.

(** C2 (as the code has it). A failure of the shape validation is raised
    before any buffer is resized or written in Forward, and in Backward when
    grad_input is requested: every buffer is left as it was.  When grad_input
    is not requested, Backward first resizes and zero-fills the requested
    grad_weight and grad_bias and validates afterwards: on that error path
    these two hold zeros of the new sizes, and fgrad_input is unchanged. *)
Theorem validation_failure_and_buffers (self go finput : Tensor R)
    (weight bias : option (Tensor R)) (kd kh kw sd sh sw pd ph pw : Z)
    (e : error) :
  (forall b : Fwd.buffers R,
     slow_conv3d_shape_check self None weight bias kd kh kw sd sh sw
       pd ph pw false = Err e ->
     slow_conv3d_forward_out_cpu self weight [kd; kh; kw] bias [sd; sh; sw]
       [pd; ph; pw] b = (Err e, b)) /\
  (forall (b : Bwd.buffers R) (gi : Tensor R),
     Bwd.grad_input b = Some gi ->
     slow_conv3d_shape_check self (Some go) weight None kd kh kw sd sh sw
       pd ph pw false = Err e ->
     slow_conv3d_backward_out_cpu go self weight [kd; kh; kw] [sd; sh; sw]
       [pd; ph; pw] finput b = (Err e, b)) /\
  (forall (b : Bwd.buffers R) (w : Tensor R),
     Bwd.grad_input b = None ->
     weight = Some w ->
     Bwd.grad_bias b = None \/ 2 <= dim go ->
     defined (Bwd.grad_weight b) || defined (Bwd.grad_bias b) = true ->
     let grad_weight' :=
       option_map (fun gw => zero_ (resize_ gw (sizes w)))
                  (Bwd.grad_weight b) in
     let grad_bias' :=
       option_map (fun gb => zero_ (resize_ gb [size go 1]))
                  (Bwd.grad_bias b) in
     slow_conv3d_shape_check self (Some go) grad_weight' grad_bias'
       kd kh kw sd sh sw pd ph pw true = Err e ->
     slow_conv3d_backward_out_cpu go self weight [kd; kh; kw] [sd; sh; sw]
       [pd; ph; pw] finput b
     = (Err e, Bwd.mk None grad_weight' grad_bias' (Bwd.fgrad_input b))).
Proof.
  split; [|split].
  - intros b Hcheck. rewrite forward_out_run, Hcheck. reflexivity.
  - intros b gi Hgi Hcheck. unfold slow_conv3d_backward_out_cpu.
    rewrite bind_get, Hgi. unfold bind at 1. unfold on_views.
    rewrite backward_template_run, Hcheck.
    destruct b as [g gw gb fg]. cbn in Hgi. subst g. reflexivity.
  - intros b w Hgi Hw Hgo Hdef gw' gb' Hcheck.
    unfold slow_conv3d_backward_out_cpu.
    rewrite bind_get, Hgi. rewrite Hw. 
    destruct b as [g gw gb fg]. cbn in Hgi, Hgo, Hdef, gw', gb', Hcheck |- *.
    subst g.
    assert (Hsz : gb = None \/ size_checked go 1 = Ok (size go 1)).
    { destruct Hgo as [Hgo|Hgo]; [left; exact Hgo|right].
      unfold size_checked.
      destruct (Z.ltb_spec 1 (dim go)); [reflexivity|lia]. }
    destruct gw as [gw|]; destruct gb as [gb|]; cbn in Hdef;
      try discriminate.
    + destruct Hsz as [Hsz|Hsz]; [discriminate|].
      unfold bind, ret, get, lift, modify. cbn. rewrite Hsz. cbn.
      unfold on_views.
      rewrite (backward_parameters_template_rejects _ _ _ _ _ _ _ _ _ _ _ _
                 _ _ _ Hcheck). reflexivity.
    + unfold bind, ret, get, lift, modify. cbn.
      unfold on_views.
      rewrite (backward_parameters_template_rejects _ _ _ _ _ _ _ _ _ _ _ _
                 _ _ _ Hcheck). reflexivity.
    + destruct Hsz as [Hsz|Hsz]; [discriminate|].
      unfold bind, ret, get, lift, modify. cbn. rewrite Hsz. cbn.
      unfold on_views.
      rewrite (backward_parameters_template_rejects _ _ _ _ _ _ _ _ _ _ _ _
                 _ _ _ Hcheck). reflexivity.
Qed.

(** ** More on the shape validation *)

Lemma check_then_err (c : bool) (m : message) (k : result unit) :
  c = false -> (TORCH_CHECK c m ;; k)%res = Err (InvalidArgument m).
Proof. intros ->. reflexivity. Qed.

Lemma check_then_pass (c : bool) (m : message) (k : result unit) :
  c = true -> (TORCH_CHECK c m ;; k)%res = k.
Proof. intros ->. reflexivity. Qed.

(** X1. A kernel extent that is not positive is reported first, whatever the
    other arguments are; with a positive kernel, a stride that is not
    positive is reported next. *)
Theorem shape_check_nonpositive_kernel_or_stride (input : Tensor R)
    (go w b : option (Tensor R)) (kd kh kw sd sh sw pd ph pw : Z)
    (wo : bool) :
  (kd <= 0 \/ kh <= 0 \/ kw <= 0 ->
   slow_conv3d_shape_check input go w b kd kh kw sd sh sw pd ph pw wo
   = Err (InvalidArgument kernel_size_not_positive)) /\
  (kd > 0 /\ kh > 0 /\ kw > 0 -> sd <= 0 \/ sh <= 0 \/ sw <= 0 ->
   slow_conv3d_shape_check input go w b kd kh kw sd sh sw pd ph pw wo
   = Err (InvalidArgument stride_not_positive)).
Proof.
  split.
  - intros Hk. unfold slow_conv3d_shape_check. apply check_then_err.
    rewrite !andb_false_iff, !Z.gtb_ltb, !Z.ltb_ge. tauto.
  - intros Hk Hs. unfold slow_conv3d_shape_check.
    rewrite check_then_pass
      by (rewrite !andb_true_iff, !Z.gtb_ltb, !Z.ltb_lt; lia).
    apply check_then_err.
    rewrite !andb_false_iff, !Z.gtb_ltb, !Z.ltb_ge. tauto.
Qed.

(** X2. With positive kernel and stride, the next error is about the weight:
    an undefined weight that is not optional, a weight that is empty or
    neither rank 2 nor rank 5, then a bias that is not a vector of
    weight.size(0) elements. *)
Theorem shape_check_malformed_weight (input : Tensor R)
    (go w b : option (Tensor R)) (kd kh kw sd sh sw pd ph pw : Z)
    (wo : bool) :
  kd > 0 /\ kh > 0 /\ kw > 0 -> sd > 0 /\ sh > 0 /\ sw > 0 ->
  let run :=
    slow_conv3d_shape_check input go w b kd kh kw sd sh sw pd ph pw wo in
  (w = None -> wo = false ->
   run = Err (InvalidArgument weight_undefined)) /\
  (forall w0, w = Some w0 ->
     numel w0 <= 0 \/ (dim w0 <> 2 /\ dim w0 <> 5) ->
     run = Err (InvalidArgument weight_not_nonempty_2D_or_5D)) /\
  (forall w0 b0, w = Some w0 -> b = Some b0 ->
     numel w0 > 0 -> dim w0 = 2 \/ dim w0 = 5 ->
     dim b0 <> 1 \/ size b0 0 <> size w0 0 ->
     run = Err (InvalidArgument dim_or_size_unexpected)) /\
  (run = Ok tt -> weight_checks_pass w b wo).
Proof.
  intros Hk Hs run.
  assert (Hpre : forall k : result unit,
    (TORCH_CHECK ((kw >? 0) && (kh >? 0) && (kd >? 0))
       kernel_size_not_positive ;;
     TORCH_CHECK ((sw >? 0) && (sh >? 0) && (sd >? 0))
       stride_not_positive ;; k)%res = k).
  { intros k. rewrite !check_then_pass; [reflexivity| |];
      rewrite !andb_true_iff, !Z.gtb_ltb, !Z.ltb_lt; lia. }
  subst run. unfold slow_conv3d_shape_check. rewrite Hpre.
  repeat split.
  - intros -> ->. reflexivity.
  - intros w0 -> Hbad. cbn [bind_result].
    rewrite (check_then_err _ _ _); [reflexivity|].
    rewrite andb_false_iff, orb_false_iff, Z.gtb_ltb, Z.ltb_ge, !Z.eqb_neq.
    tauto.
  - intros w0 b0 -> -> Hnum Hdim Hbad.
    rewrite (check_then_pass _ _ _)
      by (rewrite andb_true_iff, orb_true_iff, Z.gtb_ltb, Z.ltb_lt,
            !Z.eqb_eq; split; [lia|exact Hdim]).
    unfold check_dim_size. apply check_then_err.
    rewrite andb_false_iff, !Z.eqb_neq. exact Hbad.
  - rewrite then_ok. intros [Hw _]. unfold weight_checks_pass.
    destruct w as [w0|].
    + apply check_then_ok in Hw as [Hc Hb].
      rewrite andb_true_iff, orb_true_iff, Z.gtb_ltb, Z.ltb_lt, !Z.eqb_eq
        in Hc.
      split; [lia|]. split; [tauto|].
      destruct b as [b0|]; [|exact I].
      apply check_dim_size_ok in Hb. exact Hb.
    + apply TORCH_CHECK_ok in Hw. exact Hw.
Qed.

(** X3. When the earlier checks pass, a kernel larger than the padded input on
    some axis is reported as such; this includes a 3x3x3 input with a 5x5x5
    kernel and no padding. *)
Theorem shape_check_kernel_larger_than_padded_input (input : Tensor R)
    (go w b : option (Tensor R)) (kd kh kw sd sh sw pd ph pw : Z)
    (wo : bool) :
  wf_sizes input ->
  kd > 0 /\ kh > 0 /\ kw > 0 -> sd > 0 /\ sh > 0 /\ sw > 0 ->
  weight_checks_pass w b wo ->
  input_shape_accepted input = true ->
  padded_extent_fits (size input 2) pd ->
  padded_extent_fits (size input 3) ph ->
  padded_extent_fits (size input 4) pw ->
  size input 2 + 2 * pd < kd \/ size input 3 + 2 * ph < kh \/
  size input 4 + 2 * pw < kw ->
  slow_conv3d_shape_check input go w b kd kh kw sd sh sw pd ph pw wo
  = Err (InvalidArgument kernel_larger_than_padded_input).
Proof.
  intros Hwf Hk Hs Hw Hacc [Fd1 Fd2] [Fh1 Fh2] [Fw1 Fw2] Hlarge.
  unfold slow_conv3d_shape_check.
  rewrite !check_then_pass
    by (rewrite !andb_true_iff, !Z.gtb_ltb, !Z.ltb_lt; lia).
  assert (Hwpass :
    match w with
    | Some w0 =>
        (TORCH_CHECK ((numel w0 >? 0) && ((dim w0 =? 2) || (dim w0 =? 5)))
           weight_not_nonempty_2D_or_5D ;;
         match b with
         | Some b0 => check_dim_size b0 1 0 (size w0 0)
         | None => Ok tt
         end)%res
    | None => TORCH_CHECK wo weight_undefined
    end = Ok tt).
  { unfold weight_checks_pass in Hw. destruct w as [w0|].
    - destruct Hw as (Hn & Hd & Hb). apply check_then_ok. split.
      + rewrite andb_true_iff, orb_true_iff, Z.gtb_ltb, Z.ltb_lt, !Z.eqb_eq.
        split; [lia|exact Hd].
      + destruct b as [b0|]; [|reflexivity].
        apply check_dim_size_ok. exact Hb.
    - apply TORCH_CHECK_ok. exact Hw. }
  rewrite Hwpass. cbn [bind_result]. cbv zeta.
  rewrite (input_check_accepted _ Hwf), Hacc. cbn [TORCH_CHECK bind_result].
  apply check_then_err.
  unfold add64, mul64.
  rewrite !(wrap64_id (2 * _)) by assumption.
  rewrite !wrap64_id by assumption.
  rewrite !andb_false_iff, !Z.geb_leb, !Z.leb_gt. tauto.
Qed.

(** X4. The validation never looks at the leading (batch) size of
    grad_output: a grad_output of another batch size gives the same
    outcome. *)
Theorem shape_check_ignores_grad_output_batch (input go : Tensor R)
    (w b : option (Tensor R)) (kd kh kw sd sh sw pd ph pw : Z) (wo : bool)
    (n : Z) :
  1 <= dim go ->
  slow_conv3d_shape_check input (Some (with_leading_size go n)) w b
    kd kh kw sd sh sw pd ph pw wo
  = slow_conv3d_shape_check input (Some go) w b
      kd kh kw sd sh sw pd ph pw wo.
Proof.
  intros Hd. unfold slow_conv3d_shape_check, check_dim_size.
  assert (Hdim : dim (with_leading_size go n) = dim go).
  { unfold dim, with_leading_size in *. cbn [sizes].
    destruct (sizes go); simpl in *; lia. }
  assert (Hsize : forall i, 1 <= i ->
            size (with_leading_size go n) i = size go i).
  { intros i Hi. unfold size, with_leading_size. cbn [sizes].
    replace (Z.to_nat i) with (S (Z.to_nat (i - 1))) by lia.
    unfold dim in Hd. destruct (sizes go); simpl in *; [lia|reflexivity]. }
  rewrite Hdim, (Hsize 1), (Hsize 2), (Hsize 3), (Hsize 4) by lia.
  reflexivity.
Qed.

(** ** More on the weight reshaper *)

(** X5. A weight the validation accepts becomes a matrix with the same leading
    size, the same number of elements and the same elements; reshaping that
    matrix again changes nothing. *)
Theorem view_weight_2d_matrix (w : Tensor R) :
  wf_sizes w -> numel w > 0 -> dim w = 2 \/ dim w = 5 ->
  exists w2d,
    view_weight_2d w = Ok w2d /\
    dim w2d = 2 /\ size w2d 0 = size w 0 /\
    size w2d 0 * size w2d 1 = numel w /\
    data w2d = data w /\
    view_weight_2d w2d = Ok w2d.
Proof.
  intros Hwf Hnum Hdim.
  destruct (view_weight_2d_ok w Hwf Hnum Hdim) as (w2d & Hview).
  exists w2d. split; [exact Hview|].
  unfold view_weight_2d, view in *.
  destruct (Z.eqb_spec (dim w) 5) as [H5|H5].
  - apply reshape_ok in Hview as (-> & Hprod).
    cbn [prod_sizes fold_right] in Hprod.
    assert (Hd2 : dim (mkTensor [size w 0;
                                 size w 1 [*] size w 2 [*] size w 3
                                 [*] size w 4] (data w)) = 2)
      by reflexivity.
    rewrite Hd2. cbn [Z.eqb Pos.eqb].
    repeat split; try reflexivity.
    change (size w 0 * (size w 1 [*] size w 2 [*] size w 3 [*] size w 4)
            = numel w). lia.
  - inversion Hview; subst w2d.
    assert (H2 : dim w = 2) by tauto.
    destruct (Z.eqb_spec (dim w) 5); [lia|].
    repeat split; try reflexivity; try assumption.
    unfold numel, size, dim in *.
    destruct (sizes w) as [|a [|b0 [|c l]]]; simpl in *; try lia.
Qed.

(** ** Forward and the buffers it is given *)

Lemma forward_loop_same_sizes (input w2d : Tensor R) bias
    (kd kh kw sd sh sw pd ph pw C D H W O od oh ow : Z) (l : list Z) :
  forall b1 b2 : Fwd.buffers R,
  sizes (Fwd.output b1) = sizes (Fwd.output b2) ->
  sizes (Fwd.finput b1) = sizes (Fwd.finput b2) ->
  fst (for_each l
         (forward_batch_body input w2d bias kd kh kw sd sh sw pd ph pw
            C D H W O od oh ow) b1)
  = fst (for_each l
           (forward_batch_body input w2d bias kd kh kw sd sh sw pd ph pw
              C D H W O od oh ow) b2).
Proof.
  induction l as [|t l IH]; intros b1 b2 Ho Hf; [reflexivity|].
  rewrite !for_each_cons.
  pose proof (forward_body_run input w2d bias kd kh kw sd sh sw pd ph pw
                C D H W O od oh ow t) as Hbody.
  cbv zeta in Hbody. rewrite !Hbody. clear Hbody.
  destruct (select input t) as [input_t|e]; [|reflexivity].
  destruct (select_same_sizes _ _ t Ho) as [[-> ->]|(e & -> & ->)];
    [|reflexivity].
  destruct (select_same_sizes _ _ t Hf) as [[-> ->]|(e & -> & ->)];
    [|reflexivity].
  assert (Hst :
    fst (slow_conv3d_update_output_frame input_t w2d bias kd kh kw
           sd sh sw pd ph pw C D H W O od oh ow
           (block (Fwd.output b1) t, block (Fwd.finput b1) t))
    = fst (slow_conv3d_update_output_frame input_t w2d bias kd kh kw
             sd sh sw pd ph pw C D H W O od oh ow
             (block (Fwd.output b2) t, block (Fwd.finput b2) t))).
  { apply update_output_frame_same_sizes; unfold block; cbn [sizes];
      congruence. }
  destruct (slow_conv3d_update_output_frame input_t w2d bias kd kh kw
              sd sh sw pd ph pw C D H W O od oh ow
              (block (Fwd.output b1) t, block (Fwd.finput b1) t))
    as [r1 v1].
  destruct (slow_conv3d_update_output_frame input_t w2d bias kd kh kw
              sd sh sw pd ph pw C D H W O od oh ow
              (block (Fwd.output b2) t, block (Fwd.finput b2) t))
    as [r2 v2].
  cbn [fst] in Hst. subst r2.
  destruct r1 as [[]|e]; [|reflexivity].
  apply IH; cbn [Fwd.output Fwd.finput put_select sizes]; assumption.
Qed.

(** The status of Forward does not depend on the buffers it is given:
    output and finput are resized before anything reads them, and no size
    ever depends on their former contents. *)
Lemma forward_status_same (self : Tensor R)
    (weight bias : option (Tensor R)) (kd kh kw sd sh sw pd ph pw : Z)
    (b1 b2 : Fwd.buffers R) :
  fst (slow_conv3d_forward_out_cpu self weight [kd; kh; kw] bias
         [sd; sh; sw] [pd; ph; pw] b1)
  = fst (slow_conv3d_forward_out_cpu self weight [kd; kh; kw] bias
           [sd; sh; sw] [pd; ph; pw] b2).
Proof.
  rewrite !forward_out_run.
  destruct (slow_conv3d_shape_check self None weight bias kd kh kw sd sh sw
              pd ph pw false) as [[]|e]; [|reflexivity].
  destruct (deref weight) as [weight_|e]; [|reflexivity].
  destruct (view_weight_2d weight_) as [weight_2d|e]; [|reflexivity].
  cbv zeta. apply forward_loop_same_sizes; reflexivity.
Qed.

(** X9. On success [slow_conv3d_out] leaves in the caller's [output] the tensor
    [slow_conv3d] returns, whatever [output] was; on failure both report
    the same error. *)
Theorem slow_conv3d_out_agrees_with_slow_conv3d (output self w : Tensor R)
    (bias : option (Tensor R)) (kd kh kw sd sh sw pd ph pw : Z) :
  wf_sizes self -> wf_sizes w ->
  forward_fits self kd kh kw sd sh sw pd ph pw ->
  match slow_conv3d self (Some w) [kd; kh; kw] bias [sd; sh; sw]
          [pd; ph; pw] with
  | Ok t =>
      slow_conv3d_out output self (Some w) [kd; kh; kw] bias [sd; sh; sw]
        [pd; ph; pw] = (Ok tt, t)
  | Err e =>
      fst (slow_conv3d_out output self (Some w) [kd; kh; kw] bias
             [sd; sh; sw] [pd; ph; pw]) = Err e
  end.
Proof.
  intros Hself Hw Hfits.
  unfold slow_conv3d, slow_conv3d_out, slow_conv3d_forward_cpu.
  pose proof (forward_status_same self (Some w) bias kd kh kw sd sh sw
                pd ph pw (Fwd.mk empty0 empty0 empty0)
                (Fwd.mk output empty0 empty0)) as Hst.
  destruct (slow_conv3d_forward_out_cpu self (Some w) [kd; kh; kw] bias
              [sd; sh; sw] [pd; ph; pw] (Fwd.mk empty0 empty0 empty0))
    as [r1 b1] eqn:E1.
  destruct (slow_conv3d_forward_out_cpu self (Some w) [kd; kh; kw] bias
              [sd; sh; sw] [pd; ph; pw] (Fwd.mk output empty0 empty0))
    as [r2 b2] eqn:E2.
  cbn [fst] in Hst. subst r2.
  destruct r1 as [[]|e]; [|reflexivity].
  destruct (forward_out_ok_spec _ _ _ _ _ _ _ _ _ _ _ _ _ _ Hself Hw Hfits E1)
    as (w2d & Hv & _ & Ho1 & _).
  destruct (forward_out_ok_spec _ _ _ _ _ _ _ _ _ _ _ _ _ _ Hself Hw Hfits E2)
    as (w2d' & Hv' & _ & Ho2 & _).
  rewrite Hv in Hv'. injection Hv' as <-.
  rewrite Ho1, Ho2. reflexivity.
Qed.

(** ** What the matrix product of a frame requires *)

Lemma update_output_frame_ok_agree (input weight : Tensor R)
    (bias : option (Tensor R))
    kd kh kw sd sh sw pd ph pw C D H W O od oh ow (o f : Tensor R) :
  fst (slow_conv3d_update_output_frame input weight bias kd kh kw sd sh sw
         pd ph pw C D H W O od oh ow (o, f)) = Ok tt ->
  dim weight = 2 /\ size weight 1 = nth 0 (sizes f) 0.
Proof.
  unfold slow_conv3d_update_output_frame.
  rewrite !bind_modify, !bind_get, !bind_lift. cbn [fst snd].
  destruct (reshape o [O; od [*] oh [*] ow]) as [o2d|e]; [|discriminate].
  assert (Hagree : forall f' : Tensor R, sizes f' = sizes f ->
            matrices_agree weight f' = true ->
            dim weight = 2 /\ size weight 1 = nth 0 (sizes f) 0).
  { intros f' Hf' Hm. unfold matrices_agree in Hm.
    apply andb_true_iff in Hm as (Hm & Hs).
    apply andb_true_iff in Hm as (Hm & _).
    apply Z.eqb_eq in Hm, Hs. split; [assumption|].
    rewrite Hs. unfold size. rewrite Hf'. reflexivity. }
  destruct bias as [b|].
  - unfold for_range. rewrite !bind_for_each.
    pose proof (fill_loop_same_sizes b (zseq 0 (Z.to_nat (O - 0)))
      o (Unfold3dCopyCPU input C D H W od oh ow kd kh kw sd sh sw
           pd ph pw f)
      o (Unfold3dCopyCPU input C D H W od oh ow kd kh kw sd sh sw
           pd ph pw f) eq_refl) as Hloop.
    cbv zeta in Hloop. destruct Hloop as (_ & _ & _ & Hf1 & _).
    match goal with
    | |- fst (match ?a with _ => _ end) = _ -> _ =>
        destruct a as [[[]|e] [o' f']]
    end; [|discriminate].
    cbn [fst snd] in Hf1. subst f'.
    rewrite bind_get, bind_lift. cbn [fst snd].
    unfold addmm_.
    destruct (matrices_agree weight _) eqn:Hm;
      [|cbn [andb]; discriminate].
    intros _. eapply Hagree; [|exact Hm]. reflexivity.
  - rewrite bind_get, bind_lift. cbn [fst snd]. unfold mm_out.
    destruct (matrices_agree weight _) eqn:Hm; [|discriminate].
    intros _. eapply Hagree; [|exact Hm]. reflexivity.
Qed.

Lemma shape_check_weight (input w : Tensor R) go b
    kd kh kw sd sh sw pd ph pw wo :
  slow_conv3d_shape_check input go (Some w) b kd kh kw sd sh sw pd ph pw wo
  = Ok tt ->
  numel w > 0 /\ (dim w = 2 \/ dim w = 5).
Proof.
  shape_check_steps. intros (_ & _ & (Hwt & _) & _).
  apply andb_true_iff in Hwt as [Hn Hd].
  apply orb_true_iff in Hd. rewrite !Z.eqb_eq in Hd.
  apply Z.gtb_lt in Hn. split; [lia|exact Hd].
Qed.

Lemma weight5_inner_sizes (w : Tensor R) :
  wf_sizes w -> numel w > 0 -> dim w = 5 ->
  1 <= size w 1 /\
  size w 1 [*] size w 2 [*] size w 3 [*] size w 4
  = size w 1 * (size w 2 * size w 3 * size w 4).
Proof.
  intros [Hwf Hmax] Hnum H5.
  destruct (sizes_rank5 _ H5) as (a & b & c & d & e & Hs).
  destruct (sizes_rank5_nth _ _ _ _ _ _ Hs) as (_ & -> & -> & -> & ->).
  unfold numel in *. rewrite Hs in *.
  assert (Hpos : (prod_sizes [a; b; c; d; e] >? 0) = true)
    by (apply Z.gtb_lt; lia).
  rewrite (prod_sizes_pos _ Hwf) in Hpos. cbn [forallb] in Hpos.
  rewrite !andb_true_iff, !negb_true_iff, !Z.eqb_neq in Hpos.
  inversion Hwf as [|? ? Ha Hwf1]; subst.
  inversion Hwf1 as [|? ? Hb Hwf2]; subst.
  inversion Hwf2 as [|? ? Hc Hwf3]; subst.
  inversion Hwf3 as [|? ? Hd Hwf4]; subst.
  inversion Hwf4 as [|? ? He _]; subst.
  cbn [prod_sizes fold_right] in Hmax, Hnum.
  split; [lia|].
  rewrite in_int64_prod4; try lia.
  unfold in_int64, int64_min, int64_max in *. nia.
Qed.

(** X7. A successful Forward on a non-empty batch needs the flattened weight to
    have in_channels*kd*kh*kw columns.  For a rank-5 weight its own kernel
    extents must then multiply to the kernel volume of the call; for a
    rank-2 weight, whose channels the validation computed with the kernel
    plane only, the kernel depth must be 1. *)
Theorem forward_weight_matches_kernel_volume (self w : Tensor R)
    (bias : option (Tensor R)) (kd kh kw sd sh sw pd ph pw : Z)
    (b b' : Fwd.buffers R) :
  wf_sizes self -> wf_sizes w ->
  forward_fits self kd kh kw sd sh sw pd ph pw ->
  1 <= size self 0 ->
  slow_conv3d_forward_out_cpu self (Some w) [kd; kh; kw] bias [sd; sh; sw]
    [pd; ph; pw] b = (Ok tt, b') ->
  (dim w = 5 ->
     size w 1 = size self 1 /\
     size w 2 * size w 3 * size w 4 = kd * kh * kw) /\
  (dim w = 2 ->
     size w 1 = size self 1 * kd * kh * kw /\ kd = 1).
Proof.
  intros Hself Hw Hfits HN Hrun. rewrite forward_out_run in Hrun.
  destruct (slow_conv3d_shape_check self None (Some w) bias kd kh kw
              sd sh sw pd ph pw false) as [[]|e] eqn:Hcheck; [|discriminate].
  cbn [deref] in Hrun.
  destruct (view_weight_2d w) as [w2d|e] eqn:Hview; [|discriminate].
  destruct (shape_check_geometry _ _ _ _ _ _ _ _ _ _ _ _ _ _ Hself Hw Hcheck)
    as ((Hkd & Hkh & Hkw) & _ & _ & (HC & _) & _).
  destruct (shape_check_weight _ _ _ _ _ _ _ _ _ _ _ _ _ _ Hcheck)
    as (Hnum & _).
  pose proof (shape_check_input_planes _ _ _ _ _ _ _ _ _ _ _ _ _ _ Hcheck)
    as Hplanes.
  destruct Hfits as (_ & FK & _).
  cbv zeta in Hrun. unfold range in Hrun.
  destruct (Z.to_nat (size self 0)) as [|n] eqn:Hn; [lia|].
  apply forward_first_frame_ok in Hrun.
  apply update_output_frame_ok_agree in Hrun as (_ & Hcols).
  cbn [Fwd.finput block resize_ sizes tl nth] in Hcols.
  rewrite (in_int64_prod4 (size self 1) kd kh kw) in Hcols
    by (try assumption; lia).
  unfold view_weight_2d, view in Hview.
  split; intros Hdim; rewrite Hdim in *; cbn [Z.eqb Pos.eqb] in *.
  - apply reshape_ok in Hview as (-> & _).
    destruct (weight5_inner_sizes w Hw Hnum Hdim) as (Hw1 & Hinner).
    change (size w 1 [*] size w 2 [*] size w 3 [*] size w 4
            = size self 1 * kd * kh * kw) in Hcols.
    rewrite Hinner, <- Hplanes in Hcols.
    split; [symmetry; exact Hplanes|].
    apply (Z.mul_cancel_l _ _ (size self 1)); lia.
  - inversion Hview; subst w2d. split; [exact Hcols|].
    assert (Hplane : kh [*] kw = kh * kw).
    { apply mul64_exact. unfold in_int64, int64_min, int64_max in *. nia. }
    rewrite Hplane, Hcols in Hplanes. unfold div64 in Hplanes.
    replace (size self 1 * kd * kh * kw)
      with (size self 1 * kd * (kh * kw)) in Hplanes by ring.
    rewrite Z.quot_mul in Hplanes by nia.
    rewrite wrap64_id in Hplanes
      by (unfold in_int64, int64_min, int64_max in *; nia).
    nia.
Qed.

(** X8. [slow_conv3d_forward_cpu], which allocates its buffers, ends as Forward
    does on any buffers of the caller: same status and, on success, same
    output and same column buffer; the third tensor it returns is the empty
    tensor it allocated. *)
Theorem forward_cpu_agrees_with_forward_out (self w : Tensor R)
    (bias : option (Tensor R)) (kd kh kw sd sh sw pd ph pw : Z)
    (b : Fwd.buffers R) :
  wf_sizes self -> wf_sizes w ->
  forward_fits self kd kh kw sd sh sw pd ph pw ->
  let fresh := slow_conv3d_forward_cpu self (Some w) [kd; kh; kw] bias
                 [sd; sh; sw] [pd; ph; pw] in
  let given := slow_conv3d_forward_out_cpu self (Some w) [kd; kh; kw] bias
                 [sd; sh; sw] [pd; ph; pw] b in
  fst fresh = fst given /\
  (fst fresh = Ok tt ->
   Fwd.output (snd fresh) = Fwd.output (snd given) /\
   Fwd.finput (snd fresh) = Fwd.finput (snd given) /\
   Fwd.fgrad_input (snd fresh) = empty0).
Proof.
  intros Hself Hw Hfits fresh given. subst fresh given.
  unfold slow_conv3d_forward_cpu.
  pose proof (forward_status_same self (Some w) bias kd kh kw sd sh sw
                pd ph pw (Fwd.mk empty0 empty0 empty0) b) as Hst.
  split; [exact Hst|].
  destruct (slow_conv3d_forward_out_cpu self (Some w) [kd; kh; kw] bias
              [sd; sh; sw] [pd; ph; pw] (Fwd.mk empty0 empty0 empty0))
    as [r1 b1] eqn:E1.
  destruct (slow_conv3d_forward_out_cpu self (Some w) [kd; kh; kw] bias
              [sd; sh; sw] [pd; ph; pw] b) as [r2 b2] eqn:E2.
  cbn [fst snd] in *. subst r2. intros ->.
  destruct (forward_out_ok_spec _ _ _ _ _ _ _ _ _ _ _ _ _ _ Hself Hw Hfits E1)
    as (w2d & Hv & _ & Ho1 & Hf1 & Hg1).
  destruct (forward_out_ok_spec _ _ _ _ _ _ _ _ _ _ _ _ _ _ Hself Hw Hfits E2)
    as (w2d' & Hv' & _ & Ho2 & Hf2 & _).
  rewrite Hv in Hv'. injection Hv' as <-.
  rewrite Ho1, Ho2, Hf1, Hf2, Hg1. repeat split.
Qed.

(** ** More on the input-gradient pass *)

Lemma grad_input_loop_selects (go tw : Tensor R)
    (kd kh kw sd sh sw pd ph pw : Z) (l : list Z) :
  forall (gi fgi : Tensor R) (s' : Tensor R * Tensor R),
  for_each l (grad_input_batch_body go tw kd kh kw sd sh sw pd ph pw)
    (gi, fgi) = (Ok tt, s') ->
  forall t, In t l -> t < size go 0 /\ t < size fgi 0.
Proof.
  induction l as [|u l IH]; intros gi fgi s' Hrun t Ht; [destruct Ht|].
  rewrite for_each_cons, grad_input_body_run in Hrun.
  destruct (select gi u) as [gi_u|] eqn:Hgi; [|discriminate].
  destruct (select go u) as [go_u|] eqn:Hgo; [|discriminate].
  destruct (select fgi u) as [fgi_u|] eqn:Hfgi; [|discriminate].
  apply select_ok in Hgo as (_ & _ & Hgo).
  apply select_ok in Hfgi as (_ & _ & Hfgi).
  destruct (slow_conv3d_backward_update_grad_input_frame go_u tw
              kd kh kw sd sh sw pd ph pw (gi_u, fgi_u)) as [[[]|e] v];
    [|discriminate].
  destruct Ht as [<-|Ht]; [lia|].
  apply (IH _ _ _ Hrun t Ht).
Qed.

(** X12. The validation never looks at the batch size of grad_output or of
    finput, but a successful input-gradient pass has read item [t] of both
    for every item [t] of the input: both hold at least as many items as
    the input. *)
Theorem grad_input_pass_needs_batch_items (go input finput : Tensor R)
    (weight : option (Tensor R)) (kd kh kw sd sh sw pd ph pw : Z)
    (gi fgi : Tensor R) (s' : Tensor R * Tensor R) :
  slow_conv3d_backward_out_cpu_template go input weight finput
    [kd; kh; kw] [sd; sh; sw] [pd; ph; pw] (gi, fgi) = (Ok tt, s') ->
  forall t, 0 <= t < size input 0 ->
    t < size go 0 /\ t < size finput 0.
Proof.
  intros Hrun t Ht. rewrite backward_template_run in Hrun.
  destruct (slow_conv3d_shape_check input (Some go) weight None
              kd kh kw sd sh sw pd ph pw false) as [[]|e]; [|discriminate].
  destruct (deref weight) as [weight_|e]; [|discriminate].
  destruct (view_weight_2d weight_) as [w2d|e]; [|discriminate].
  cbv zeta in Hrun.
  destruct (transpose_0_1 w2d) as [tw|e]; [|discriminate].
  apply (grad_input_loop_selects _ _ _ _ _ _ _ _ _ _ _ _ _ _ _ Hrun t).
  apply in_range. exact Ht.
Qed.

(** X11. The input-gradient kernel of one item, run on a zeroed column scratch
    over an element type with 0*0 = 0, 0+x = x and 1*x = x: the scratch
    becomes the product of the weight matrix it is given with the output
    gradient viewed as a matrix, and grad_input becomes the fold of that
    scratch into a zeroed volume, whatever grad_input held before. *)
Theorem grad_input_frame_result (go_t tweight : Tensor R)
    (kd kh kw sd sh sw pd ph pw : Z) (gi fgi gi' fgi' : Tensor R) :
  rmul rzero rzero = rzero ->
  (forall x, radd rzero x = x) -> (forall x, rmul rone x = x) ->
  Forall (eq rzero) (data fgi) ->
  slow_conv3d_backward_update_grad_input_frame go_t tweight
    kd kh kw sd sh sw pd ph pw (gi, fgi) = (Ok tt, (gi', fgi')) ->
  let go2d :=
    mkTensor [size go_t 0; size go_t 1 [*] size go_t 2 [*] size go_t 3]
      (data go_t) in
  fgi' = mkTensor (sizes fgi)
           (flat_map
              (fun i => map (fun j => mm_entry tweight go2d i j)
                            (range (size fgi 1)))
              (range (size fgi 0))) /\
  gi' = unfolded3d_acc_kernel_cpu fgi' (zero_ (mkTensor (sizes gi) []))
          kd kh kw sd sh sw pd ph pw
          (size gi 0) (size gi 1) (size gi 2) (size gi 3)
          (size go_t 1) (size go_t 2) (size go_t 3).
Proof.
  intros H00 H0 H1 Hzero Hrun go2d.
  destruct (grad_input_frame_ok _ _ _ _ _ _ _ _ _ _ _ _ _ _ _ Hzero Hrun)
    as (Hf & Hg).
  assert (Hcols :
    grad_columns tweight go_t (sizes fgi)
    = mkTensor (sizes fgi)
        (flat_map
           (fun i => map (fun j => mm_entry tweight go2d i j)
                         (range (size fgi 1)))
           (range (size fgi 0)))).
  { unfold grad_columns. f_equal. apply flat_map_agree. intros i _.
    apply map_ext. intros j. rewrite H00, H0, H1. reflexivity. }
  split; [rewrite Hf; exact Hcols|].
  rewrite Hg, Hf. reflexivity.
Qed.

(** X13. A successful input-gradient pass leaves a grad_input with the sizes of
    the input whose item [t] is the fold of (transposed weight matrix times
    item [t] of grad_output); nothing of what grad_input and fgrad_input
    held before is in it. *)
Theorem grad_input_pass_result (go input w finput : Tensor R)
    (kd kh kw sd sh sw pd ph pw : Z) (gi fgi gi' fgi' : Tensor R) :
  wf_sizes input -> wf_sizes finput -> dim finput = 3 ->
  slow_conv3d_backward_out_cpu_template go input (Some w) finput
    [kd; kh; kw] [sd; sh; sw] [pd; ph; pw] (gi, fgi) = (Ok tt, (gi', fgi')) ->
  exists w2d tw,
    view_weight_2d w = Ok w2d /\ transpose_0_1 w2d = Ok tw /\
    sizes tw = [size w2d 1; size w2d 0] /\
    sizes gi' = sizes input /\
    data gi'
    = flat_map
        (fun t =>
           data (grad_input_item tw (block go t) (tl (sizes input))
                   (tl (sizes finput)) kd kh kw sd sh sw pd ph pw))
        (range (size input 0)).
Proof.
  intros Hin Hfin Hf3 Hrun.
  destruct (backward_template_ok_spec _ _ _ _ _ _ _ _ _ _ _ _ _ _ _ _ _
              Hin Hfin Hf3 Hrun) as (w2d & tw & Hv & Htw & _ & ->).
  exists w2d, tw. split; [exact Hv|]. split; [exact Htw|].
  split; [|split; reflexivity].
  unfold transpose_0_1 in Htw. destruct (dim w2d =? 2); [|discriminate].
  inversion Htw. reflexivity.
Qed.

(** ** The parameter-gradient kernel of one batch item *)

Lemma nth_matrix (g : Z -> Z -> R) (r c i j : Z) :
  0 <= i < r -> 0 <= j < c ->
  nth (Z.to_nat (i * c + j))
    (flat_map (fun i => map (fun j => g i j) (range c)) (range r)) rzero
  = g i j.
Proof.
  intros Hi Hj.
  replace (Z.to_nat (i * c + j))
    with (Z.to_nat i * Z.to_nat c + Z.to_nat j)%nat by nia.
  rewrite (nth_flat_map_blocks _ (Z.to_nat c) 0);
    [| intros; rewrite length_map, length_range; reflexivity
     | rewrite length_range; lia | lia].
  rewrite nth_range by lia.
  rewrite (nth_indep _ rzero (g (Z.of_nat (Z.to_nat i)) 0))
    by (rewrite length_map, length_range; lia).
  rewrite (map_nth (fun j => g (Z.of_nat (Z.to_nat i)) j)).
  rewrite nth_range by lia. rewrite !Z2Nat.id by lia. reflexivity.
Qed.

Lemma get2_transpose_0_1 (f tf : Tensor R) (k j : Z) :
  transpose_0_1 f = Ok tf -> 0 <= k < size f 1 -> 0 <= j < size f 0 ->
  get2 tf k j = get2 f j k.
Proof.
  unfold transpose_0_1. destruct (dim f =? 2); [|discriminate].
  intros Htf Hk Hj. inversion Htf; subst tf; clear Htf.
  unfold get2 at 1. cbn [data].
  change (size (mkTensor [size f 1; size f 0] _) 1) with (size f 0).
  apply (nth_matrix (fun j' i' => get2 f i' j')); assumption.
Qed.

Lemma nth_update_nth (l : list R) (f : R -> R) (d : R) :
  forall n k : nat,
  nth k (update_nth l n f) d
  = if (k =? n)%nat && (n <? length l)%nat then f (nth k l d)
    else nth k l d.
Proof.
  induction l as [|x l IH]; intros n k.
  - cbn [update_nth length]. rewrite andb_false_r. reflexivity.
  - destruct n as [|n], k as [|k]; cbn [update_nth nth]; try reflexivity.
    rewrite IH. reflexivity.
Qed.

Lemma nth_bias_fold (g : Z -> R) (n : nat) :
  forall (s : Z) (d : list R) (i : Z),
  0 <= s -> 0 <= i -> (Z.to_nat i < length d)%nat ->
  nth (Z.to_nat i)
    (fold_left (fun d i => update_nth d (Z.to_nat i)
                             (fun x => radd x (g i))) (zseq s n) d) rzero
  = if (s <=? i) && (i <? s + Z.of_nat n)
    then radd (nth (Z.to_nat i) d rzero) (g i)
    else nth (Z.to_nat i) d rzero.
Proof.
  induction n as [|n IH]; intros s d i Hs Hi Hlen.
  - cbn [zseq fold_left].
    destruct (Z.leb_spec s i); destruct (Z.ltb_spec i (s + Z.of_nat 0));
      try reflexivity; lia.
  - cbn [zseq fold_left].
    rewrite IH by (rewrite ?length_update_nth; lia).
    rewrite nth_update_nth.
    destruct (Z.leb_spec (s + 1) i); destruct (Z.leb_spec s i);
      destruct (Z.ltb_spec i (s + 1 + Z.of_nat n));
      destruct (Z.ltb_spec i (s + Z.of_nat (S n)));
      destruct (Nat.eqb_spec (Z.to_nat i) (Z.to_nat s));
      destruct (Nat.ltb_spec (Z.to_nat s) (length d));
      cbn [andb]; try reflexivity; try lia.
    replace s with i by lia. reflexivity.
Qed.

Lemma length_bias_fold (g : Z -> R) (l : list Z) :
  forall d : list R,
  length (fold_left (fun d i => update_nth d (Z.to_nat i)
                                  (fun x => radd x (g i))) l d)
  = length d.
Proof.
  induction l as [|i l IH]; intros d; cbn [fold_left]; [reflexivity|].
  rewrite IH. apply length_update_nth.
Qed.

Lemma bias_loop_run (go2d : Tensor R) (l : list Z) :
  forall (gw : option (Tensor R)) (b : Tensor R),
  for_each l
    (fun i =>
       let sum :=
         fold_left radd
           (map (fun k => get2 go2d i k) (range (size go2d 1))) rzero in
       modify (fun '(grad_weight, grad_bias) =>
         (grad_weight,
          match grad_bias with
          | Some gb =>
              Some (mkTensor (sizes gb)
                      (update_nth (data gb) (Z.to_nat i)
                         (fun x => radd x sum)))
          | None => None
          end))) (gw, Some b)
  = (Ok tt,
     (gw, Some (mkTensor (sizes b)
                  (fold_left (fun d i => update_nth d (Z.to_nat i)
                                (fun x => radd x (row_sum go2d i)))
                     l (data b))))).
Proof.
  induction l as [|i l IH]; intros gw b.
  - destruct b. reflexivity.
  - rewrite for_each_cons. cbv zeta. unfold modify at 1.
    rewrite IH. reflexivity.
Qed.

(** What the kernel of one item leaves in the parameter gradients. *)
Lemma parameters_frame_ok (go_t : Tensor R)
    (finput gw gb : option (Tensor R))
    (s' : option (Tensor R) * option (Tensor R)) :
  (forall x, rmul rone x = x) ->
  (forall b, gb = Some b -> length (data b) = Z.to_nat (size b 0)) ->
  slow_conv3d_backward_parameters_frame go_t finput (gw, gb) = (Ok tt, s') ->
  let go2d :=
    mkTensor [size go_t 0; size go_t 1 [*] size go_t 2 [*] size go_t 3]
      (data go_t) in
  match gw, fst s' with
  | Some g, Some g' =>
      exists f, finput = Some f /\ sizes g' = sizes g /\
      forall i j, 0 <= i < size g 0 -> 0 <= j < size g 1 ->
        get2 g' i j = radd (get2 g i j) (rows_dot go2d f i j)
  | None, None => True
  | _, _ => False
  end /\
  match gb, snd s' with
  | Some b, Some b' =>
      sizes b' = sizes b /\ length (data b') = length (data b) /\
      forall i, 0 <= i < size b 0 ->
        nth (Z.to_nat i) (data b') rzero
        = radd (nth (Z.to_nat i) (data b) rzero) (row_sum go2d i)
  | None, None => True
  | _, _ => False
  end.
Proof.
  intros H1 Hlen Hrun go2d.
  unfold slow_conv3d_backward_parameters_frame in Hrun.
  rewrite bind_lift in Hrun. unfold view in Hrun.
  destruct (reshape go_t _) as [g2|e] eqn:Hview; [|discriminate].
  apply reshape_ok in Hview as (-> & _). fold go2d in Hrun.
  rewrite bind_get in Hrun. cbn [fst] in Hrun.
  apply bind_ok in Hrun as ([] & [gw1 gb1] & Hw & Hb).
  assert (Hgb1 : gb1 = gb /\
    match gw, gw1 with
    | Some g, Some g' =>
        exists f, finput = Some f /\ sizes g' = sizes g /\
        forall i j, 0 <= i < size g 0 -> 0 <= j < size g 1 ->
          get2 g' i j = radd (get2 g i j) (rows_dot go2d f i j)
    | None, None => True
    | _, _ => False
    end).
  { destruct gw as [g|]; [|inversion Hw; split; [reflexivity|exact I]].
    rewrite bind_lift in Hw.
    destruct finput as [f|]; [|discriminate]. cbn [deref] in Hw.
    rewrite bind_lift in Hw.
    destruct (transpose_0_1 f) as [tf|e] eqn:Htf; [|discriminate].
    rewrite bind_lift in Hw.
    destruct (addmm_ g go2d tf rone rone) as [r|e] eqn:Hadd; [|discriminate].
    inversion Hw; subst gw1 gb1; clear Hw. split; [reflexivity|].
    exists f. split; [reflexivity|].
    unfold addmm_ in Hadd.
    destruct (matrices_agree go2d tf && (dim g =? 2) &&
              (size g 0 =? size go2d 0) && (size g 1 =? size tf 1))
      eqn:Hc; [|discriminate].
    inversion Hadd; subst r; clear Hadd. split; [reflexivity|].
    intros i j Hi Hj. unfold get2 at 1. cbn [data].
    change (size (mkTensor (sizes g) _) 1) with (size g 1).
    rewrite (nth_matrix
               (fun i j => radd (rmul rone (get2 g i j))
                                (rmul rone (mm_entry go2d tf i j))))
      by assumption.
    rewrite !H1. f_equal. unfold mm_entry, rows_dot. f_equal.
    apply map_ext_in. intros k Hk. apply in_range in Hk. f_equal.
    rewrite !andb_true_iff, !Z.eqb_eq in Hc.
    destruct Hc as (((Hm & _) & _) & Hg1).
    unfold matrices_agree in Hm. rewrite !andb_true_iff, !Z.eqb_eq in Hm.
    destruct Hm as ((_ & _) & Hinner).
    assert (Hsz : size tf 0 = size f 1 /\ size tf 1 = size f 0).
    { unfold transpose_0_1 in Htf. destruct (dim f =? 2); [|discriminate].
      inversion Htf. split; reflexivity. }
    apply (get2_transpose_0_1 _ _ _ _ Htf); lia. }
  destruct Hgb1 as (-> & Hweight).
  rewrite bind_get in Hb. cbn [snd] in Hb.
  destruct gb as [b|].
  - rewrite bind_lift in Hb.
    destruct (TORCH_CHECK (dim b =? 1) dim_or_size_unexpected)
      as [[]|e]; [|discriminate].
    unfold for_range in Hb. rewrite bias_loop_run in Hb.
    inversion Hb; subst s'; clear Hb. cbn [fst snd].
    split; [exact Hweight|]. split; [reflexivity|].
    split; [cbn [data]; apply length_bias_fold|].
    intros i Hi. cbn [data]. rewrite Z.sub_0_r.
    rewrite nth_bias_fold by (rewrite ?(Hlen b eq_refl); lia).
    destruct (Z.leb_spec 0 i); destruct (Z.ltb_spec i (0 + Z.of_nat
      (Z.to_nat (size b 0)))); cbn [andb]; try reflexivity; lia.
  - inversion Hb; subst s'; clear Hb. cbn [fst snd].
    split; [exact Hweight|exact I].
Qed.

(** X15. The parameter-gradient kernel of one batch item, over an element type
    with 1*x = x.  With [go2d] the output gradient of the item viewed as a
    matrix: a defined grad_weight gets, at (i, j), the sum over k of
    go2d[i][k] * finput[j][k] added to what it held; a defined grad_bias
    gets the sum of row i of go2d added to its element i; an undefined one
    stays undefined. *)
Theorem parameters_frame_accumulates (go_t : Tensor R)
    (finput gw gb : option (Tensor R))
    (s' : option (Tensor R) * option (Tensor R)) :
  (forall x, rmul rone x = x) ->
  (forall b, gb = Some b -> length (data b) = Z.to_nat (size b 0)) ->
  slow_conv3d_backward_parameters_frame go_t finput (gw, gb) = (Ok tt, s') ->
  let go2d :=
    mkTensor [size go_t 0; size go_t 1 [*] size go_t 2 [*] size go_t 3]
      (data go_t) in
  match gw, fst s' with
  | Some g, Some g' =>
      exists f, finput = Some f /\ sizes g' = sizes g /\
      forall i j, 0 <= i < size g 0 -> 0 <= j < size g 1 ->
        get2 g' i j = radd (get2 g i j) (rows_dot go2d f i j)
  | None, None => True
  | _, _ => False
  end /\
  match gb, snd s' with
  | Some b, Some b' =>
      sizes b' = sizes b /\
      forall i, 0 <= i < size b 0 ->
        nth (Z.to_nat i) (data b') rzero
        = radd (nth (Z.to_nat i) (data b) rzero) (row_sum go2d i)
  | None, None => True
  | _, _ => False
  end.
Proof.
  intros H1 Hlen Hrun go2d.
  destruct (parameters_frame_ok go_t finput gw gb s' H1 Hlen Hrun)
    as (Hw & Hb).
  split; [exact Hw|].
  destruct gb as [b|], (snd s') as [b'|]; try exact Hb.
  destruct Hb as (Hs & _ & Hn). split; assumption.
Qed.

(** ** Which gradients Backward returns *)

Lemma inv_bind {S A B} (P : S -> Prop) (m : M S A) (k : A -> M S B) :
  (forall s, P s -> P (snd (m s))) ->
  (forall a s, P s -> P (snd (k a s))) ->
  forall s, P s -> P (snd (bind m k s)).
Proof.
  intros Hm Hk s Hs. unfold bind. specialize (Hm s Hs).
  destruct (m s) as [[a|e] s1]; cbn [snd] in *; auto.
Qed.

Lemma inv_for_each {S} (P : S -> Prop) (body : Z -> M S unit) :
  (forall t s, P s -> P (snd (body t s))) ->
  forall l s, P s -> P (snd (for_each l body s)).
Proof.
  intros Hbody. induction l as [|t l IH]; intros s Hs; [exact Hs|].
  rewrite for_each_cons. specialize (Hbody t s Hs).
  destruct (body t s) as [[[]|e] s1]; cbn [snd] in *; auto.
Qed.

Lemma parameters_frame_defined (go_t : Tensor R)
    (finput gw gb : option (Tensor R)) :
  defined (snd (snd (slow_conv3d_backward_parameters_frame go_t finput
                       (gw, gb)))) = defined gb.
Proof.
  apply (inv_bind (fun s => defined (snd s) = defined gb));
    [intros s Hs; exact Hs| |reflexivity].
  intros go2d s0 Hs0.
  apply (inv_bind (fun s => defined (snd s) = defined gb));
    [intros s Hs; exact Hs| |exact Hs0].
  intros s1 s2 Hs2.
  apply (inv_bind (fun s => defined (snd s) = defined gb)); [| |exact Hs2].
  - intros s Hs. destruct (fst s1) as [g|]; [|exact Hs].
    apply (inv_bind (fun s => defined (snd s) = defined gb));
      [intros s3 Hs3; exact Hs3| |exact Hs].
    intros f s3 Hs3.
    apply (inv_bind (fun s => defined (snd s) = defined gb));
      [intros s4 Hs4; exact Hs4| |exact Hs3].
    intros tf s4 Hs4.
    apply (inv_bind (fun s => defined (snd s) = defined gb));
      [intros s5 Hs5; exact Hs5| |exact Hs4].
    intros r [g5 b5] Hs5. exact Hs5.
  - intros [] s3 Hs3.
    apply (inv_bind (fun s => defined (snd s) = defined gb));
      [intros s4 Hs4; exact Hs4| |exact Hs3].
    intros s4 s5 Hs5. destruct (snd s4) as [b|]; [|exact Hs5].
    apply (inv_bind (fun s => defined (snd s) = defined gb));
      [intros s6 Hs6; exact Hs6| |exact Hs5].
    intros [] s6 Hs6. unfold for_range.
    apply (inv_for_each (fun s => defined (snd s) = defined gb));
      [|exact Hs6].
    intros t [g7 [b7|]] Hs7; exact Hs7.
Qed.

Lemma parameters_template_defined (input go finput : Tensor R)
    (kernel_size stride padding : list Z) (gw gb : option (Tensor R)) :
  let s' := snd (slow_conv3d_backward_parameters_out_cpu_template input go
                   finput kernel_size stride padding (gw, gb)) in
  defined (fst s') = defined gw /\ defined (snd s') = defined gb.
Proof.
  cbv zeta. unfold slow_conv3d_backward_parameters_out_cpu_template.
  set (P := fun s : option (Tensor R) * option (Tensor R) =>
              defined (fst s) = defined gw /\ defined (snd s) = defined gb).
  match goal with
  | |- defined (fst (snd ?x)) = _ /\ _ => change (P (snd x))
  end.
  assert (HP : P (gw, gb)) by (split; reflexivity).
  revert HP. generalize (gw, gb). intros s0 HP0.
  apply (inv_bind P); [intros s Hs; exact Hs| |exact HP0].
  intros s1 s2 Hs2.
  apply (inv_bind P); [intros s Hs; exact Hs| |exact Hs2].
  intros [] s3 Hs3.
  apply (inv_bind P); [| |exact Hs3].
  - intros s Hs. destruct (fst s1) as [g|]; [|exact Hs].
    apply (inv_bind P); [intros s4 Hs4; exact Hs4| |exact Hs].
    intros w2d s4 Hs4. exact Hs4.
  - intros gw2d s4 Hs4. unfold parallel_for.
    destruct (0 <? size input 0); [|exact Hs4].
    unfold for_range. apply (inv_for_each P); [|exact Hs4].
    intros t s5 Hs5.
    apply (inv_bind P); [intros s Hs; exact Hs| |exact Hs5].
    intros go_t s6 Hs6.
    apply (inv_bind P); [| |exact Hs6].
    + intros s Hs. destruct gw2d; [|exact Hs].
      apply (inv_bind P); [intros s7 Hs7; exact Hs7| |exact Hs].
      intros f s7 Hs7. exact Hs7.
    + intros f_t [g7 b7] [Hg7 Hb7]. rewrite bind_get. unfold on_views.
      cbn [fst snd] in Hg7, Hb7 |- *.
      match goal with
      | |- context [slow_conv3d_backward_parameters_frame ?a ?b (?c, ?d)] =>
          pose proof (parameters_frame_defined a b c d) as Hfr;
          destruct (slow_conv3d_backward_parameters_frame a b (c, d))
            as [r [g' b']]
      end.
      cbn [snd] in Hfr |- *. split; cbn [fst snd].
      * destruct g' as [g'|], g7 as [g7|]; exact Hg7.
      * rewrite Hfr. exact Hb7.
Qed.

(** Backward never makes a gradient defined or undefined. *)
Lemma backward_definedness (grad_output self finput : Tensor R)
    (weight : option (Tensor R)) (kernel_size stride padding : list Z)
    (b : Bwd.buffers R) :
  let b' := snd (slow_conv3d_backward_out_cpu grad_output self weight
                   kernel_size stride padding finput b) in
  defined (Bwd.grad_input b') = defined (Bwd.grad_input b) /\
  defined (Bwd.grad_weight b') = defined (Bwd.grad_weight b) /\
  defined (Bwd.grad_bias b') = defined (Bwd.grad_bias b).
Proof.
  cbv zeta. unfold slow_conv3d_backward_out_cpu.
  set (P := fun s : Bwd.buffers R =>
              defined (Bwd.grad_input s) = defined (Bwd.grad_input b) /\
              defined (Bwd.grad_weight s) = defined (Bwd.grad_weight b) /\
              defined (Bwd.grad_bias s) = defined (Bwd.grad_bias b)).
  match goal with
  | |- defined (Bwd.grad_input (snd ?x)) = _ /\ _ => change (P (snd x))
  end.
  assert (HP : P b) by (repeat split).
  revert HP. generalize b at 1 2. intros s0 HP0.
  rewrite bind_get.
  apply (inv_bind P); [| |exact HP0].
  - intros s Hs. destruct (Bwd.grad_input s0) as [gi|] eqn:Hgi; [|exact Hs].
    unfold on_views.
    destruct (slow_conv3d_backward_out_cpu_template grad_output self weight
                finput kernel_size stride padding (gi, Bwd.fgrad_input s0))
      as [r [gi' fgi']].
    destruct Hs as (_ & Hw & Hb). destruct HP0 as (Hi0 & _).
    rewrite Hgi in Hi0. cbn [snd]. repeat split; assumption.
  - intros [] s1 Hs1. clear s0 HP0. rewrite bind_get.
    apply (inv_bind P); [| |exact Hs1].
    + intros s Hs. destruct (Bwd.grad_weight s1) as [gw|] eqn:Hgw;
        [|exact Hs].
      apply (inv_bind P); [intros s3 Hs3; exact Hs3| |exact Hs].
      intros w_ s3 (Hi3 & _ & Hb3). unfold modify. cbn [snd].
      destruct Hs1 as (_ & Hw1 & _). rewrite Hgw in Hw1.
      repeat split; assumption.
    + intros [] s2 Hs2. clear s1 Hs1. rewrite bind_get.
      apply (inv_bind P); [| |exact Hs2].
      * intros s Hs. destruct (Bwd.grad_bias s2) as [gb|] eqn:Hgb;
          [|exact Hs].
        apply (inv_bind P); [intros s3 Hs3; exact Hs3| |exact Hs].
        intros n s3 (Hi3 & Hw3 & _). unfold modify. cbn [snd].
        destruct Hs2 as (_ & _ & Hb2). rewrite Hgb in Hb2.
        repeat split; assumption.
      * intros [] s3 Hs3. clear s2 Hs2. rewrite bind_get.
        destruct (defined (Bwd.grad_weight s3) || defined (Bwd.grad_bias s3));
          [|exact Hs3].
        unfold on_views.
        pose proof (parameters_template_defined self grad_output finput
                      kernel_size stride padding (Bwd.grad_weight s3)
                      (Bwd.grad_bias s3)) as Hdef.
        cbv zeta in Hdef.
        destruct (slow_conv3d_backward_parameters_out_cpu_template self
                    grad_output finput kernel_size stride padding
                    (Bwd.grad_weight s3, Bwd.grad_bias s3))
          as [r [gw' gb']].
        cbn [fst snd] in Hdef |- *. destruct Hdef as (Hw' & Hb').
        destruct Hs3 as (Hi3 & Hw3 & Hb3).
        repeat split; cbn [Bwd.grad_input Bwd.grad_weight Bwd.grad_bias];
          congruence.
Qed.

(** X19. [slow_conv3d_backward_cpu] returns, in every outcome, exactly the
    gradients its mask requests; with nothing requested it succeeds without
    validating or reading any argument. *)
Theorem backward_cpu_returns_what_the_mask_requests
    (grad_output self finput fgrad_input : Tensor R)
    (weight : option (Tensor R)) (kernel_size stride padding : list Z)
    (mask0 mask1 mask2 : bool) :
  let run := slow_conv3d_backward_cpu grad_output self weight kernel_size
               stride padding finput fgrad_input (mask0, mask1, mask2) in
  defined (Bwd.grad_input (snd run)) = mask0 /\
  defined (Bwd.grad_weight (snd run)) = mask1 /\
  defined (Bwd.grad_bias (snd run)) = mask2 /\
  ((mask0, mask1, mask2) = (false, false, false) ->
   run = (Ok tt, Bwd.mk None None None fgrad_input)).
Proof.
  cbv zeta. unfold slow_conv3d_backward_cpu.
  pose proof (backward_definedness grad_output self finput weight
                kernel_size stride padding
                (Bwd.mk (if mask0 then Some empty0 else None)
                        (if mask1 then Some empty0 else None)
                        (if mask2 then Some empty0 else None) fgrad_input))
    as Hdef.
  cbv zeta in Hdef. cbn [Bwd.grad_input Bwd.grad_weight Bwd.grad_bias] in Hdef.
  destruct Hdef as (Hi & Hw & Hb).
  split; [rewrite Hi; destruct mask0; reflexivity|].
  split; [rewrite Hw; destruct mask1; reflexivity|].
  split; [rewrite Hb; destruct mask2; reflexivity|].
  intros Hmask. inversion Hmask; subst. reflexivity.
Qed.

(** X18. Backward never makes a gradient defined or undefined: in every outcome,
    error included, each of grad_input, grad_weight and grad_bias is defined
    afterwards exactly when it was defined before; and fgrad_input is only
    touched when grad_input is requested. *)
Theorem backward_out_keeps_what_is_requested
    (grad_output self finput : Tensor R)
    (weight : option (Tensor R)) (kernel_size stride padding : list Z)
    (b : Bwd.buffers R) :
  let b' := snd (slow_conv3d_backward_out_cpu grad_output self weight
                   kernel_size stride padding finput b) in
  defined (Bwd.grad_input b') = defined (Bwd.grad_input b) /\
  defined (Bwd.grad_weight b') = defined (Bwd.grad_weight b) /\
  defined (Bwd.grad_bias b') = defined (Bwd.grad_bias b) /\
  (Bwd.grad_input b = None -> Bwd.fgrad_input b' = Bwd.fgrad_input b).
Proof.
  cbv zeta.
  destruct (backward_definedness grad_output self finput weight kernel_size
              stride padding b) as (Hi & Hw & Hb).
  split; [exact Hi|]. split; [exact Hw|]. split; [exact Hb|].
  intros Hnone. unfold slow_conv3d_backward_out_cpu.
  set (Q := fun s : Bwd.buffers R => Bwd.fgrad_input s = Bwd.fgrad_input b).
  match goal with
  | |- Bwd.fgrad_input (snd ?x) = _ => change (Q (snd x))
  end.
  rewrite bind_get, Hnone, bind_ret, bind_get.
  apply (inv_bind Q); [| |reflexivity].
  - intros s Hs. destruct (Bwd.grad_weight b) as [gw|]; [|exact Hs].
    apply (inv_bind Q); [intros s3 Hs3; exact Hs3| |exact Hs].
    intros w_ s3 Hs3. exact Hs3.
  - intros [] s1 Hs1. rewrite bind_get.
    apply (inv_bind Q); [| |exact Hs1].
    + intros s Hs. destruct (Bwd.grad_bias s1) as [gb|]; [|exact Hs].
      apply (inv_bind Q); [intros s3 Hs3; exact Hs3| |exact Hs].
      intros n s3 Hs3. exact Hs3.
    + intros [] s2 Hs2. rewrite bind_get.
      destruct (defined (Bwd.grad_weight s2) || defined (Bwd.grad_bias s2));
        [|exact Hs2].
      unfold on_views.
      destruct (slow_conv3d_backward_parameters_out_cpu_template self
                  grad_output finput kernel_size stride padding
                  (Bwd.grad_weight s2, Bwd.grad_bias s2))
        as [r [gw' gb']].
      exact Hs2.
Qed.

(** ** The parameter-gradient pass *)









(** ** When Forward succeeds *)

Lemma shape_check_bias (input w b : Tensor R) go
    kd kh kw sd sh sw pd ph pw wo :
  slow_conv3d_shape_check input go (Some w) (Some b) kd kh kw sd sh sw
    pd ph pw wo = Ok tt ->
  dim b = 1 /\ size b 0 = size w 0.
Proof.
  shape_check_steps. intros (_ & _ & (_ & Hb) & _). exact Hb.
Qed.

Lemma view_weight_2d_dim (w w2d : Tensor R) :
  dim w = 2 \/ dim w = 5 -> view_weight_2d w = Ok w2d -> dim w2d = 2.
Proof.
  intros Hdim. unfold view_weight_2d, view.
  destruct (Z.eqb_spec (dim w) 5) as [H5|H5].
  - intros H. apply reshape_ok in H as (-> & _). reflexivity.
  - intros H. injection H as <-. lia.
Qed.

Lemma fill_loop_succeeds (b : Tensor R) (l : list Z) :
  forall (o f : Tensor R),
  1 <= dim o -> 1 <= dim b ->
  (forall i, In i l -> 0 <= i < size o 0 /\ i < size b 0) ->
  fst (for_each l
         (fun i =>
            (s <- get ;;
             output_i <- lift (select (fst s) i) ;;
             bias_i <- lift (select b i) ;;
             modify (fun '(output, finput) =>
               (put_select output i (fill_ output_i (item bias_i)),
                finput)))%st) (o, f)) = Ok tt.
Proof.
  induction l as [|t l IH]; intros o f Ho Hb Hl; [reflexivity|].
  rewrite for_each_cons, bind_get, bind_lift. cbn [fst].
  destruct (Hl t (or_introl eq_refl)) as (Ht & Htb).
  rewrite (select_block o t) by (split; assumption).
  rewrite bind_lift, (select_block b t) by (split; [assumption|lia]).
  unfold modify. apply IH; try assumption.
  intros i Hi. apply Hl. right. exact Hi.
Qed.

Lemma update_output_frame_succeeds (input weight : Tensor R)
    (bias : option (Tensor R))
    kd kh kw sd sh sw pd ph pw C D H W O od oh ow K (o f : Tensor R) :
  sizes o = [O; od; oh; ow] -> sizes f = [K; od [*] oh [*] ow] ->
  0 <= O -> od [*] oh [*] ow = od * oh * ow ->
  dim weight = 2 -> size weight 0 = O -> size weight 1 = K ->
  (forall b, bias = Some b -> dim b = 1 /\ size b 0 = O) ->
  fst (slow_conv3d_update_output_frame input weight bias kd kh kw sd sh sw
         pd ph pw C D H W O od oh ow (o, f)) = Ok tt.
Proof.
  intros Hso Hsf HO HL Hdw Hw0 Hw1 Hbias.
  unfold slow_conv3d_update_output_frame.
  rewrite !bind_modify, !bind_get, !bind_lift. cbn [fst snd].
  set (F := Unfold3dCopyCPU input C D H W od oh ow kd kh kw sd sh sw
              pd ph pw f).
  assert (HsF : sizes F = [K; od [*] oh [*] ow]) by exact Hsf.
  assert (Hagree : matrices_agree weight F = true).
  { unfold matrices_agree. rewrite Hdw, Hw1. unfold dim, size.
    rewrite HsF. cbn [length nth]. rewrite !Z.eqb_refl. reflexivity. }
  unfold reshape, numel. rewrite Hso. cbn [prod_sizes fold_right].
  replace (O * (od [*] oh [*] ow * 1) =? O * (od * (oh * (ow * 1))))
    with true by (symmetry; apply Z.eqb_eq; rewrite HL; ring).
  destruct bias as [b|].
  - destruct (Hbias b eq_refl) as (Hdb & Hb0).
    unfold for_range. rewrite bind_for_each.
    assert (Hfill : fst (for_each (zseq 0 (Z.to_nat (O - 0)))
         (fun i =>
            (s <- get ;;
             output_i <- lift (select (fst s) i) ;;
             bias_i <- lift (select b i) ;;
             modify (fun '(output, finput) =>
               (put_select output i (fill_ output_i (item bias_i)),
                finput)))%st) (o, F)) = Ok tt).
    { apply fill_loop_succeeds.
      - unfold dim. rewrite Hso. cbn [length]. lia.
      - lia.
      - intros i Hi. apply in_zseq in Hi. unfold size at 1. rewrite Hso.
        cbn [nth Z.to_nat]. lia. }
    pose proof (fill_loop_same_sizes b (zseq 0 (Z.to_nat (O - 0))) o F o F
                  eq_refl) as Hsame.
    cbv zeta in Hsame. destruct Hsame as (_ & Hs1 & _ & Hf1 & _).
    destruct (for_each (zseq 0 (Z.to_nat (O - 0))) _ (o, F))
      as [[[]|e] [o1 f1]]; [|discriminate Hfill].
    cbn [fst snd] in Hs1, Hf1. subst f1.
    rewrite bind_get, bind_lift. cbn [fst snd sizes].
    unfold addmm_. rewrite Hagree, Hw0.
    unfold dim, size. rewrite HsF. cbn [sizes length nth andb].
    rewrite !Z.eqb_refl. reflexivity.
  - rewrite bind_get, bind_lift. cbn [fst snd]. unfold mm_out.
    rewrite Hagree. reflexivity.
Qed.

Lemma forward_loop_succeeds (input w2d : Tensor R) bias
    (kd kh kw sd sh sw pd ph pw C D H W O od oh ow N K : Z) (l : list Z) :
  1 <= dim input ->
  0 <= O -> od [*] oh [*] ow = od * oh * ow ->
  dim w2d = 2 -> size w2d 0 = O -> size w2d 1 = K ->
  (forall b, bias = Some b -> dim b = 1 /\ size b 0 = O) ->
  (forall t, In t l -> 0 <= t < N /\ t < size input 0) ->
  forall b : Fwd.buffers R,
  sizes (Fwd.output b) = [N; O; od; oh; ow] ->
  sizes (Fwd.finput b) = [N; K; od [*] oh [*] ow] ->
  fst (for_each l
         (forward_batch_body input w2d bias kd kh kw sd sh sw pd ph pw
            C D H W O od oh ow) b) = Ok tt.
Proof.
  intros Hdi HO HL Hdw Hw0 Hw1 Hbias.
  induction l as [|t l IH]; intros Hl b Hso Hsf; [reflexivity|].
  rewrite for_each_cons.
  pose proof (forward_body_run input w2d bias kd kh kw sd sh sw pd ph pw
                C D H W O od oh ow t b) as Hbody.
  cbv zeta in Hbody. rewrite Hbody. clear Hbody.
  destruct (Hl t (or_introl eq_refl)) as (Ht & Hti).
  rewrite (select_block input t) by (split; [assumption|lia]).
  rewrite (select_block (Fwd.output b) t)
    by (unfold dim, size; rewrite Hso; cbn [length nth Z.to_nat]; lia).
  rewrite (select_block (Fwd.finput b) t)
    by (unfold dim, size; rewrite Hsf; cbn [length nth Z.to_nat]; lia).
  pose proof (update_output_frame_succeeds (block input t) w2d bias
                kd kh kw sd sh sw pd ph pw C D H W O od oh ow K
                (block (Fwd.output b) t) (block (Fwd.finput b) t)) as Hframe.
  unfold block in Hframe at 1 2. cbn [sizes] in Hframe.
  rewrite Hso, Hsf in Hframe.
  specialize (Hframe eq_refl eq_refl HO HL Hdw Hw0 Hw1 Hbias).
  fold (block (Fwd.output b) t) in Hframe.
  fold (block (Fwd.finput b) t) in Hframe.
  destruct (slow_conv3d_update_output_frame (block input t) w2d bias
              kd kh kw sd sh sw pd ph pw C D H W O od oh ow
              (block (Fwd.output b) t, block (Fwd.finput b) t)) as [r v].
  cbn [fst] in Hframe. subst r.
  apply IH.
  - intros u Hu. apply Hl. right. exact Hu.
  - exact Hso.
  - exact Hsf.
Qed.

(** A successful Forward on a non-empty batch has multiplied the flattened
    weight with a column matrix of in_channels*kd*kh*kw rows. *)
Lemma forward_ok_columns (self w : Tensor R) (bias : option (Tensor R))
    (kd kh kw sd sh sw pd ph pw : Z) (b b' : Fwd.buffers R) :
  wf_sizes self -> wf_sizes w ->
  forward_fits self kd kh kw sd sh sw pd ph pw ->
  1 <= size self 0 ->
  slow_conv3d_forward_out_cpu self (Some w) [kd; kh; kw] bias [sd; sh; sw]
    [pd; ph; pw] b = (Ok tt, b') ->
  exists w2d, view_weight_2d w = Ok w2d /\
              size w2d 1 = size self 1 * kd * kh * kw.
Proof.
  intros Hself Hw Hfits HN Hrun. rewrite forward_out_run in Hrun.
  destruct (slow_conv3d_shape_check self None (Some w) bias kd kh kw
              sd sh sw pd ph pw false) as [[]|e] eqn:Hcheck; [|discriminate].
  cbn [deref] in Hrun.
  destruct (view_weight_2d w) as [w2d|e] eqn:Hview; [|discriminate].
  destruct (shape_check_geometry _ _ _ _ _ _ _ _ _ _ _ _ _ _ Hself Hw Hcheck)
    as ((Hkd & Hkh & Hkw) & _ & _ & (HC & _) & _).
  destruct Hfits as (_ & FK & _).
  cbv zeta in Hrun. unfold range in Hrun.
  destruct (Z.to_nat (size self 0)) as [|n] eqn:Hn; [lia|].
  apply forward_first_frame_ok in Hrun.
  apply update_output_frame_ok_agree in Hrun as (_ & Hcols).
  cbn [Fwd.finput block resize_ sizes tl nth] in Hcols.
  rewrite (in_int64_prod4 (size self 1) kd kh kw) in Hcols
    by (try assumption; lia).
  exists w2d. split; [reflexivity|exact Hcols].
Qed.

(** X6. Forward on well-formed sizes whose products fit in 64 bits succeeds
    exactly when the validation passes and, for a non-empty batch, the
    flattened weight has in_channels*kd*kh*kw columns: past the validation
    the matrix product of a frame is the only thing that can fail. *)
Theorem forward_succeeds_iff (self w : Tensor R) (bias : option (Tensor R))
    (kd kh kw sd sh sw pd ph pw : Z) (b : Fwd.buffers R) :
  wf_sizes self -> wf_sizes w ->
  forward_fits self kd kh kw sd sh sw pd ph pw ->
  fst (slow_conv3d_forward_out_cpu self (Some w) [kd; kh; kw] bias
         [sd; sh; sw] [pd; ph; pw] b) = Ok tt
  <->
  slow_conv3d_shape_check self None (Some w) bias kd kh kw sd sh sw
    pd ph pw false = Ok tt /\
  (1 <= size self 0 ->
   exists w2d, view_weight_2d w = Ok w2d /\
               size w2d 1 = size self 1 * kd * kh * kw).
Proof.
  intros Hself Hw Hfits. split.
  - intros Hrun. split.
    + rewrite forward_out_run in Hrun.
      destruct (slow_conv3d_shape_check self None (Some w) bias kd kh kw
                  sd sh sw pd ph pw false) as [[]|e];
        [reflexivity|discriminate Hrun].
    + intros HN.
      destruct (slow_conv3d_forward_out_cpu self (Some w) [kd; kh; kw] bias
                  [sd; sh; sw] [pd; ph; pw] b) as [r b'] eqn:Hout.
      cbn [fst] in Hrun. subst r.
      exact (forward_ok_columns self w bias kd kh kw sd sh sw pd ph pw b b'
               Hself Hw Hfits HN Hout).
  - intros (Hcheck & Hcols). rewrite forward_out_run, Hcheck. cbn [deref].
    destruct (shape_check_geometry _ _ _ _ _ _ _ _ _ _ _ _ _ _ Hself Hw
                Hcheck)
      as ((Hkd & Hkh & Hkw) & (Hsd & Hsh & Hsw) & H5 & (HC & HD & HH & HW)
          & (Hxd & Hxh & Hxw) & HO).
    destruct (shape_check_weight _ _ _ _ _ _ _ _ _ _ _ _ _ _ Hcheck)
      as (Hnum & Hdim).
    destruct (view_weight_2d_ok w Hw Hnum Hdim) as (w2d & Hview).
    rewrite Hview. cbv zeta.
    destruct Hfits as ((Fkd & Fkh & Fkw & Fsd & Fsh & Fsw & Fpd & Fph & Fpw)
                       & FK & FL).
    destruct (output_size_agree (size self 2) pd kd sd) as (Hod & _ & Hod1);
      try assumption; [apply wf_sizes_nth; assumption|].
    destruct (output_size_agree (size self 3) ph kh sh) as (Hoh & _ & Hoh1);
      try assumption; [apply wf_sizes_nth; assumption|].
    destruct (output_size_agree (size self 4) pw kw sw) as (How & _ & How1);
      try assumption; [apply wf_sizes_nth; assumption|].
    rewrite Hod, Hoh, How.
    set (od := conv_output_size (size self 2) pd kd sd) in *.
    set (oh := conv_output_size (size self 3) ph kh sh) in *.
    set (ow := conv_output_size (size self 4) pw kw sw) in *.
    pose proof (in_int64_prod3 od oh ow (proj1 Hod1) (proj1 Hoh1)
                  (proj1 How1) FL) as HL.
    pose proof (in_int64_prod4 (size self 1) kd kh kw HC ltac:(lia)
                  ltac:(lia) ltac:(lia) FK) as HK.
    destruct (Z.le_gt_cases 1 (size self 0)) as [HN|HN].
    + destruct (Hcols HN) as (w2d' & Hv' & Hc). rewrite Hview in Hv'.
      injection Hv' as <-.
      apply (forward_loop_succeeds self w2d bias kd kh kw sd sh sw pd ph pw
               (size self 1) (size self 2) (size self 3) (size self 4)
               (size w2d 0) od oh ow (size self 0)
               (size self 1 [*] kd [*] kh [*] kw)).
      * lia.
      * rewrite (view_weight_2d_size0 _ _ Hview). lia.
      * exact HL.
      * exact (view_weight_2d_dim _ _ Hdim Hview).
      * reflexivity.
      * rewrite HK. exact Hc.
      * intros b0 ->.
        destruct (shape_check_bias _ _ _ _ _ _ _ _ _ _ _ _ _ _ Hcheck)
          as (Hb1 & Hb0).
        rewrite (view_weight_2d_size0 _ _ Hview). split; assumption.
      * intros t Ht. apply in_range in Ht. lia.
      * reflexivity.
      * reflexivity.
    + unfold range. replace (Z.to_nat (size self 0)) with 0%nat by lia.
      reflexivity.
Qed.

(** ** The output gradient the validation accepts *)

Lemma shape_check_with_grad_output (input go w : Tensor R) b
    kd kh kw sd sh sw pd ph pw wo :
  slow_conv3d_shape_check input (Some go) (Some w) b kd kh kw sd sh sw
    pd ph pw wo = Ok tt
  <->
  slow_conv3d_shape_check input None (Some w) b kd kh kw sd sh sw
    pd ph pw wo = Ok tt /\
  dim go = dim input /\ size go 1 = size w 0 /\
  size go 2 = validated_output_size (size input 2) pd kd sd /\
  size go 3 = validated_output_size (size input 3) ph kh sh /\
  size go 4 = validated_output_size (size input 4) pw kw sw.
Proof.
  unfold validated_output_size. shape_check_steps. tauto.
Qed.

Lemma shape_check_without_bias (input w : Tensor R) go b
    kd kh kw sd sh sw pd ph pw wo :
  slow_conv3d_shape_check input go (Some w) b kd kh kw sd sh sw pd ph pw wo
  = Ok tt ->
  slow_conv3d_shape_check input go (Some w) None kd kh kw sd sh sw
    pd ph pw wo = Ok tt.
Proof.
  shape_check_steps. destruct b; tauto.
Qed.

(** The output gradients the validation accepts beside an input and a
    weight it accepts: rank 5, with the channels of the weight and the
    computed output extents after the batch size. *)
Lemma shape_check_grad_output_iff (self w go : Tensor R)
    (kd kh kw sd sh sw pd ph pw : Z) :
  wf_sizes self -> wf_sizes w ->
  forward_fits self kd kh kw sd sh sw pd ph pw ->
  slow_conv3d_shape_check self None (Some w) None kd kh kw sd sh sw
    pd ph pw false = Ok tt ->
  slow_conv3d_shape_check self (Some go) (Some w) None kd kh kw sd sh sw
    pd ph pw false = Ok tt
  <->
  dim go = 5 /\
  tl (sizes go)
  = [size w 0; conv_output_size (size self 2) pd kd sd;
     conv_output_size (size self 3) ph kh sh;
     conv_output_size (size self 4) pw kw sw].
Proof.
  intros Hself Hw Hfits Hcheck.
  destruct (shape_check_geometry _ _ _ _ _ _ _ _ _ _ _ _ _ _ Hself Hw Hcheck)
    as ((Hkd & Hkh & Hkw) & (Hsd & Hsh & Hsw) & H5 & _
        & (Hxd & Hxh & Hxw) & _).
  destruct Hfits as ((Fkd & Fkh & Fkw & Fsd & Fsh & Fsw & Fpd & Fph & Fpw)
                     & _).
  destruct (output_size_agree (size self 2) pd kd sd) as (_ & Hod & _);
    try assumption; [apply wf_sizes_nth; assumption|].
  destruct (output_size_agree (size self 3) ph kh sh) as (_ & Hoh & _);
    try assumption; [apply wf_sizes_nth; assumption|].
  destruct (output_size_agree (size self 4) pw kw sw) as (_ & How & _);
    try assumption; [apply wf_sizes_nth; assumption|].
  rewrite shape_check_with_grad_output, Hod, Hoh, How, H5.
  split.
  - intros (_ & Hd & H1 & H2 & H3 & H4). split; [exact Hd|].
    destruct (sizes_rank5 _ Hd) as (n & c & d & h & x & Hs).
    destruct (sizes_rank5_nth _ _ _ _ _ _ Hs) as (_ & Hc & Hdd & Hh & Hx).
    rewrite Hs. cbn [tl]. congruence.
  - intros (Hd & Htl). split; [exact Hcheck|]. split; [exact Hd|].
    destruct (sizes_rank5 _ Hd) as (n & c & d & h & x & Hs).
    destruct (sizes_rank5_nth _ _ _ _ _ _ Hs) as (_ & Hc & Hdd & Hh & Hx).
    rewrite Hs in Htl. cbn [tl] in Htl.
    injection Htl as <- <- <- <-. repeat split; assumption.
Qed.

(** X10. Once Forward has succeeded, the validation of the input-gradient pass
    accepts as grad_output exactly the rank-5 tensors whose sizes after the
    batch size are those of Forward's output; the batch size of grad_output
    is free. *)
Theorem shape_check_accepts_grad_output_like_forward_output
    (self w go : Tensor R) (bias : option (Tensor R))
    (kd kh kw sd sh sw pd ph pw : Z) (b b' : Fwd.buffers R) :
  wf_sizes self -> wf_sizes w ->
  forward_fits self kd kh kw sd sh sw pd ph pw ->
  slow_conv3d_forward_out_cpu self (Some w) [kd; kh; kw] bias [sd; sh; sw]
    [pd; ph; pw] b = (Ok tt, b') ->
  slow_conv3d_shape_check self (Some go) (Some w) None kd kh kw sd sh sw
    pd ph pw false = Ok tt
  <->
  dim go = 5 /\ tl (sizes go) = tl (sizes (Fwd.output b')).
Proof.
  intros Hself Hw Hfits Hrun.
  destruct (forward_out_ok_spec _ _ _ _ _ _ _ _ _ _ _ _ _ _ Hself Hw Hfits
              Hrun) as (w2d & Hview & Hcheck & Hout & _).
  apply shape_check_without_bias in Hcheck.
  rewrite (shape_check_grad_output_iff self w go kd kh kw sd sh sw pd ph pw
             Hself Hw Hfits Hcheck).
  rewrite Hout. unfold forward_output_spec. cbn [sizes tl].
  rewrite (view_weight_2d_size0 _ _ Hview). reflexivity.
Qed.

(** ** When the input-gradient pass succeeds *)








(** ** When the parameter-gradient pass succeeds *)










End Properties.

(** C6. For an input of sizes (1,1,4,4,4), a weight of sizes (1,1,2,2,2), a
    zero bias, stride 1 and padding 0, Forward succeeds, the output has sizes
    (1,1,3,3,3) and its voxel (z, y, x) is the dot product of the kernel with
    the 2x2x2 window of the input at (z, y, x). *)
Theorem forward_example_4x4x4_kernel_2x2x2 {R : Type} {ops : Scalar R}
    (input weight : list R) :
  (forall x, rmul rone x = x) -> (forall x, radd rzero x = x) ->
  length input = 64%nat -> length weight = 8%nat ->
  let run :=
    slow_conv3d_forward_cpu (mkTensor [1; 1; 4; 4; 4] input)
      (Some (mkTensor [1; 1; 2; 2; 2] weight)) [2; 2; 2]
      (Some (mkTensor [1] [rzero])) [1; 1; 1] [0; 0; 0] in
  fst run = Ok tt /\
  sizes (Fwd.output (snd run)) = [1; 1; 3; 3; 3] /\
  forall z y x, 0 <= z < 3 -> 0 <= y < 3 -> 0 <= x < 3 ->
    nth (Z.to_nat ((z * 3 + y) * 3 + x)) (data (Fwd.output (snd run))) rzero
    = window_dot input weight 4 4 2 2 2 z y x.
Proof.
  intros Hone Hzero Hinput Hweight.
  destruct ops as [zero one add mul junk].
  cbn [rmul rone radd rzero] in Hone, Hzero.
  do 64 (destruct input as [|? input]; [discriminate|]).
  destruct input; [|discriminate].
  do 8 (destruct weight as [|? weight]; [discriminate|]).
  destruct weight; [|discriminate].
  clear Hinput Hweight.
  intros run. vm_compute in run. subst run.
  cbn [fst snd Fwd.output sizes data].
  split; [reflexivity|]. split; [reflexivity|].
  intros z y x Hz Hy Hx.
  assert (Ez : z = 0 \/ z = 1 \/ z = 2) by lia.
  assert (Ey : y = 0 \/ y = 1 \/ y = 2) by lia.
  assert (Ex : x = 0 \/ x = 1 \/ x = 2) by lia.
  destruct Ez as [-> | [-> | ->]]; destruct Ey as [-> | [-> | ->]];
    destruct Ex as [-> | [-> | ->]];
    vm_compute; rewrite ?Hone, ?Hzero; reflexivity.
Qed.

(** * Concrete runs *)

(** C2: Backward with only the parameter gradients requested and a kernel
    depth of zero raises the validation error after grad_weight and grad_bias
    were resized and zero-filled. *)
Lemma backward_resizes_parameters_before_validation :
  let b := Bwd.mk None (Some empty0) (Some empty0) empty0 in
  let run :=
    slow_conv3d_backward_out_cpu Examples.grad (Examples.volume 2 1)
      (Some Examples.kernel) [0; 2; 2] [1; 1; 1] [0; 0; 0] Examples.columns b in
  slow_conv3d_shape_check (Examples.volume 2 1) (Some Examples.grad)
    (Some Examples.kernel) None 0 2 2 1 1 1 0 0 0 false
  = Err (InvalidArgument kernel_size_not_positive) /\
  fst run = Err (InvalidArgument kernel_size_not_positive) /\
  Bwd.grad_weight (snd run)
  = Some (mkTensor [1; 1; 2; 2; 2] [0; 0; 0; 0; 0; 0; 0; 0]) /\
  Bwd.grad_bias (snd run) = Some (mkTensor [1] [0]) /\
  snd run <> b.
Proof.
  cbv zeta. repeat split; try (vm_compute; reflexivity).
  vm_compute. discriminate.
Qed.

(** C4: a successful Forward returns fgrad_input as it was passed, an empty
    tensor of sizes (0). *)
Lemma forward_returns_fgrad_input_untouched :
  let run :=
    slow_conv3d_forward_cpu (Examples.volume 2 1) (Some Examples.kernel)
      [2; 2; 2] None [1; 1; 1] [0; 0; 0] in
  fst run = Ok tt /\
  sizes (Fwd.output (snd run)) = [2; 1; 3; 3; 3] /\
  sizes (Fwd.finput (snd run)) = [2; 8; 27] /\
  Fwd.fgrad_input (snd run) = mkTensor [0] [].
Proof.
  cbv zeta. repeat split; vm_compute; reflexivity.
Qed.

(** * Instances of the theorems *)

Ltac in_range_by_computation :=
  repeat split; vm_compute; intros Hcmp; discriminate Hcmp.

Ltac wf_by_computation :=
  split; [repeat constructor; vm_compute; intros Hcmp; discriminate Hcmp
         | vm_compute; intros Hcmp; discriminate Hcmp].

Lemma shape_check_accepts_input_iff_witness :
  input_shape_accepted (mkTensor [0; 1; 4; 4; 4] (@nil Z)) = true /\
  exists go w b kd kh kw sd sh sw pd ph pw wo,
    slow_conv3d_shape_check (mkTensor [0; 1; 4; 4; 4] (@nil Z)) go w b
      kd kh kw sd sh sw pd ph pw wo = Ok tt.
Proof.
  split; [reflexivity|].
  apply (proj1 (shape_check_accepts_input_iff
                  (mkTensor [0; 1; 4; 4; 4] (@nil Z))
                  ltac:(wf_by_computation))).
  reflexivity.
Defined.

Lemma shape_check_scalar_bias_witness :
  slow_conv3d_shape_check (Examples.volume 2 1)
    (Some (mkTensor [2; 1; 3; 3; 3] (range 54))) None
    (Some (mkTensor [] [7])) 2 2 2 1 1 1 0 0 0 true = Ok tt /\
  exists m,
    slow_conv3d_shape_check (Examples.volume 2 1)
      (Some (mkTensor [2; 1; 3; 3; 3] (range 54))) None
      (Some (mkTensor [0] [])) 2 2 2 1 1 1 0 0 0 true
    = Err (InvalidArgument m).
Proof.
  split.
  - apply (proj1 (shape_check_scalar_bias (Examples.volume 2 1)
                    (mkTensor [2; 1; 3; 3; 3] (range 54))
                    (mkTensor [] [7]) 2 2 2 1 1 1 0 0 0)).
    + reflexivity.
    + repeat split; vm_compute; reflexivity.
  - apply (proj2 (shape_check_scalar_bias (Examples.volume 2 1)
                    (mkTensor [2; 1; 3; 3; 3] (range 54))
                    (mkTensor [0] []) 2 2 2 1 1 1 0 0 0)).
    reflexivity.
Defined.

Lemma forward_output_extents_witness :
  exists n c,
    sizes (Fwd.output (snd (slow_conv3d_forward_out_cpu (Examples.volume 2 1)
                              (Some Examples.kernel) [2; 2; 2] None
                              [1; 1; 1] [0; 0; 0] Examples.fresh)))
    = [n; c; 3; 3; 3].
Proof.
  destruct (forward_output_extents (Examples.volume 2 1)
              (Some Examples.kernel) None 2 2 2 1 1 1 0 0 0 Examples.fresh)
    as [Hok _].
  - wf_by_computation.
  - intros w Hw. inversion Hw. wf_by_computation.
  - in_range_by_computation.
  - destruct Hok as ((n & c & Hs) & _); [vm_compute; reflexivity|].
    exists n, c. exact Hs.
Defined.

Lemma forward_writes_output_and_finput_only_witness :
  Fwd.fgrad_input (snd (slow_conv3d_forward_out_cpu (Examples.volume 2 1)
                          (Some Examples.kernel) [2; 2; 2] None
                          [1; 1; 1] [0; 0; 0] Examples.fresh))
  = empty0 /\
  exists w2d,
    Fwd.output (snd (slow_conv3d_forward_out_cpu (Examples.volume 2 1)
                       (Some Examples.kernel) [2; 2; 2] None
                       [1; 1; 1] [0; 0; 0] Examples.fresh))
    = forward_output_spec (Examples.volume 2 1) w2d None 2 2 2 1 1 1 0 0 0.
Proof.
  destruct (forward_writes_output_and_finput_only (Examples.volume 2 1)
              (Some Examples.kernel) None 2 2 2 1 1 1 0 0 0 Examples.fresh)
    as [Hfg Hok].
  split; [exact Hfg|].
  destruct Hok as (w & w2d & _ & _ & Ho & _).
  - wf_by_computation.
  - intros w Hw. inversion Hw. wf_by_computation.
  - split; [|split]; in_range_by_computation.
  - vm_compute. reflexivity.
  - exists w2d. exact Ho.
Defined.

Lemma forward_empty_batch_witness :
  slow_conv3d_forward_out_cpu (Examples.volume 0 1) (Some Examples.kernel)
    [2; 2; 2] None [1; 1; 1] [0; 0; 0] Examples.fresh
  = (Ok tt,
     Fwd.mk (mkTensor [0; 1; 3; 3; 3] []) (mkTensor [0; 8; 27] []) empty0).
Proof.
  apply (proj2 (forward_empty_batch (Examples.volume 0 1) Examples.kernel
                  None 2 2 2 1 1 1 0 0 0 Examples.fresh
                  ltac:(wf_by_computation) ltac:(wf_by_computation)
                  ltac:(split; [|split]; in_range_by_computation)
                  eq_refl eq_refl)).
Defined.

Lemma update_output_frame_result_witness :
  let weight := mkTensor [1; 8] [1; 2; 3; 4; 5; 6; 7; 8] in
  let run :=
    slow_conv3d_update_output_frame (block (Examples.volume 2 1) 1) weight
      (Some (mkTensor [1] [10])) 2 2 2 1 1 1 0 0 0 1 4 4 4 1 3 3 3
      (mkTensor [1; 3; 3; 3] (repeat 9 27), mkTensor [8; 27] []) in
  nth 13 (data (fst (snd run))) 0
  = 10 + mm_entry weight (snd (snd run)) 0 13.
Proof.
  intros weight run.
  destruct (update_output_frame_result (block (Examples.volume 2 1) 1) weight
              (Some (mkTensor [1] [10])) 2 2 2 1 1 1 0 0 0 1 4 4 4 1 3 3 3
              (mkTensor [1; 3; 3; 3] (repeat 9 27)) (mkTensor [8; 27] [])
              (fst (snd run)) (snd (snd run)))
    as (_ & _ & Hentry).
  - exact Z.mul_1_l.
  - reflexivity.
  - lia.
  - lia.
  - lia.
  - lia.
  - reflexivity.
  - reflexivity.
  - vm_compute. reflexivity.
  - intros b Hb. inversion Hb. reflexivity.
  - vm_compute. reflexivity.
  - apply (Hentry 0 13); lia.
Defined.

Lemma forward_example_4x4x4_kernel_2x2x2_witness :
  let run :=
    slow_conv3d_forward_cpu (mkTensor [1; 1; 4; 4; 4] (range 64))
      (Some (mkTensor [1; 1; 2; 2; 2] [1; 2; 3; 4; 5; 6; 7; 8])) [2; 2; 2]
      (Some (mkTensor [1] [0])) [1; 1; 1] [0; 0; 0] in
  fst run = Ok tt /\
  sizes (Fwd.output (snd run)) = [1; 1; 3; 3; 3] /\
  nth 26 (data (Fwd.output (snd run))) 0 = 2036.
Proof.
  intros run.
  destruct (forward_example_4x4x4_kernel_2x2x2 (ops := Z_Scalar) (range 64)
              [1; 2; 3; 4; 5; 6; 7; 8] Z.mul_1_l Z.add_0_l eq_refl eq_refl)
    as (Hok & Hsizes & Hvoxel).
  split; [exact Hok|]. split; [exact Hsizes|].
  refine (eq_trans (Hvoxel 2 2 2 _ _ _) _); try lia.
  vm_compute. reflexivity.
Defined.

Lemma batch_independence_witness :
  let forward := fun (x : Tensor Z) =>
    slow_conv3d_forward_out_cpu x (Some Examples.kernel) [2; 2; 2] None
      [1; 1; 1] [0; 0; 0] Examples.fresh in
  let backward := fun (g x f : Tensor Z) =>
    slow_conv3d_backward_out_cpu_template g x (Some Examples.kernel) f
      [2; 2; 2] [1; 1; 1] [0; 0; 0] (empty0, empty0) in
  data (Fwd.output (snd (forward (Examples.volume 2 1))))
  = flat_map
      (fun t => data (Fwd.output
                        (snd (forward (batch_item (Examples.volume 2 1) t)))))
      [0; 1] /\
  data (fst (snd (backward Examples.grad (Examples.volume 2 1)
                    Examples.columns)))
  = flat_map
      (fun t =>
         data (fst (snd (backward (batch_item Examples.grad t)
                           (batch_item (Examples.volume 2 1) t)
                           (batch_item Examples.columns t)))))
      [0; 1].
Proof.
  intros forward backward.
  destruct (batch_independence (Examples.volume 2 1) Examples.kernel None
              2 2 2 1 1 1 0 0 0) as [Hfwd Hbwd].
  split.
  - destruct (Hfwd Examples.fresh (snd (forward (Examples.volume 2 1)))
                (fun _ => Examples.fresh)) as (_ & Ho & _).
    + wf_by_computation.
    + wf_by_computation.
    + split; [|split]; in_range_by_computation.
    + vm_compute. reflexivity.
    + exact Ho.
  - destruct (Hbwd Examples.grad Examples.columns empty0 empty0
                (fst (snd (backward Examples.grad (Examples.volume 2 1)
                             Examples.columns)))
                (snd (snd (backward Examples.grad (Examples.volume 2 1)
                             Examples.columns)))
                (fun _ => (empty0, empty0))) as (_ & Hg).
    + wf_by_computation.
    + wf_by_computation.
    + reflexivity.
    + reflexivity.
    + vm_compute. reflexivity.
    + exact Hg.
Defined.

Lemma validation_failure_and_buffers_witness :
  let self := Examples.volume 2 1 in
  let e := InvalidArgument kernel_size_not_positive in
  slow_conv3d_forward_out_cpu self (Some Examples.kernel) [0; 2; 2] None
    [1; 1; 1] [0; 0; 0] Examples.fresh = (Err e, Examples.fresh) /\
  slow_conv3d_backward_out_cpu Examples.grad self (Some Examples.kernel)
    [0; 2; 2] [1; 1; 1] [0; 0; 0] Examples.columns
    (Bwd.mk (Some empty0) (Some empty0) (Some empty0) empty0)
  = (Err e, Bwd.mk (Some empty0) (Some empty0) (Some empty0) empty0) /\
  slow_conv3d_backward_out_cpu Examples.grad self (Some Examples.kernel)
    [0; 2; 2] [1; 1; 1] [0; 0; 0] Examples.columns
    (Bwd.mk None (Some empty0) (Some empty0) empty0)
  = (Err e,
     Bwd.mk None (Some (mkTensor [1; 1; 2; 2; 2] (repeat 0 8)))
       (Some (mkTensor [1] [0])) empty0).
Proof.
  intros self e.
  destruct (validation_failure_and_buffers self Examples.grad
              Examples.columns (Some Examples.kernel) None
              0 2 2 1 1 1 0 0 0 e) as (Hfwd & Hbwd & Hpar).
  split; [|split].
  - apply Hfwd. reflexivity.
  - apply (Hbwd _ empty0); reflexivity.
  - apply (Hpar (Bwd.mk None (Some empty0) (Some empty0) empty0)
             Examples.kernel).
    + reflexivity.
    + reflexivity.
    + right. vm_compute. intros Hcmp. discriminate Hcmp.
    + reflexivity.
    + reflexivity.
Defined.

(** * Instances of the further theorems *)

Lemma shape_check_nonpositive_kernel_or_stride_witness :
  slow_conv3d_shape_check (Examples.volume 2 1) None (Some Examples.kernel)
    None 0 2 2 1 1 1 0 0 0 false
  = Err (InvalidArgument kernel_size_not_positive) /\
  slow_conv3d_shape_check (Examples.volume 2 1) None (Some Examples.kernel)
    None 2 2 2 1 0 1 0 0 0 false
  = Err (InvalidArgument stride_not_positive).
Proof.
  split.
  - apply (proj1 (shape_check_nonpositive_kernel_or_stride
                    (Examples.volume 2 1) None (Some Examples.kernel) None
                    0 2 2 1 1 1 0 0 0 false)).
    left. lia.
  - apply (proj2 (shape_check_nonpositive_kernel_or_stride
                    (Examples.volume 2 1) None (Some Examples.kernel) None
                    2 2 2 1 0 1 0 0 0 false)).
    + lia.
    + right. left. lia.
Defined.

Lemma shape_check_malformed_weight_witness :
  slow_conv3d_shape_check (Examples.volume 2 1) None None None
    2 2 2 1 1 1 0 0 0 false
  = Err (InvalidArgument weight_undefined) /\
  slow_conv3d_shape_check (Examples.volume 2 1) None
    (Some (mkTensor [2; 2; 2] (range 8))) None 2 2 2 1 1 1 0 0 0 false
  = Err (InvalidArgument weight_not_nonempty_2D_or_5D).
Proof.
  split.
  - destruct (shape_check_malformed_weight (Examples.volume 2 1) None None
                None 2 2 2 1 1 1 0 0 0 false) as (Hundef & _);
      [lia|lia|].
    apply Hundef; reflexivity.
  - destruct (shape_check_malformed_weight (Examples.volume 2 1) None
                (Some (mkTensor [2; 2; 2] (range 8))) None
                2 2 2 1 1 1 0 0 0 false) as (_ & Hrank & _);
      [lia|lia|].
    apply (Hrank (mkTensor [2; 2; 2] (range 8)) eq_refl).
    right. split; vm_compute; intros Hcmp; discriminate Hcmp.
Defined.

Lemma shape_check_kernel_larger_than_padded_input_witness :
  slow_conv3d_shape_check (Examples.volume 2 1) None (Some Examples.kernel)
    None 5 2 2 1 1 1 0 0 0 false
  = Err (InvalidArgument kernel_larger_than_padded_input).
Proof.
  apply (shape_check_kernel_larger_than_padded_input (Examples.volume 2 1)
           None (Some Examples.kernel) None 5 2 2 1 1 1 0 0 0 false).
  - wf_by_computation.
  - lia.
  - lia.
  - split; [reflexivity|]. split; [right; reflexivity|exact I].
  - reflexivity.
  - in_range_by_computation.
  - in_range_by_computation.
  - in_range_by_computation.
  - left. vm_compute. reflexivity.
Defined.

Lemma shape_check_ignores_grad_output_batch_witness :
  slow_conv3d_shape_check (Examples.volume 2 1)
    (Some (with_leading_size Examples.grad 7)) (Some Examples.kernel) None
    2 2 2 1 1 1 0 0 0 false = Ok tt.
Proof.
  refine (eq_trans
            (shape_check_ignores_grad_output_batch (Examples.volume 2 1)
               Examples.grad (Some Examples.kernel) None
               2 2 2 1 1 1 0 0 0 false 7 _) _).
  - vm_compute. intros Hcmp. discriminate Hcmp.
  - vm_compute. reflexivity.
Defined.

Lemma view_weight_2d_matrix_witness :
  exists w2d,
    view_weight_2d Examples.kernel = Ok w2d /\ dim w2d = 2 /\
    size w2d 0 * size w2d 1 = 8.
Proof.
  destruct (view_weight_2d_matrix Examples.kernel) as
    (w2d & Hview & Hdim & _ & Hnum & _).
  - wf_by_computation.
  - reflexivity.
  - right. reflexivity.
  - exists w2d. repeat split; assumption.
Defined.

Lemma forward_weight_matches_kernel_volume_witness :
  size Examples.kernel 1 = size (Examples.volume 2 1) 1 /\
  size Examples.kernel 2 * size Examples.kernel 3 * size Examples.kernel 4
  = 2 * 2 * 2.
Proof.
  destruct (forward_weight_matches_kernel_volume (Examples.volume 2 1)
              Examples.kernel None 2 2 2 1 1 1 0 0 0 Examples.fresh
              (snd (slow_conv3d_forward_out_cpu (Examples.volume 2 1)
                      (Some Examples.kernel) [2; 2; 2] None [1; 1; 1]
                      [0; 0; 0] Examples.fresh))) as (H5 & _).
  - wf_by_computation.
  - wf_by_computation.
  - split; [|split]; in_range_by_computation.
  - vm_compute. intros Hcmp. discriminate Hcmp.
  - vm_compute. reflexivity.
  - apply H5. reflexivity.
Defined.

Lemma forward_cpu_agrees_with_forward_out_witness :
  let given := Fwd.mk Examples.grad Examples.columns Examples.kernel in
  Fwd.output (snd (slow_conv3d_forward_cpu (Examples.volume 2 1)
                     (Some Examples.kernel) [2; 2; 2] None [1; 1; 1]
                     [0; 0; 0]))
  = Fwd.output (snd (slow_conv3d_forward_out_cpu (Examples.volume 2 1)
                       (Some Examples.kernel) [2; 2; 2] None [1; 1; 1]
                       [0; 0; 0] given)).
Proof.
  intros given.
  pose proof (forward_cpu_agrees_with_forward_out (Examples.volume 2 1)
                Examples.kernel None 2 2 2 1 1 1 0 0 0 given) as Hagree.
  cbv zeta in Hagree.
  destruct Hagree as (_ & Hsame).
  - wf_by_computation.
  - wf_by_computation.
  - split; [|split]; in_range_by_computation.
  - destruct Hsame as (Houtput & _); [vm_compute; reflexivity|].
    exact Houtput.
Defined.

Lemma slow_conv3d_out_agrees_with_slow_conv3d_witness :
  exists t,
    slow_conv3d (Examples.volume 2 1) (Some Examples.kernel) [2; 2; 2] None
      [1; 1; 1] [0; 0; 0] = Ok t /\
    slow_conv3d_out Examples.grad (Examples.volume 2 1)
      (Some Examples.kernel) [2; 2; 2] None [1; 1; 1] [0; 0; 0] = (Ok tt, t).
Proof.
  pose proof (slow_conv3d_out_agrees_with_slow_conv3d Examples.grad
                (Examples.volume 2 1) Examples.kernel None
                2 2 2 1 1 1 0 0 0) as Hagree.
  destruct (slow_conv3d (Examples.volume 2 1) (Some Examples.kernel)
              [2; 2; 2] None [1; 1; 1] [0; 0; 0]) as [t|e] eqn:Hrun.
  - exists t. split; [reflexivity|]. apply Hagree.
    + wf_by_computation.
    + wf_by_computation.
    + split; [|split]; in_range_by_computation.
  - vm_compute in Hrun. discriminate Hrun.
Defined.

Lemma grad_input_pass_needs_batch_items_witness :
  1 < size Examples.grad 0 /\ 1 < size Examples.columns 0.
Proof.
  apply (grad_input_pass_needs_batch_items Examples.grad
           (Examples.volume 2 1) Examples.columns (Some Examples.kernel)
           2 2 2 1 1 1 0 0 0 empty0 empty0
           (snd (slow_conv3d_backward_out_cpu_template Examples.grad
                   (Examples.volume 2 1) (Some Examples.kernel)
                   Examples.columns [2; 2; 2] [1; 1; 1] [0; 0; 0]
                   (empty0, empty0)))).
  - vm_compute. reflexivity.
  - unfold size. simpl. lia.
Defined.

Lemma grad_input_frame_result_witness :
  let run :=
    slow_conv3d_backward_update_grad_input_frame (block Examples.grad 0)
      (mkTensor [8; 1] [1; 2; 3; 4; 5; 6; 7; 8]) 2 2 2 1 1 1 0 0 0
      (mkTensor [1; 4; 4; 4] (repeat 5 64),
       mkTensor [8; 27] (repeat 0 216)) in
  sizes (snd (snd run)) = [8; 27] /\ sizes (fst (snd run)) = [1; 4; 4; 4].
Proof.
  intros run.
  destruct (grad_input_frame_result (ops := Z_Scalar) (block Examples.grad 0)
              (mkTensor [8; 1] [1; 2; 3; 4; 5; 6; 7; 8]) 2 2 2 1 1 1 0 0 0
              (mkTensor [1; 4; 4; 4] (repeat 5 64))
              (mkTensor [8; 27] (repeat 0 216))
              (fst (snd run)) (snd (snd run))) as (Hcolumns & Hvolume).
  - reflexivity.
  - exact Z.add_0_l.
  - exact Z.mul_1_l.
  - apply (Forall_repeat_zero (ops := Z_Scalar)).
  - vm_compute. reflexivity.
  - split.
    + exact (f_equal sizes Hcolumns).
    + exact (f_equal sizes Hvolume).
Defined.

Lemma grad_input_pass_result_witness :
  sizes (fst (snd (slow_conv3d_backward_out_cpu_template Examples.grad
                     (Examples.volume 2 1) (Some Examples.kernel)
                     Examples.columns [2; 2; 2] [1; 1; 1] [0; 0; 0]
                     (empty0, empty0))))
  = [2; 1; 4; 4; 4].
Proof.
  destruct (grad_input_pass_result Examples.grad (Examples.volume 2 1)
              Examples.kernel Examples.columns 2 2 2 1 1 1 0 0 0
              empty0 empty0
              (fst (snd (slow_conv3d_backward_out_cpu_template Examples.grad
                           (Examples.volume 2 1) (Some Examples.kernel)
                           Examples.columns [2; 2; 2] [1; 1; 1] [0; 0; 0]
                           (empty0, empty0))))
              (snd (snd (slow_conv3d_backward_out_cpu_template Examples.grad
                           (Examples.volume 2 1) (Some Examples.kernel)
                           Examples.columns [2; 2; 2] [1; 1; 1] [0; 0; 0]
                           (empty0, empty0)))))
    as (w2d & tw & _ & _ & _ & Hsizes & _).
  - wf_by_computation.
  - wf_by_computation.
  - reflexivity.
  - vm_compute. reflexivity.
  - exact Hsizes.
Defined.

Lemma parameters_frame_accumulates_witness :
  let go_t := block Examples.grad 0 in
  let run :=
    slow_conv3d_backward_parameters_frame go_t
      (Some (block Examples.columns 0))
      (Some (mkTensor [1; 8] (repeat 0 8)), Some (mkTensor [1] [100])) in
  match snd (snd run) with
  | Some gb' =>
      nth 0 (data gb') 0
      = 100 + row_sum (mkTensor [1; 27] (data go_t)) 0
  | None => False
  end.
Proof.
  intros go_t run.
  pose proof (parameters_frame_accumulates (ops := Z_Scalar) go_t
                (Some (block Examples.columns 0))
                (Some (mkTensor [1; 8] (repeat 0 8)))
                (Some (mkTensor [1] [100])) (snd run)) as Hframe.
  cbv zeta in Hframe.
  destruct Hframe as (_ & Hbias).
  - exact Z.mul_1_l.
  - intros b Hb. inversion Hb. reflexivity.
  - vm_compute. reflexivity.
  - destruct (snd (snd run)) as [gb'|]; [|exact Hbias].
    destruct Hbias as (_ & Hentry).
    apply (Hentry 0). unfold size. simpl. lia.
Defined.

Lemma backward_cpu_returns_what_the_mask_requests_witness :
  slow_conv3d_backward_cpu Examples.grad (Examples.volume 2 1)
    (Some Examples.kernel) [0; 2; 2] [1; 1; 1] [0; 0; 0] Examples.columns
    empty0 (false, false, false)
  = (Ok tt, Bwd.mk None None None empty0).
Proof.
  apply (backward_cpu_returns_what_the_mask_requests Examples.grad
           (Examples.volume 2 1) Examples.columns empty0
           (Some Examples.kernel) [0; 2; 2] [1; 1; 1] [0; 0; 0]
           false false false).
  reflexivity.
Defined.

Lemma backward_out_keeps_what_is_requested_witness :
  let b := Bwd.mk None (Some empty0) (Some empty0) Examples.kernel in
  Bwd.fgrad_input
    (snd (slow_conv3d_backward_out_cpu Examples.grad (Examples.volume 2 1)
            (Some Examples.kernel) [2; 2; 2] [1; 1; 1] [0; 0; 0]
            Examples.columns b))
  = Examples.kernel.
Proof.
  intros b.
  apply (backward_out_keeps_what_is_requested Examples.grad
           (Examples.volume 2 1) Examples.columns (Some Examples.kernel)
           [2; 2; 2] [1; 1; 1] [0; 0; 0] b).
  reflexivity.
Defined.



Lemma forward_succeeds_iff_witness :
  fst (slow_conv3d_forward_out_cpu (Examples.volume 2 1)
         (Some Examples.kernel) [2; 2; 2] None [1; 1; 1] [0; 0; 0]
         Examples.fresh) = Ok tt.
Proof.
  apply (proj2 (forward_succeeds_iff (Examples.volume 2 1) Examples.kernel
                  None 2 2 2 1 1 1 0 0 0 Examples.fresh
                  ltac:(wf_by_computation) ltac:(wf_by_computation)
                  ltac:(split; [|split]; in_range_by_computation))).
  split; [vm_compute; reflexivity|].
  intros _. exists (mkTensor [1; 8] [1; 2; 3; 4; 5; 6; 7; 8]).
  split; vm_compute; reflexivity.
Defined.

Lemma shape_check_accepts_grad_output_like_forward_output_witness :
  slow_conv3d_shape_check (Examples.volume 2 1)
    (Some (with_leading_size Examples.grad 7)) (Some Examples.kernel) None
    2 2 2 1 1 1 0 0 0 false = Ok tt.
Proof.
  apply (proj2 (shape_check_accepts_grad_output_like_forward_output
                  (Examples.volume 2 1) Examples.kernel
                  (with_leading_size Examples.grad 7) None
                  2 2 2 1 1 1 0 0 0 Examples.fresh
                  (snd (slow_conv3d_forward_out_cpu (Examples.volume 2 1)
                          (Some Examples.kernel) [2; 2; 2] None [1; 1; 1]
                          [0; 0; 0] Examples.fresh))
                  ltac:(wf_by_computation) ltac:(wf_by_computation)
                  ltac:(split; [|split]; in_range_by_computation)
                  ltac:(vm_compute; reflexivity))).
  split; vm_compute; reflexivity.
Defined.


